(** * The decision engine of the workflow client: event handler, workflow
    context and workflow definition adapter.

    Shallow embedding of [client/flow/event_handlers.go], of the types of
    [client/flow/worker_interfaces.go] and of the workflow definition adapter
    ([workflowDefinition], [contextImpl]).  Go pointers to optional values are
    [option]s, maps are [gmap]s, [int32] is [Z] with its wrap-around written
    out, and a Go panic is an explicit outcome of every effectful function.
    The coroutine package and the user workflow code, which the adapter runs
    but which are not among the sources, are a parameter: a [Runtime].
    Module [metrics] embeds the reporter of the stress runs, [SimpleReporter]
    with its stop watch. *)

From Stdlib Require Import ZArith List Lia.
From Stdlib Require Import Strings.String Strings.Byte.
From stdpp Require Import base option gmap strings pretty.

Local Open Scope Z_scope.
Local Open Scope string_scope.
Local Open Scope list_scope.

(** ** Basic data *)

(** [[]byte]; a nil slice and an empty slice are both the empty list. *)
Definition bytes := list Byte.byte.

(** [[]byte(s)] for a Go string [s]. *)
Definition bytes_of_string (s : string) : bytes := list_byte_of_string s.

(** Two's complement wrap-around of [int32] arithmetic. *)
Definition wrap32 (z : Z) : Z := (z + 2 ^ 31) mod 2 ^ 32 - 2 ^ 31.

Definition MaxInt32 : Z := 2 ^ 31 - 1.
Definition MinInt32 : Z := - 2 ^ 31.

(** [fmt.Sprintf("%d", v)]: the decimal form, with a leading minus sign for
    negative numbers. *)
Definition Sprintf_d (v : Z) : string := pretty v.

(** ** The generated Thrift types (package [m])

    Modelled from the spec: the generated package [.gen/go/minions] is not
    among the sources; section 3 of the specification describes its events
    and decisions, and the flow package shows which fields it uses and how.
    Only the fields the flow package reads or writes are kept.  A field the
    code reads through its generated getter ([GetEventId], [GetEventType],
    [GetActivityId], [GetScheduledEventId], [GetResult_], [GetTimeoutType])
    holds the value that getter returns; a field the code reads or writes
    directly keeps its Go shape, a pointer being an [option]. *)
Module m.

Record ActivityType := { ActivityType_Name : option string }.
Record WorkflowType := { WorkflowType_Name : option string }.
Record TaskList := { TaskList_Name : option string }.
Record WorkflowExecution := { WorkflowId : option string; RunId : option string }.

Inductive DecisionType :=
| DecisionType_ScheduleActivityTask
| DecisionType_CompleteWorkflowExecution
| DecisionType_FailWorkflowExecution
| DecisionType_StartTimer
| DecisionType_CancelTimer.

Inductive TimeoutType :=
| TimeoutType_START_TO_CLOSE
| TimeoutType_SCHEDULE_TO_START
| TimeoutType_SCHEDULE_TO_CLOSE
| TimeoutType_HEARTBEAT.

(** The discriminants [ProcessEvent] names, and [EventType_Other] for every
    other value of the enumeration's underlying integer. *)
Inductive EventType :=
| EventType_WorkflowExecutionStarted
| EventType_WorkflowExecutionCompleted
| EventType_WorkflowExecutionFailed
| EventType_WorkflowExecutionTimedOut
| EventType_DecisionTaskScheduled
| EventType_DecisionTaskStarted
| EventType_DecisionTaskTimedOut
| EventType_DecisionTaskCompleted
| EventType_ActivityTaskScheduled
| EventType_ActivityTaskStarted
| EventType_ActivityTaskCompleted
| EventType_ActivityTaskFailed
| EventType_ActivityTaskTimedOut
| EventType_TimerStarted
| EventType_TimerFired
| EventType_Other (code : Z).

Module ScheduleActivityTaskDecisionAttributes.
Record t := {
  ActivityId : option string;
  ActivityType : option m.ActivityType;
  TaskList : option m.TaskList;
  Input : bytes;
  ScheduleToCloseTimeoutSeconds : option Z;
  ScheduleToStartTimeoutSeconds : option Z;
  StartToCloseTimeoutSeconds : option Z
}.
Definition GetActivityId (p : t) : string := default "" (ActivityId p).
End ScheduleActivityTaskDecisionAttributes.

Module Decision.
Record t := {
  DecisionType : option m.DecisionType;
  ScheduleActivityTaskDecisionAttributes :
    option ScheduleActivityTaskDecisionAttributes.t
}.
End Decision.

Module WorkflowExecutionStartedEventAttributes.
Record t := { Input : bytes }.
End WorkflowExecutionStartedEventAttributes.

Module ActivityTaskScheduledEventAttributes.
Record t := { ActivityId : string }.
End ActivityTaskScheduledEventAttributes.

Module ActivityTaskCompletedEventAttributes.
Record t := { Result_ : bytes; ScheduledEventId : Z }.
End ActivityTaskCompletedEventAttributes.

Module ActivityTaskFailedEventAttributes.
Record t := { Reason : option string; Details : bytes; ScheduledEventId : Z }.
End ActivityTaskFailedEventAttributes.

Module ActivityTaskTimedOutEventAttributes.
Record t := { ScheduledEventId : Z; TimeoutType : m.TimeoutType }.
End ActivityTaskTimedOutEventAttributes.

Module HistoryEvent.
Record t := {
  EventId : Z;
  EventType : m.EventType;
  WorkflowExecutionStartedEventAttributes :
    option WorkflowExecutionStartedEventAttributes.t;
  ActivityTaskScheduledEventAttributes :
    option ActivityTaskScheduledEventAttributes.t;
  ActivityTaskCompletedEventAttributes :
    option ActivityTaskCompletedEventAttributes.t;
  ActivityTaskFailedEventAttributes :
    option ActivityTaskFailedEventAttributes.t;
  ActivityTaskTimedOutEventAttributes :
    option ActivityTaskTimedOutEventAttributes.t
}.
End HistoryEvent.

End m.

(** ** Package [common]: the boxing helpers *)
Module common.
Definition Int32Ptr (v : Z) : option Z := Some v.
Definition StringPtr (v : string) : option string := Some v.
Definition TaskListPtr (v : m.TaskList) : option m.TaskList := Some v.
Definition ActivityTypePtr (v : m.ActivityType) : option m.ActivityType := Some v.
Definition DecisionTypePtr (t : m.DecisionType) : option m.DecisionType := Some t.
End common.

(** ** Errors *)

(** The implementations of the [Error] interface the flow package builds:
    [errorImpl] (through [NewError]) and the two activity errors the event
    handler passes to callbacks.  Modelled from the spec:
    [ActivityTaskFailedError] and [ActivityTaskTimeoutError] are declared
    outside the sources; they carry what section 6 of the specification
    says, which are the fields the event handler sets. *)
Inductive Error :=
| errorImpl (reason : string) (details : bytes)
| ActivityTaskFailedError (reason : string) (details : bytes)
| ActivityTaskTimeoutError (TimeoutType : m.TimeoutType).

Definition NewError (reason : string) (details : bytes) : Error :=
  errorImpl reason details.

(** An argument of a [%v] verb. *)
Inductive fmtArg :=
| ArgEvent (e : m.HistoryEvent.t)
| ArgCompleted (a : m.ActivityTaskCompletedEventAttributes.t)
| ArgFailed (a : m.ActivityTaskFailedEventAttributes.t)
| ArgTimedOut (a : m.ActivityTaskTimedOutEventAttributes.t)
| ArgString (s : string).

(** Go's [error]: what [fmt.Errorf] builds (the format with its arguments), or
    an [Error] of the workflow definition factory. *)
Inductive error :=
| Errorf (format : string) (args : list fmtArg)
| ErrorOf (e : Error).

(** ** worker_interfaces.go *)

Record ExecuteActivityParameters := {
  ActivityID : option string;
  ActivityType : m.ActivityType;
  TaskListName : string;
  Input : bytes;
  ScheduleToCloseTimeoutSeconds : Z;
  ScheduleToStartTimeoutSeconds : Z;
  StartToCloseTimeoutSeconds : Z;
  HeartbeatTimeoutSeconds : Z
}.

Record WorkflowInfo := {
  workflowExecution : m.WorkflowExecution;
  workflowType : m.WorkflowType;
  taskListName : string
}.

(** ** The workflow context (event_handlers.go)

    [ResultHandler] is the type of the non-nil callbacks; a map value of
    [None] is a nil [ResultHandler].  The completion handler and the workflow
    definition factory, both closures supplied at construction, belong to the
    event handler's environment below. *)
Section WorkflowContext.

Context {ResultHandler : Type}.

Record workflowContext := {
  workflowInfo : WorkflowInfo;
  scheduledActivites : gmap string (option ResultHandler);
  scheduledEventIDToActivityID : gmap Z string;
  counterID : Z;
  executeDecisions : list m.Decision.t
}.

Definition newWorkflowContext (info : WorkflowInfo) : workflowContext :=
  {| workflowInfo := info;
     scheduledActivites := ∅;
     scheduledEventIDToActivityID := ∅;
     counterID := 0;
     executeDecisions := [] |}.

Definition GenerateActivityID (wc : workflowContext) : string * workflowContext :=
  let activityID := counterID wc in
  (Sprintf_d activityID,
   {| workflowInfo := workflowInfo wc;
      scheduledActivites := scheduledActivites wc;
      scheduledEventIDToActivityID := scheduledEventIDToActivityID wc;
      counterID := wrap32 (counterID wc + 1);
      executeDecisions := executeDecisions wc |}).

Definition SwapExecuteDecisions (decisions : list m.Decision.t)
    (wc : workflowContext) : list m.Decision.t * workflowContext :=
  let oldDecisions := executeDecisions wc in
  (oldDecisions,
   {| workflowInfo := workflowInfo wc;
      scheduledActivites := scheduledActivites wc;
      scheduledEventIDToActivityID := scheduledEventIDToActivityID wc;
      counterID := counterID wc;
      executeDecisions := decisions |}).

Definition CreateNewDecision (decisionType : m.DecisionType) : m.Decision.t :=
  {| m.Decision.DecisionType := common.DecisionTypePtr decisionType;
     m.Decision.ScheduleActivityTaskDecisionAttributes := None |}.

(** The assignments of [ExecuteActivity] to [scheduleTaskAttr], given the
    activity id already chosen. *)
Definition scheduleTaskAttrOf (activityId : option string)
    (parameters : ExecuteActivityParameters)
    : m.ScheduleActivityTaskDecisionAttributes.t :=
  {| m.ScheduleActivityTaskDecisionAttributes.ActivityId := activityId;
     m.ScheduleActivityTaskDecisionAttributes.ActivityType :=
       common.ActivityTypePtr (ActivityType parameters);
     m.ScheduleActivityTaskDecisionAttributes.TaskList :=
       common.TaskListPtr
         {| m.TaskList_Name := common.StringPtr (TaskListName parameters) |};
     m.ScheduleActivityTaskDecisionAttributes.Input := Input parameters;
     m.ScheduleActivityTaskDecisionAttributes.ScheduleToCloseTimeoutSeconds :=
       common.Int32Ptr (ScheduleToCloseTimeoutSeconds parameters);
     m.ScheduleActivityTaskDecisionAttributes.ScheduleToStartTimeoutSeconds :=
       common.Int32Ptr (ScheduleToStartTimeoutSeconds parameters);
     m.ScheduleActivityTaskDecisionAttributes.StartToCloseTimeoutSeconds :=
       common.Int32Ptr (StartToCloseTimeoutSeconds parameters) |}.

(** [callback] may be a nil function value ([None]).  The debug log line is
    not modelled. *)
Definition ExecuteActivity (parameters : ExecuteActivityParameters)
    (callback : option ResultHandler) (wc : workflowContext) : workflowContext :=
  let '(activityId, wc1) :=
    match ActivityID parameters with
    | None =>
        let '(id, wc') := GenerateActivityID wc in (common.StringPtr id, wc')
    | Some id => (Some id, wc)
    end in
  let scheduleTaskAttr := scheduleTaskAttrOf activityId parameters in
  let decision :=
    {| m.Decision.DecisionType :=
         m.Decision.DecisionType
           (CreateNewDecision m.DecisionType_ScheduleActivityTask);
       m.Decision.ScheduleActivityTaskDecisionAttributes :=
         Some scheduleTaskAttr |} in
  {| workflowInfo := workflowInfo wc1;
     scheduledActivites :=
       <[ m.ScheduleActivityTaskDecisionAttributes.GetActivityId scheduleTaskAttr
          := callback ]> (scheduledActivites wc1);
     scheduledEventIDToActivityID := scheduledEventIDToActivityID wc1;
     counterID := counterID wc1;
     executeDecisions := executeDecisions wc1 ++ [decision] |}.

End WorkflowContext.

Arguments workflowContext : clear implicits.

(** ** Effects: state passing with Go panics

    An effectful Go function is a function from the state before the call to
    an outcome and the state after it.  A panic keeps the state reached when
    it was raised and skips the rest of the computation. *)
Inductive Res (A : Type) :=
| Val (a : A)
| Panicked (msg : string).

Arguments Val {A} a.
Arguments Panicked {A} msg.

Definition M (S A : Type) : Type := S -> Res A * S.

Definition ret {S A} (a : A) : M S A := fun s => (Val a, s).

Definition bind {S A B} (c : M S A) (k : A -> M S B) : M S B :=
  fun s =>
    match c s with
    | (Val a, s') => k a s'
    | (Panicked msg, s') => (Panicked msg, s')
    end.

Definition panic {S A} (msg : string) : M S A := fun s => (Panicked msg, s).

Definition gets {S A} (f : S -> A) : M S A := fun s => (Val (f s), s).

Definition modify {S} (f : S -> S) : M S unit := fun s => (Val tt, f s).

Notation "x <- c1 ;; c2" := (bind c1 (fun x => c2))
  (at level 100, c1 at next level, right associativity).
Notation "c1 ;; c2" := (bind c1 (fun _ => c2))
  (at level 100, right associativity).

(** The run-time panic of a nil pointer dereference or of a method call on a
    nil interface value. *)
Definition nilDereference : string :=
  "invalid memory address or nil pointer dereference".

(** Reading through a pointer.  A generated getter called on a nil attribute
    record reads a field of its receiver, so it dereferences it as well. *)
Definition deref {S A} (p : option A) : M S A :=
  match p with
  | Some a => ret a
  | None => panic nilDereference
  end.

(** ** The workflow execution event handler (event_handlers.go)

    The handler works against three interfaces: the callbacks registered in
    [scheduledActivites], the [WorkflowDefinition] the factory returns, and
    the completion handler.  [World] is the state those reach outside the
    workflow context. *)
Section EventHandler.

Context {ResultHandler WorkflowDefinition World : Type}.

(** [workflowExecutionEventHandler] with its embedded [*workflowContext] and
    its [workflowDefinition] field, next to the state of the outside
    world. *)
Record State := {
  context : workflowContext ResultHandler;
  weh_workflowDefinition : option WorkflowDefinition;
  world : World
}.

Definition setContext (wc : workflowContext ResultHandler) (s : State) : State :=
  {| context := wc; weh_workflowDefinition := weh_workflowDefinition s; world := world s |}.

Definition setWorkflowDefinition (d : option WorkflowDefinition) (s : State) : State :=
  {| context := context s; weh_workflowDefinition := d; world := world s |}.

Definition setWorld (w : World) (s : State) : State :=
  {| context := context s; weh_workflowDefinition := weh_workflowDefinition s; world := w |}.

(** Calling a non-nil [ResultHandler]. *)
Variable callResultHandler :
  ResultHandler -> bytes -> option Error -> M State unit.
(** [WorkflowDefinition.Execute(weh, input)]. *)
Variable Execute : WorkflowDefinition -> bytes -> M State unit.
(** The [workflowDefinitionFactory] field. *)
Variable workflowDefinitionFactory :
  m.WorkflowType -> M State (option WorkflowDefinition * option Error).
(** The [completeHandler] field. *)
Variable completeHandler : bytes -> option Error -> M State unit.

Definition newWorkflowExecutionEventHandler (info : WorkflowInfo) (w : World) : State :=
  {| context := newWorkflowContext info; weh_workflowDefinition := None; world := w |}.

Definition Complete (result : bytes) (err : option Error) : M State unit :=
  completeHandler result err.

(** The methods of the workflow context, on the handler's state. *)
Definition swapExecuteDecisions (decisions : list m.Decision.t)
    : M State (list m.Decision.t) :=
  fun s =>
    let '(old, wc) := SwapExecuteDecisions decisions (context s) in
    (Val old, setContext wc s).

Definition executeActivity (parameters : ExecuteActivityParameters)
    (callback : option ResultHandler) : M State unit :=
  modify (fun s => setContext (ExecuteActivity parameters callback (context s)) s).

Definition handleWorkflowExecutionStarted
    (attributes : option m.WorkflowExecutionStartedEventAttributes.t)
    : M State (option (list m.Decision.t) * option error) :=
  wc <- gets context ;;
  made <- workflowDefinitionFactory (workflowType (workflowInfo wc)) ;;
  let err := snd made in
  modify (setWorkflowDefinition (fst made)) ;;
  match err with
  | Some e => ret (None, Some (ErrorOf e))
  | None =>
      d <- deref (fst made) ;;
      a <- deref attributes ;;
      Execute d (m.WorkflowExecutionStartedEventAttributes.Input a) ;;
      decisions <- swapExecuteDecisions [] ;;
      ret (Some decisions, None)
  end.

Definition handleActivityTaskCompleted
    (attributes : option m.ActivityTaskCompletedEventAttributes.t)
    : M State (option (list m.Decision.t) * option error) :=
  a <- deref attributes ;;
  wc <- gets context ;;
  match scheduledEventIDToActivityID wc
          !! m.ActivityTaskCompletedEventAttributes.ScheduledEventId a with
  | None =>
      ret (None, Some (Errorf "unable to find activity ID for the event: %v"
                         [ArgCompleted a]))
  | Some activityID =>
      match scheduledActivites wc !! activityID with
      | None =>
          ret (None,
               Some (Errorf "unable to find callback handler for the event: %v with activity ID: %v"
                       [ArgCompleted a; ArgString activityID]))
      | Some handler =>
          match handler with
          | Some h =>
              callResultHandler h (m.ActivityTaskCompletedEventAttributes.Result_ a) None
          | None => ret tt
          end ;;
          decisions <- swapExecuteDecisions [] ;;
          ret (Some decisions, None)
      end
  end.

Definition handleActivityTaskFailed
    (attributes : option m.ActivityTaskFailedEventAttributes.t)
    : M State (option (list m.Decision.t) * option error) :=
  a <- deref attributes ;;
  wc <- gets context ;;
  match scheduledEventIDToActivityID wc
          !! m.ActivityTaskFailedEventAttributes.ScheduledEventId a with
  | None =>
      ret (None, Some (Errorf "unable to find activity ID for the event: %v"
                         [ArgFailed a]))
  | Some activityID =>
      match scheduledActivites wc !! activityID with
      | None =>
          ret (None,
               Some (Errorf "unable to find callback handler for the event: %v"
                       [ArgFailed a]))
      | Some handler =>
          match handler with
          | Some h =>
              reason <- deref (m.ActivityTaskFailedEventAttributes.Reason a) ;;
              let err :=
                ActivityTaskFailedError reason
                  (m.ActivityTaskFailedEventAttributes.Details a) in
              callResultHandler h [] (Some err)
          | None => ret tt
          end ;;
          decisions <- swapExecuteDecisions [] ;;
          ret (Some decisions, None)
      end
  end.

Definition handleActivityTaskTimedOut
    (attributes : option m.ActivityTaskTimedOutEventAttributes.t)
    : M State (option (list m.Decision.t) * option error) :=
  a <- deref attributes ;;
  wc <- gets context ;;
  match scheduledEventIDToActivityID wc
          !! m.ActivityTaskTimedOutEventAttributes.ScheduledEventId a with
  | None =>
      ret (None, Some (Errorf "unable to find activity ID for the event: %v"
                         [ArgTimedOut a]))
  | Some activityID =>
      match scheduledActivites wc !! activityID with
      | None =>
          ret (None,
               Some (Errorf "unable to find callback handler for the event: %v"
                       [ArgTimedOut a]))
      | Some handler =>
          match handler with
          | Some h =>
              let err :=
                ActivityTaskTimeoutError
                  (m.ActivityTaskTimedOutEventAttributes.TimeoutType a) in
              callResultHandler h [] (Some err)
          | None => ret tt
          end ;;
          decisions <- swapExecuteDecisions [] ;;
          ret (Some decisions, None)
      end
  end.

(** [weh.scheduledEventIDToActivityID[eventID] = activityID] *)
Definition recordScheduledEvent (eventID : Z) (activityID : string)
    (wc : workflowContext ResultHandler) : workflowContext ResultHandler :=
  {| workflowInfo := workflowInfo wc;
     scheduledActivites := scheduledActivites wc;
     scheduledEventIDToActivityID :=
       <[ eventID := activityID ]> (scheduledEventIDToActivityID wc);
     counterID := counterID wc;
     executeDecisions := executeDecisions wc |}.

(** A nil [*m.HistoryEvent] is [None].  In the result, [None] for the
    decisions is Go's nil slice and [None] for the error is a nil error. *)
Definition ProcessEvent (event : option m.HistoryEvent.t)
    : M State (option (list m.Decision.t) * option error) :=
  match event with
  | None => ret (None, Some (Errorf "nil event provided" []))
  | Some event =>
      match m.HistoryEvent.EventType event with
      | m.EventType_WorkflowExecutionStarted =>
          handleWorkflowExecutionStarted
            (m.HistoryEvent.WorkflowExecutionStartedEventAttributes event)
      | m.EventType_WorkflowExecutionCompleted
      | m.EventType_WorkflowExecutionFailed
      | m.EventType_WorkflowExecutionTimedOut
      | m.EventType_DecisionTaskScheduled
      | m.EventType_DecisionTaskStarted
      | m.EventType_DecisionTaskTimedOut
      | m.EventType_DecisionTaskCompleted => ret (None, None)
      | m.EventType_ActivityTaskScheduled =>
          attributes <- deref (m.HistoryEvent.ActivityTaskScheduledEventAttributes event) ;;
          modify (fun s =>
            setContext
              (recordScheduledEvent (m.HistoryEvent.EventId event)
                 (m.ActivityTaskScheduledEventAttributes.ActivityId attributes)
                 (context s)) s) ;;
          ret (None, None)
      | m.EventType_ActivityTaskStarted => ret (None, None)
      | m.EventType_ActivityTaskCompleted =>
          handleActivityTaskCompleted
            (m.HistoryEvent.ActivityTaskCompletedEventAttributes event)
      | m.EventType_ActivityTaskFailed =>
          handleActivityTaskFailed
            (m.HistoryEvent.ActivityTaskFailedEventAttributes event)
      | m.EventType_ActivityTaskTimedOut =>
          handleActivityTaskTimedOut
            (m.HistoryEvent.ActivityTaskTimedOutEventAttributes event)
      | m.EventType_TimerStarted
      | m.EventType_TimerFired => ret (None, None)
      | m.EventType_Other _ =>
          ret (None,
               Some (Errorf "missing event handler for event type: %v"
                       [ArgEvent event]))
      end
  end.

(** Feeding a history to the handler, one [ProcessEvent] call per event,
    keeping what every call returned.  The loop goes on after an error or a
    panic, from the state that call left. *)
Fixpoint processHistory (history : list (option m.HistoryEvent.t)) (s : State)
    : list (Res (option (list m.Decision.t) * option error)) * State :=
  match history with
  | [] => ([], s)
  | event :: rest =>
      let '(r, s1) := ProcessEvent event s in
      let '(rs, s2) := processHistory rest s1 in
      (r :: rs, s2)
  end.

End EventHandler.

Arguments State : clear implicits.

(** Running a list of effects in order. *)
Fixpoint forEach {S A} (f : A -> M S unit) (l : list A) : M S unit :=
  match l with
  | [] => ret tt
  | a :: rest => f a ;; forEach f rest
  end.

(** ** The coroutine runtime

    Modelled from the spec: package [common/coroutine] (the dispatcher, its
    coroutines and channels) is not among the sources.  Section 4.1 of the
    specification gives its contract: [ExecuteUntilAllBlocked] runs every
    runnable coroutine until all are blocked and returns a recovered panic
    (message and stack) or success; [Close] releases the dispatcher and
    subsequent pumps are rejected; a buffered channel's [SendAsync] does not
    block and tells whether the value was accepted.

    The user workflow code is not part of the sources either.  Both are taken
    together as a [Runtime]: a state machine over the coroutines of one
    dispatcher, which reports what the coroutines did to the workflow
    context while they ran. *)

(** Modelled from the spec: the recovered panic [ExecuteUntilAllBlocked]
    returns, with its [Error()] and [StackTrace()]. *)
Record PanicError := {
  PanicError_Error : string;
  PanicError_StackTrace : string
}.

(** [workflowResult] of the adapter. *)
Record workflowResult := {
  workflowResult_ : bytes;
  error_ : option Error
}.

Section Pumped.

Context {Coroutines Channel Ambient : Type}.

(** What one run of the coroutines did, in the order they did it:
    [calls] are the calls of the context's [ExecuteActivity], each with the
    result channel it created; [returned] is the pair the root function
    returned, if it returned during this run; [recovered] is the panic that
    ended the run, if a coroutine panicked. *)
Record Pumped := {
  calls : list (ExecuteActivityParameters * Channel);
  returned : option workflowResult;
  recovered : option PanicError;
  after : Coroutines;
  ambientAfter : Ambient
}.

End Pumped.

Arguments Pumped : clear implicits.

(** Modelled from the spec: the coroutines of a dispatcher running user
    workflow code.  [Ambient] is whatever user code can observe or change
    outside the framework (clock, random numbers, globals); the determinism
    contract of the specification asks workflow code not to depend on it. *)
Record Runtime := {
  Workflow : Type;
  Coroutines : Type;
  Channel : Type;
  Ambient : Type;
  (** The coroutines of [NewDispatcher(root)], where [root] runs
      [workflow.Execute(c, input)]. *)
  start : Workflow -> bytes -> Coroutines;
  (** The coroutines run until all are blocked. *)
  run : Ambient -> Coroutines -> Pumped Coroutines Channel Ambient;
  (** [result = r] and [err = e] in the frame blocked on the channel. *)
  assignResult : Channel -> bytes -> Coroutines -> Coroutines;
  assignErr : Channel -> Error -> Coroutines -> Coroutines;
  (** [resultChannel.SendAsync(true)] *)
  SendAsync : Channel -> Coroutines -> bool * Coroutines
}.

(** ** The workflow definition adapter *)
Section Adapter.

Variable rt : Runtime.

(** Modelled from the spec: a dispatcher is its coroutines and whether
    [Close] was called. *)
Record Dispatcher := {
  coroutines : Coroutines rt;
  closed : bool
}.

Definition NewDispatcher (root : Coroutines rt) : Dispatcher :=
  {| coroutines := root; closed := false |}.

Definition Dispatcher_Close (d : Dispatcher) : Dispatcher :=
  {| coroutines := coroutines d; closed := true |}.

(** [contextImpl]: the dispatcher and the result slot.  The contexts [Go]
    creates share both with the root context, so one record stands for all
    the contexts of one [Execute]. *)
Record contextImpl := {
  dispatcher : Dispatcher;
  result : option workflowResult
}.

(** The closure [contextImpl.ExecuteActivity] registers: it captures the
    context [c] (an index into the contexts of the world) and the result
    channel. *)
Record activityCallback := {
  callback_c : nat;
  callback_resultChannel : Channel rt
}.

(** [workflowDefinition]; its [dispatcher] field, which only [StackTrace]
    reads, is left out. *)
Record workflowDefinition := {
  workflow : Workflow rt
}.

Definition NewWorkflowDefinition (w : Workflow rt) : workflowDefinition :=
  {| workflow := w |}.

(** The world outside the workflow context: the calls the completion
    handler received, the contexts created so far, and the ambient state
    of user code. *)
Record World := {
  completions : list (bytes * option Error);
  contexts : list contextImpl;
  ambient : Ambient rt
}.

Local Abbreviation St := (State activityCallback workflowDefinition World).

Definition newWorld (a : Ambient rt) : World :=
  {| completions := []; contexts := []; ambient := a |}.

(** The completion handler records its calls. *)
Definition completeHandler (r : bytes) (err : option Error) : M St unit :=
  modify (fun s =>
    setWorld {| completions := completions (world s) ++ [(r, err)];
                contexts := contexts (world s);
                ambient := ambient (world s) |} s).

Definition getContextImpl (c : nat) : M St contextImpl :=
  all <- gets (fun s => contexts (world s)) ;; deref (all !! c).

Definition setContextImpl (c : nat) (ctx : contextImpl) : M St unit :=
  modify (fun s =>
    setWorld {| completions := completions (world s);
                contexts := <[ c := ctx ]> (contexts (world s));
                ambient := ambient (world s) |} s).

Definition setAmbient (a : Ambient rt) : M St unit :=
  modify (fun s =>
    setWorld {| completions := completions (world s);
                contexts := contexts (world s);
                ambient := a |} s).

(** [&contextImpl{...}] *)
Definition newContextImpl (ctx : contextImpl) : M St nat :=
  fun s =>
    (Val (length (contexts (world s))),
     setWorld {| completions := completions (world s);
                 contexts := contexts (world s) ++ [ctx];
                 ambient := ambient (world s) |} s).

(** [contextImpl.ExecuteActivity] as the workflow context sees it.  The
    calling coroutine creates [resultChannel] before and blocks in [Recv]
    after, both inside the runtime; in between it registers the closure. *)
Definition contextImpl_ExecuteActivity (c : nat)
    (call : ExecuteActivityParameters * Channel rt) : M St unit :=
  executeActivity (fst call)
    (Some {| callback_c := c; callback_resultChannel := snd call |}).

(** The panic of a rejected pump. *)
Definition dispatcherClosed : string := "dispatcher is closed".

(** Modelled from the spec: [c.dispatcher.ExecuteUntilAllBlocked()].  A
    closed dispatcher rejects the pump.  Otherwise the coroutines run; what
    they did to the workflow context and to the result slot happens here,
    in their order. *)
Definition ExecuteUntilAllBlocked (c : nat) : M St (option PanicError) :=
  ctx <- getContextImpl c ;;
  if closed (dispatcher ctx) then panic dispatcherClosed
  else
    a <- gets (fun s => ambient (world s)) ;;
    let p := run rt a (coroutines (dispatcher ctx)) in
    forEach (contextImpl_ExecuteActivity c) (calls p) ;;
    setContextImpl c
      {| dispatcher := {| coroutines := after p; closed := false |};
         result := match returned p with
                   | Some r => Some r
                   | None => result ctx
                   end |} ;;
    setAmbient (ambientAfter p) ;;
    ret (recovered p).

(** [c.dispatcher.Close()] *)
Definition closeDispatcher (c : nat) : M St unit :=
  ctx <- getContextImpl c ;;
  setContextImpl c
    {| dispatcher := Dispatcher_Close (dispatcher ctx); result := result ctx |}.

Definition executeDispatcher (c : nat) : M St unit :=
  panicErr <- ExecuteUntilAllBlocked c ;;
  match panicErr with
  | Some panicErr =>
      Complete completeHandler []
        (Some (NewError (PanicError_Error panicErr)
                 (bytes_of_string (PanicError_StackTrace panicErr)))) ;;
      closeDispatcher c
  | None =>
      ctx <- getContextImpl c ;;
      match result ctx with
      | None => ret tt
      | Some r =>
          Complete completeHandler (workflowResult_ r) (error_ r) ;;
          closeDispatcher c
      end
  end.

Definition modifyCoroutines (c : nat) (f : Coroutines rt -> Coroutines rt)
    : M St unit :=
  ctx <- getContextImpl c ;;
  setContextImpl c
    {| dispatcher := {| coroutines := f (coroutines (dispatcher ctx));
                        closed := closed (dispatcher ctx) |};
       result := result ctx |}.

Definition sendAsync (c : nat) (ch : Channel rt) : M St bool :=
  ctx <- getContextImpl c ;;
  let sent := SendAsync rt ch (coroutines (dispatcher ctx)) in
  setContextImpl c
    {| dispatcher := {| coroutines := snd sent;
                        closed := closed (dispatcher ctx) |};
       result := result ctx |} ;;
  ret (fst sent).

(** The body of the closure of [contextImpl.ExecuteActivity]. *)
Definition callResultHandler (h : activityCallback) (r : bytes)
    (e : option Error) : M St unit :=
  let c := callback_c h in
  let resultChannel := callback_resultChannel h in
  modifyCoroutines c (assignResult rt resultChannel r) ;;
  match e with
  | Some e => modifyCoroutines c (assignErr rt resultChannel e)
  | None => ret tt
  end ;;
  ok <- sendAsync c resultChannel ;;
  if ok then executeDispatcher c else panic "unexpected".

(** [workflowDefinition.Execute] *)
Definition Execute (d : workflowDefinition) (input : bytes) : M St unit :=
  c <- newContextImpl
         {| dispatcher := NewDispatcher (start rt (workflow d) input);
            result := None |} ;;
  executeDispatcher c.

(** The event handler over this adapter, for a workflow definition
    factory. *)
Section Handler.

Variable workflowDefinitionFactory :
  m.WorkflowType -> option workflowDefinition * option Error.

Definition factory (t : m.WorkflowType)
    : M St (option workflowDefinition * option Error) :=
  ret (workflowDefinitionFactory t).

Definition processEvent (event : option m.HistoryEvent.t)
    : M St (option (list m.Decision.t) * option error) :=
  ProcessEvent callResultHandler Execute factory event.

Definition replay (history : list (option m.HistoryEvent.t)) (s : St)
    : list (Res (option (list m.Decision.t) * option error)) * St :=
  processHistory callResultHandler Execute factory history s.

End Handler.

(** [newWorkflowExecutionEventHandler], in a world where user code sees the
    ambient state [a]. *)
Definition newHandler (info : WorkflowInfo) (a : Ambient rt) : St :=
  newWorkflowExecutionEventHandler info (newWorld a).

End Adapter.

(** The state of the event handler over the adapter. *)
Abbreviation St rt :=
  (State (activityCallback rt) (workflowDefinition rt) (World rt)).

(** ** A runtime with one coroutine

    Modelled from the spec: the smallest [Runtime], in which the workflow is
    a single root coroutine.  Its code is a tree: it returns, panics, reads
    the clock (which the determinism contract forbids), or calls
    [ExecuteActivity] and goes on with the outcome it receives.  The ambient
    state is the clock, which ticks when it is read. *)
Module Script.

Inductive Code :=
| Return (result : bytes) (err : option Error)
| Panic (msg : string)
| Now (k : Z -> Code)
| CallActivity (parameters : ExecuteActivityParameters)
    (k : bytes -> option Error -> Code).

(** The root coroutine: about to run code, blocked in [Recv] on a result
    channel, or finished. *)
Inductive Status :=
| Ready (code : Code)
| Receiving (resultChannel : nat) (k : bytes -> option Error -> Code)
| Done.

(** [frames] holds the variables [result] and [err] of the
    [ExecuteActivity] frame of each channel; [buffered] the channels whose
    one-element buffer is full. *)
Record Coroutines := {
  root : Status;
  channelSequence : nat;
  buffered : gset nat;
  frames : gmap nat (bytes * option Error)
}.

Definition frame (cs : Coroutines) (ch : nat) : bytes * option Error :=
  default ([], None) (frames cs !! ch).

Definition start (w : bytes -> Code) (input : bytes) : Coroutines :=
  {| root := Ready (w input); channelSequence := 0; buffered := ∅; frames := ∅ |}.

Definition stackOf (msg : string) : string :=
  ("coroutine root [panic]: " ++ msg)%string.

(** The root coroutine runs until it blocks or ends. *)
Fixpoint exec (now : Z) (code : Code) (cs : Coroutines)
    : Pumped Coroutines nat Z :=
  match code with
  | Return r e =>
      {| calls := [];
         returned := Some {| workflowResult_ := r; error_ := e |};
         recovered := None;
         after := {| root := Done; channelSequence := channelSequence cs;
                     buffered := buffered cs; frames := frames cs |};
         ambientAfter := now |}
  | Panic msg =>
      {| calls := [];
         returned := None;
         recovered := Some {| PanicError_Error := msg;
                              PanicError_StackTrace := stackOf msg |};
         after := {| root := Done; channelSequence := channelSequence cs;
                     buffered := buffered cs; frames := frames cs |};
         ambientAfter := now |}
  | Now k => exec (now + 1) (k now) cs
  | CallActivity parameters k =>
      let ch := channelSequence cs in
      {| calls := [(parameters, ch)];
         returned := None;
         recovered := None;
         after := {| root := Receiving ch k; channelSequence := S ch;
                     buffered := buffered cs; frames := frames cs |};
         ambientAfter := now |}
  end.

Definition run (now : Z) (cs : Coroutines) : Pumped Coroutines nat Z :=
  match root cs with
  | Ready code => exec now code cs
  | Receiving ch k =>
      if decide (ch ∈ buffered cs) then
        exec now (k (frame cs ch).1 (frame cs ch).2)
          {| root := Done; channelSequence := channelSequence cs;
             buffered := buffered cs ∖ {[ ch ]}; frames := frames cs |}
      else
        {| calls := []; returned := None; recovered := None;
           after := cs; ambientAfter := now |}
  | Done =>
      {| calls := []; returned := None; recovered := None;
         after := cs; ambientAfter := now |}
  end.

Definition assignResult (ch : nat) (r : bytes) (cs : Coroutines) : Coroutines :=
  {| root := root cs; channelSequence := channelSequence cs;
     buffered := buffered cs;
     frames := <[ ch := (r, (frame cs ch).2) ]> (frames cs) |}.

Definition assignErr (ch : nat) (e : Error) (cs : Coroutines) : Coroutines :=
  {| root := root cs; channelSequence := channelSequence cs;
     buffered := buffered cs;
     frames := <[ ch := ((frame cs ch).1, Some e) ]> (frames cs) |}.

Definition SendAsync (ch : nat) (cs : Coroutines) : bool * Coroutines :=
  if decide (ch ∈ buffered cs) then (false, cs)
  else (true, {| root := root cs; channelSequence := channelSequence cs;
                 buffered := {[ ch ]} ∪ buffered cs; frames := frames cs |}).

Definition runtime : Runtime :=
  Build_Runtime (bytes -> Code) Coroutines nat Z
    start run assignResult assignErr SendAsync.

End Script.

(** ** Sample workflows and histories *)
Module Samples.

Definition info : WorkflowInfo :=
  {| workflowExecution := {| m.WorkflowId := Some "wf"; m.RunId := Some "run" |};
     workflowType := {| m.WorkflowType_Name := Some "sample" |};
     taskListName := "tl" |}.

Definition Foo : m.ActivityType := {| m.ActivityType_Name := Some "Foo" |}.

Definition request (input : bytes) : ExecuteActivityParameters :=
  {| ActivityID := None; ActivityType := Foo; TaskListName := "tl";
     Input := input;
     ScheduleToCloseTimeoutSeconds := 60;
     ScheduleToStartTimeoutSeconds := 10;
     StartToCloseTimeoutSeconds := 50;
     HeartbeatTimeoutSeconds := 20 |}.

(** Calls one activity on its input and returns what the activity
    returned. *)
Definition oneActivity (input : bytes) : Script.Code :=
  Script.CallActivity (request input) (fun r e => Script.Return r e).

Definition panics (input : bytes) : Script.Code := Script.Panic "nope".

Definition returnsAtOnce (input : bytes) : Script.Code := Script.Return input None.

(** Puts the time into the activity's input. *)
Definition readsClock (input : bytes) : Script.Code :=
  Script.Now (fun t =>
    Script.CallActivity (request (bytes_of_string (Sprintf_d t)))
      (fun r e => Script.Return r e)).

Definition factoryOf (rt : Runtime) (w : Workflow rt) (t : m.WorkflowType)
    : option (workflowDefinition rt) * option Error :=
  (Some (NewWorkflowDefinition rt w), None).

Definition event (id : Z) (t : m.EventType) : m.HistoryEvent.t :=
  {| m.HistoryEvent.EventId := id;
     m.HistoryEvent.EventType := t;
     m.HistoryEvent.WorkflowExecutionStartedEventAttributes := None;
     m.HistoryEvent.ActivityTaskScheduledEventAttributes := None;
     m.HistoryEvent.ActivityTaskCompletedEventAttributes := None;
     m.HistoryEvent.ActivityTaskFailedEventAttributes := None;
     m.HistoryEvent.ActivityTaskTimedOutEventAttributes := None |}.

Definition started (id : Z) (input : bytes) : m.HistoryEvent.t :=
  {| m.HistoryEvent.EventId := id;
     m.HistoryEvent.EventType := m.EventType_WorkflowExecutionStarted;
     m.HistoryEvent.WorkflowExecutionStartedEventAttributes :=
       Some {| m.WorkflowExecutionStartedEventAttributes.Input := input |};
     m.HistoryEvent.ActivityTaskScheduledEventAttributes := None;
     m.HistoryEvent.ActivityTaskCompletedEventAttributes := None;
     m.HistoryEvent.ActivityTaskFailedEventAttributes := None;
     m.HistoryEvent.ActivityTaskTimedOutEventAttributes := None |}.

Definition scheduled (id : Z) (activityId : string) : m.HistoryEvent.t :=
  {| m.HistoryEvent.EventId := id;
     m.HistoryEvent.EventType := m.EventType_ActivityTaskScheduled;
     m.HistoryEvent.WorkflowExecutionStartedEventAttributes := None;
     m.HistoryEvent.ActivityTaskScheduledEventAttributes :=
       Some {| m.ActivityTaskScheduledEventAttributes.ActivityId := activityId |};
     m.HistoryEvent.ActivityTaskCompletedEventAttributes := None;
     m.HistoryEvent.ActivityTaskFailedEventAttributes := None;
     m.HistoryEvent.ActivityTaskTimedOutEventAttributes := None |}.

Definition completed (id scheduledEventId : Z) (r : bytes) : m.HistoryEvent.t :=
  {| m.HistoryEvent.EventId := id;
     m.HistoryEvent.EventType := m.EventType_ActivityTaskCompleted;
     m.HistoryEvent.WorkflowExecutionStartedEventAttributes := None;
     m.HistoryEvent.ActivityTaskScheduledEventAttributes := None;
     m.HistoryEvent.ActivityTaskCompletedEventAttributes :=
       Some {| m.ActivityTaskCompletedEventAttributes.Result_ := r;
               m.ActivityTaskCompletedEventAttributes.ScheduledEventId :=
                 scheduledEventId |};
     m.HistoryEvent.ActivityTaskFailedEventAttributes := None;
     m.HistoryEvent.ActivityTaskTimedOutEventAttributes := None |}.

Definition failed (id scheduledEventId : Z) (reason : option string)
    (details : bytes) : m.HistoryEvent.t :=
  {| m.HistoryEvent.EventId := id;
     m.HistoryEvent.EventType := m.EventType_ActivityTaskFailed;
     m.HistoryEvent.WorkflowExecutionStartedEventAttributes := None;
     m.HistoryEvent.ActivityTaskScheduledEventAttributes := None;
     m.HistoryEvent.ActivityTaskCompletedEventAttributes := None;
     m.HistoryEvent.ActivityTaskFailedEventAttributes :=
       Some {| m.ActivityTaskFailedEventAttributes.Reason := reason;
               m.ActivityTaskFailedEventAttributes.Details := details;
               m.ActivityTaskFailedEventAttributes.ScheduledEventId :=
                 scheduledEventId |};
     m.HistoryEvent.ActivityTaskTimedOutEventAttributes := None |}.

Definition timedOut (id scheduledEventId : Z) (t : m.TimeoutType)
    : m.HistoryEvent.t :=
  {| m.HistoryEvent.EventId := id;
     m.HistoryEvent.EventType := m.EventType_ActivityTaskTimedOut;
     m.HistoryEvent.WorkflowExecutionStartedEventAttributes := None;
     m.HistoryEvent.ActivityTaskScheduledEventAttributes := None;
     m.HistoryEvent.ActivityTaskCompletedEventAttributes := None;
     m.HistoryEvent.ActivityTaskFailedEventAttributes := None;
     m.HistoryEvent.ActivityTaskTimedOutEventAttributes :=
       Some {| m.ActivityTaskTimedOutEventAttributes.ScheduledEventId :=
                 scheduledEventId;
               m.ActivityTaskTimedOutEventAttributes.TimeoutType := t |} |}.

Definition x : bytes := bytes_of_string "x".
Definition y : bytes := bytes_of_string "y".

(** Scenario S1 of the specification. *)
Definition S1 : list (option m.HistoryEvent.t) :=
  [Some (started 1 x); Some (scheduled 5 "0"); Some (completed 7 5 y)].

(** S1, then the completion of the activity delivered a second time. *)
Definition S1twice : list (option m.HistoryEvent.t) :=
  S1 ++ [Some (completed 8 5 y)].

(** The handler after the first two events of S1: the activity is
    scheduled under id "0" and event id 5. *)
Definition awaiting : St Script.runtime :=
  snd (replay Script.runtime (factoryOf Script.runtime oneActivity)
         [Some (started 1 x); Some (scheduled 5 "0")]
         (newHandler Script.runtime info 0)).

(** A handler with one context, whose workflow is about to panic. *)
Definition aboutToPanic : St Script.runtime :=
  setWorld
    {| completions := [];
       contexts := [ {| dispatcher :=
                          NewDispatcher Script.runtime (Script.start panics x);
                        result := None |} ];
       ambient := 0 |}
    (newHandler Script.runtime info 0).

End Samples.

(** ** Definitions used to state the properties *)

Section Statements.

Context {ResultHandler : Type}.

(** [n] successive calls of [GenerateActivityID], with the ids they
    returned in order. *)
Fixpoint generateIDs (n : nat) (wc : workflowContext ResultHandler)
    : list string * workflowContext ResultHandler :=
  match n with
  | O => ([], wc)
  | S n' =>
      let '(id, wc1) := GenerateActivityID wc in
      let '(ids, wc2) := generateIDs n' wc1 in
      (id :: ids, wc2)
  end.

Definition withCounterID (c : Z) (wc : workflowContext ResultHandler)
    : workflowContext ResultHandler :=
  {| workflowInfo := workflowInfo wc;
     scheduledActivites := scheduledActivites wc;
     scheduledEventIDToActivityID := scheduledEventIDToActivityID wc;
     counterID := c;
     executeDecisions := executeDecisions wc |}.

(** The activity id [ExecuteActivity] resolves a request to. *)
Definition activityIDOf (parameters : ExecuteActivityParameters)
    (wc : workflowContext ResultHandler) : string :=
  match ActivityID parameters with
  | None => Sprintf_d (counterID wc)
  | Some id => id
  end.

(** The [ScheduleActivityTask] decision for a request under an id, with
    every attribute the request has a counterpart for. *)
Definition scheduleDecision (activityId : string)
    (parameters : ExecuteActivityParameters) : m.Decision.t :=
  {| m.Decision.DecisionType := Some m.DecisionType_ScheduleActivityTask;
     m.Decision.ScheduleActivityTaskDecisionAttributes :=
       Some
         {| m.ScheduleActivityTaskDecisionAttributes.ActivityId := Some activityId;
            m.ScheduleActivityTaskDecisionAttributes.ActivityType :=
              Some (ActivityType parameters);
            m.ScheduleActivityTaskDecisionAttributes.TaskList :=
              Some {| m.TaskList_Name := Some (TaskListName parameters) |};
            m.ScheduleActivityTaskDecisionAttributes.Input := Input parameters;
            m.ScheduleActivityTaskDecisionAttributes.ScheduleToCloseTimeoutSeconds :=
              Some (ScheduleToCloseTimeoutSeconds parameters);
            m.ScheduleActivityTaskDecisionAttributes.ScheduleToStartTimeoutSeconds :=
              Some (ScheduleToStartTimeoutSeconds parameters);
            m.ScheduleActivityTaskDecisionAttributes.StartToCloseTimeoutSeconds :=
              Some (StartToCloseTimeoutSeconds parameters) |} |}.

End Statements.

(** The request with another heartbeat timeout. *)
Definition withHeartbeatTimeoutSeconds (h : Z) (p : ExecuteActivityParameters)
    : ExecuteActivityParameters :=
  {| ActivityID := ActivityID p; ActivityType := ActivityType p;
     TaskListName := TaskListName p; Input := Input p;
     ScheduleToCloseTimeoutSeconds := ScheduleToCloseTimeoutSeconds p;
     ScheduleToStartTimeoutSeconds := ScheduleToStartTimeoutSeconds p;
     StartToCloseTimeoutSeconds := StartToCloseTimeoutSeconds p;
     HeartbeatTimeoutSeconds := h |}.

(** What can be done to a workflow context: the calls of the three methods
    that change it, and the entry [ProcessEvent] makes for an
    [ActivityTaskScheduled] event. *)
Inductive contextOperation {ResultHandler : Type} :=
| callExecuteActivity (parameters : ExecuteActivityParameters)
    (callback : option ResultHandler)
| callGenerateActivityID
| callSwapExecuteDecisions (decisions : list m.Decision.t)
| recordScheduled (eventID : Z) (activityID : string).

Arguments contextOperation : clear implicits.

Definition perform {ResultHandler : Type} (op : contextOperation ResultHandler)
    (wc : workflowContext ResultHandler) : workflowContext ResultHandler :=
  match op with
  | callExecuteActivity parameters callback =>
      ExecuteActivity parameters callback wc
  | callGenerateActivityID => snd (GenerateActivityID wc)
  | callSwapExecuteDecisions decisions => snd (SwapExecuteDecisions decisions wc)
  | recordScheduled eventID activityID =>
      recordScheduledEvent eventID activityID wc
  end.

Definition performAll {ResultHandler : Type}
    (ops : list (contextOperation ResultHandler))
    (wc : workflowContext ResultHandler) : workflowContext ResultHandler :=
  fold_left (fun wc op => perform op wc) ops wc.

Definition isExecuteActivity {ResultHandler : Type}
    (op : contextOperation ResultHandler) : bool :=
  match op with
  | callExecuteActivity _ _ => true
  | _ => false
  end.

Definition isSwapExecuteDecisions {ResultHandler : Type}
    (op : contextOperation ResultHandler) : bool :=
  match op with
  | callSwapExecuteDecisions _ => true
  | _ => false
  end.

(** What [ProcessEvent] can do to the state on an event other than
    [ActivityTaskScheduled], in terms of the three interfaces it works
    against. *)
Section Steps.

Context {ResultHandler WorkflowDefinition World : Type}.
Local Abbreviation State := (State ResultHandler WorkflowDefinition World).

Variable callResultHandler :
  ResultHandler -> bytes -> option Error -> M State unit.
Variable Execute : WorkflowDefinition -> bytes -> M State unit.
Variable workflowDefinitionFactory :
  m.WorkflowType -> M State (option WorkflowDefinition * option Error).

(** The state after [SwapExecuteDecisions([]*m.Decision{})]. *)
Definition drained (s : State) : State :=
  setContext (snd (SwapExecuteDecisions [] (context s))) s.

(** What a terminal activity handler does once both lookups succeeded:
    the callback, then the drain. *)
Definition deliver (h : ResultHandler) (r : bytes) (e : option Error)
    : M State (option (list m.Decision.t) * option error) :=
  callResultHandler h r e ;;
  decisions <- swapExecuteDecisions [] ;;
  ret (Some decisions, None).

(** The flag tells whether the workflow definition factory may have been
    reached, which takes a [WorkflowExecutionStarted] event. *)
Inductive Evolves (s : State) : bool -> State -> Prop :=
| Evolves_same b : Evolves s b s
| Evolves_nil_callback : Evolves s false (drained s)
| Evolves_callback h r e s1 :
    callResultHandler h r e s = (Val tt, s1) -> Evolves s false (drained s1)
| Evolves_callback_panic h r e msg s1 :
    callResultHandler h r e s = (Panicked msg, s1) -> Evolves s false s1
| Evolves_factory_panic msg s0 :
    workflowDefinitionFactory (workflowType (workflowInfo (context s))) s
    = (Panicked msg, s0) ->
    Evolves s true s0
| Evolves_factory made s0 :
    workflowDefinitionFactory (workflowType (workflowInfo (context s))) s
    = (Val made, s0) ->
    Evolves s true (setWorkflowDefinition (fst made) s0)
| Evolves_execute made s0 d input s1 :
    workflowDefinitionFactory (workflowType (workflowInfo (context s))) s
    = (Val made, s0) ->
    Execute d input (setWorkflowDefinition (fst made) s0) = (Val tt, s1) ->
    Evolves s true (drained s1)
| Evolves_execute_panic made s0 d input msg s1 :
    workflowDefinitionFactory (workflowType (workflowInfo (context s))) s
    = (Val made, s0) ->
    Execute d input (setWorkflowDefinition (fst made) s0) = (Panicked msg, s1) ->
    Evolves s true s1.

(** Two computations agree from states related by [R]: same outcome, and
    states related by [R] again. *)
Definition related {A} (R : State -> State -> Prop) (c1 c2 : M State A) : Prop :=
  forall s1 s2, R s1 s2 ->
    fst (c1 s1) = fst (c2 s2) /\ R (snd (c1 s1)) (snd (c2 s2)).

(** States that differ at most in their worlds, which [Rw] relates. *)
Definition sameHandler (Rw : World -> World -> Prop) (s1 s2 : State) : Prop :=
  context s1 = context s2
  /\ weh_workflowDefinition s1 = weh_workflowDefinition s2
  /\ Rw (world s1) (world s2).

End Steps.

(** The terminal activity events, with the scheduled event id they carry. *)
Definition terminalScheduledEventId (event : m.HistoryEvent.t) : option Z :=
  match m.HistoryEvent.EventType event with
  | m.EventType_ActivityTaskCompleted =>
      m.ActivityTaskCompletedEventAttributes.ScheduledEventId
        <$> m.HistoryEvent.ActivityTaskCompletedEventAttributes event
  | m.EventType_ActivityTaskFailed =>
      m.ActivityTaskFailedEventAttributes.ScheduledEventId
        <$> m.HistoryEvent.ActivityTaskFailedEventAttributes event
  | m.EventType_ActivityTaskTimedOut =>
      m.ActivityTaskTimedOutEventAttributes.ScheduledEventId
        <$> m.HistoryEvent.ActivityTaskTimedOutEventAttributes event
  | _ => None
  end.

(** What a terminal activity event makes of its attributes before it calls
    the callback: the result and the error it passes, or the panic of
    reading a reason that is not there. *)
Definition callbackArguments (event : m.HistoryEvent.t)
    : option (Res (bytes * option Error)) :=
  match m.HistoryEvent.EventType event with
  | m.EventType_ActivityTaskCompleted =>
      (fun a => Val (m.ActivityTaskCompletedEventAttributes.Result_ a, None))
        <$> m.HistoryEvent.ActivityTaskCompletedEventAttributes event
  | m.EventType_ActivityTaskFailed =>
      (fun a =>
         match m.ActivityTaskFailedEventAttributes.Reason a with
         | Some reason =>
             Val ([], Some (ActivityTaskFailedError reason
                              (m.ActivityTaskFailedEventAttributes.Details a)))
         | None => Panicked nilDereference
         end)
        <$> m.HistoryEvent.ActivityTaskFailedEventAttributes event
  | m.EventType_ActivityTaskTimedOut =>
      (fun a =>
         Val ([], Some (ActivityTaskTimeoutError
                          (m.ActivityTaskTimedOutEventAttributes.TimeoutType a))))
        <$> m.HistoryEvent.ActivityTaskTimedOutEventAttributes event
  | _ => None
  end.

(** The event is an [ActivityTaskScheduled] event with this event id. *)
Definition schedulesEventID (eventID : Z) (event : option m.HistoryEvent.t) : bool :=
  match event with
  | Some event =>
      match m.HistoryEvent.EventType event with
      | m.EventType_ActivityTaskScheduled =>
          bool_decide (m.HistoryEvent.EventId event = eventID)
      | _ => false
      end
  | None => false
  end.

Definition isStarted (event : option m.HistoryEvent.t) : bool :=
  match event with
  | Some event =>
      match m.HistoryEvent.EventType event with
      | m.EventType_WorkflowExecutionStarted => true
      | _ => false
      end
  | None => false
  end.

(** The number of [WorkflowExecutionStarted] events of a history. *)
Definition startedCount (history : list (option m.HistoryEvent.t)) : nat :=
  length (filter (fun event => isStarted event = true) history).

Section AdapterStatements.

Variable rt : Runtime.

(** The calls of [contextImpl.ExecuteActivity] of one pump, applied to the
    workflow context in order. *)
Definition registerCalls (c : nat)
    (made : list (ExecuteActivityParameters * Channel rt))
    (wc : workflowContext (activityCallback rt))
    : workflowContext (activityCallback rt) :=
  fold_left
    (fun wc call =>
       ExecuteActivity (fst call)
         (Some {| callback_c := c; callback_resultChannel := snd call |}) wc)
    made wc.

(** The result slot after a pump. *)
Definition slotAfter (p : Pumped (Coroutines rt) (Channel rt) (Ambient rt))
    (ctx : contextImpl rt) : option workflowResult :=
  match returned p with
  | Some r => Some r
  | None => result rt ctx
  end.

(** The call of [Complete] that follows a pump, if one does: a recovered
    panic as the [errorImpl] whose reason is its message and whose details
    are the bytes of its stack trace, or else the result in the slot. *)
Definition completionAfter (p : Pumped (Coroutines rt) (Channel rt) (Ambient rt))
    (ctx : contextImpl rt) : option (bytes * option Error) :=
  match recovered p with
  | Some panicErr =>
      Some ([], Some (errorImpl (PanicError_Error panicErr)
                        (bytes_of_string (PanicError_StackTrace panicErr))))
  | None =>
      match slotAfter p ctx with
      | Some r => Some (workflowResult_ r, error_ r)
      | None => None
      end
  end.

(** The state [executeDispatcher] leaves when the dispatcher of context
    [c], which is [ctx], is open. *)
Definition pumped (c : nat) (ctx : contextImpl rt) (s : St rt) : St rt :=
  let p := run rt (ambient rt (world s)) (coroutines rt (dispatcher rt ctx)) in
  {| context := registerCalls c (calls p) (context s);
     weh_workflowDefinition := weh_workflowDefinition s;
     world :=
       {| completions :=
            completions rt (world s) ++ option_list (completionAfter p ctx);
          contexts :=
            <[ c := {| dispatcher :=
                         {| coroutines := after p;
                            closed := match completionAfter p ctx with
                                      | Some _ => true
                                      | None => false
                                      end |};
                       result := slotAfter p ctx |} ]>
              (contexts rt (world s));
          ambient := ambientAfter p |} |}.

(** The state with other coroutines in context [c], as the assignments and
    the [SendAsync] of a callback leave it. *)
Definition withCoroutines (c : nat) (ctx : contextImpl rt)
    (cs : Coroutines rt) (s : St rt) : St rt :=
  setWorld
    {| completions := completions rt (world s);
       contexts :=
         <[ c := {| dispatcher := {| coroutines := cs;
                                     closed := closed rt (dispatcher rt ctx) |};
                    result := result rt ctx |} ]>
           (contexts rt (world s));
       ambient := ambient rt (world s) |} s.

(** The coroutines after the assignments of a callback. *)
Definition assigned (ch : Channel rt) (r : bytes) (e : option Error)
    (cs : Coroutines rt) : Coroutines rt :=
  match e with
  | Some e => assignErr rt ch e (assignResult rt ch r cs)
  | None => assignResult rt ch r cs
  end.

(** The outcomes of the callback of [contextImpl.ExecuteActivity]: its
    context is not there; the channel refuses the value; the dispatcher
    is closed; or the dispatcher is pumped. *)
Inductive Called (h : activityCallback rt) (s : St rt) : Res unit -> St rt -> Prop :=
| Called_invalid :
    contexts rt (world s) !! callback_c rt h = None ->
    Called h s (Panicked nilDereference) s
| Called_refused ctx cs :
    contexts rt (world s) !! callback_c rt h = Some ctx ->
    Called h s (Panicked "unexpected") (withCoroutines (callback_c rt h) ctx cs s)
| Called_closed ctx cs :
    contexts rt (world s) !! callback_c rt h = Some ctx ->
    closed rt (dispatcher rt ctx) = true ->
    Called h s (Panicked dispatcherClosed)
      (withCoroutines (callback_c rt h) ctx cs s)
| Called_pumped ctx cs :
    contexts rt (world s) !! callback_c rt h = Some ctx ->
    closed rt (dispatcher rt ctx) = false ->
    Called h s (Val tt)
      (pumped (callback_c rt h)
         {| dispatcher := {| coroutines := cs; closed := false |};
            result := result rt ctx |}
         (withCoroutines (callback_c rt h) ctx cs s)).

(** The number of contexts whose dispatcher is closed. *)
Definition closedCount (all : list (contextImpl rt)) : nat :=
  length (filter (fun ctx => closed rt (dispatcher rt ctx) = true) all).

(** Every call of [Complete] so far closed a dispatcher, and no closed
    dispatcher is behind two calls. *)
Definition completedOncePerClosed (s : St rt) : Prop :=
  length (completions rt (world s)) = closedCount (contexts rt (world s)).

(** The states the coroutines of a workflow can be in: those of the
    dispatcher [Execute] makes for it, and what a run, the assignments of a
    callback and its [SendAsync] make of such a state. *)
Inductive Reaches (w : Workflow rt) : Coroutines rt -> Prop :=
| Reaches_start input : Reaches w (start rt w input)
| Reaches_run a cs : Reaches w cs -> Reaches w (after (run rt a cs))
| Reaches_assignResult ch r cs :
    Reaches w cs -> Reaches w (assignResult rt ch r cs)
| Reaches_assignErr ch e cs :
    Reaches w cs -> Reaches w (assignErr rt ch e cs)
| Reaches_SendAsync ch cs :
    Reaches w cs -> Reaches w (snd (SendAsync rt ch cs)).

(** The determinism contract, for one workflow: in every state its
    coroutines can be in, what they do when they run does not depend on the
    ambient state. *)
Definition Deterministic (w : Workflow rt) : Prop :=
  forall (a a' : Ambient rt) (cs : Coroutines rt),
    Reaches w cs ->
    calls (run rt a cs) = calls (run rt a' cs)
    /\ returned (run rt a cs) = returned (run rt a' cs)
    /\ recovered (run rt a cs) = recovered (run rt a' cs)
    /\ after (run rt a cs) = after (run rt a' cs).

(** Coroutines of a workflow that keeps the contract. *)
Definition underContract (cs : Coroutines rt) : Prop :=
  exists w, Deterministic w /\ Reaches w cs.

(** Worlds that differ at most in the ambient state, and whose contexts all
    run workflows that keep the contract. *)
Definition sameButAmbient (w1 w2 : World rt) : Prop :=
  completions rt w1 = completions rt w2
  /\ contexts rt w1 = contexts rt w2
  /\ Forall (fun ctx => underContract (coroutines rt (dispatcher rt ctx)))
       (contexts rt w1).

End AdapterStatements.

Arguments closedCount : simpl never.

(** Code of [Script] that does not read the clock, now or later. *)
Inductive clockFree : Script.Code -> Prop :=
| clockFree_Return r e : clockFree (Script.Return r e)
| clockFree_Panic msg : clockFree (Script.Panic msg)
| clockFree_CallActivity parameters k :
    (forall r e, clockFree (k r e)) ->
    clockFree (Script.CallActivity parameters k).

Definition clockFreeStatus (status : Script.Status) : Prop :=
  match status with
  | Script.Ready code => clockFree code
  | Script.Receiving _ k => forall r e, clockFree (k r e)
  | Script.Done => True
  end.

(** ** Definitions used to state further properties of the event handler *)

(** The events [ProcessEvent] answers with no operation. *)
Definition isNoOperation (event : option m.HistoryEvent.t) : bool :=
  match event with
  | Some event =>
      match m.HistoryEvent.EventType event with
      | m.EventType_WorkflowExecutionCompleted
      | m.EventType_WorkflowExecutionFailed
      | m.EventType_WorkflowExecutionTimedOut
      | m.EventType_DecisionTaskScheduled
      | m.EventType_DecisionTaskStarted
      | m.EventType_DecisionTaskTimedOut
      | m.EventType_DecisionTaskCompleted
      | m.EventType_ActivityTaskStarted
      | m.EventType_TimerStarted
      | m.EventType_TimerFired => true
      | _ => false
      end
  | None => false
  end.

(** The events whose handler ends in [SwapExecuteDecisions]. *)
Definition drainsDecisions (event : option m.HistoryEvent.t) : bool :=
  match event with
  | Some event =>
      match m.HistoryEvent.EventType event with
      | m.EventType_WorkflowExecutionStarted
      | m.EventType_ActivityTaskCompleted
      | m.EventType_ActivityTaskFailed
      | m.EventType_ActivityTaskTimedOut => true
      | _ => false
      end
  | None => false
  end.

(** A [ScheduleActivityTask] decision that carries its attributes, with an
    activity id. *)
Definition isScheduleActivityTask (d : m.Decision.t) : bool :=
  match m.Decision.DecisionType d,
        m.Decision.ScheduleActivityTaskDecisionAttributes d with
  | Some m.DecisionType_ScheduleActivityTask, Some attributes =>
      match m.ScheduleActivityTaskDecisionAttributes.ActivityId attributes with
      | Some _ => true
      | None => false
      end
  | _, _ => false
  end.

(** The decisions a call of [ProcessEvent] returned. *)
Definition batchOf (out : Res (option (list m.Decision.t) * option error))
    : list m.Decision.t :=
  match out with
  | Val (Some decisions, _) => decisions
  | _ => []
  end.






(** Calls of [ExecuteActivity] on a workflow context, one after the other. *)
Definition scheduleAll {ResultHandler : Type}
    (requests : list (ExecuteActivityParameters * option ResultHandler))
    (wc : workflowContext ResultHandler) : workflowContext ResultHandler :=
  fold_left (fun wc request => ExecuteActivity (fst request) (snd request) wc)
    requests wc.

Section Running.

Context {ResultHandler WorkflowDefinition World : Type}.
Local Abbreviation State := (State ResultHandler WorkflowDefinition World).

Variable callResultHandler :
  ResultHandler -> bytes -> option Error -> M State unit.
Variable Execute : WorkflowDefinition -> bytes -> M State unit.
Variable workflowDefinitionFactory :
  m.WorkflowType -> M State (option WorkflowDefinition * option Error).

(** What ran before a handler drained the decisions: nothing (a nil
    callback), a callback, or the factory and [Execute]. *)
Inductive Ran (s : State) : State -> Prop :=
| Ran_nothing : Ran s s
| Ran_callback h r e s1 :
    callResultHandler h r e s = (Val tt, s1) -> Ran s s1
| Ran_execute made s0 d input s1 :
    workflowDefinitionFactory (workflowType (workflowInfo (context s))) s
    = (Val made, s0) ->
    Execute d input (setWorkflowDefinition (fst made) s0) = (Val tt, s1) ->
    Ran s s1.

(** Where a panic of [ProcessEvent] comes from. *)
Inductive PanicsIn (s : State) (msg : string) : Prop :=
| PanicsIn_dereference : msg = nilDereference -> PanicsIn s msg
| PanicsIn_callback h r e s1 :
    callResultHandler h r e s = (Panicked msg, s1) -> PanicsIn s msg
| PanicsIn_factory s0 :
    workflowDefinitionFactory (workflowType (workflowInfo (context s))) s
    = (Panicked msg, s0) ->
    PanicsIn s msg
| PanicsIn_execute made s0 d input s1 :
    workflowDefinitionFactory (workflowType (workflowInfo (context s))) s
    = (Val made, s0) ->
    Execute d input (setWorkflowDefinition (fst made) s0) = (Panicked msg, s1) ->
    PanicsIn s msg.

(** The states a call of [ProcessEvent] that returns no decisions can
    leave: the state as it was; a scheduled event recorded; what the factory
    returned kept as the workflow definition; or the state in which the
    factory, [Execute] or a callback panicked. *)
Inductive Unanswered (s : State) : State -> Prop :=
| Unanswered_same : Unanswered s s
| Unanswered_recorded eventID activityID :
    Unanswered s
      (setContext (recordScheduledEvent eventID activityID (context s)) s)
| Unanswered_factory made s0 :
    workflowDefinitionFactory (workflowType (workflowInfo (context s))) s
    = (Val made, s0) ->
    Unanswered s (setWorkflowDefinition (fst made) s0)
| Unanswered_factory_panic msg s0 :
    workflowDefinitionFactory (workflowType (workflowInfo (context s))) s
    = (Panicked msg, s0) ->
    Unanswered s s0
| Unanswered_execute_panic made s0 d input msg s1 :
    workflowDefinitionFactory (workflowType (workflowInfo (context s))) s
    = (Val made, s0) ->
    Execute d input (setWorkflowDefinition (fst made) s0) = (Panicked msg, s1) ->
    Unanswered s s1
| Unanswered_callback_panic h r e msg s1 :
    callResultHandler h r e s = (Panicked msg, s1) -> Unanswered s s1.

(** What a handler that ends in the drain comes to: a panic, or the
    decisions pending after what it ran, and no error. *)
Definition Drained (s : State)
    (out : Res (option (list m.Decision.t) * option error) * State) : Prop :=
  (exists msg, fst out = Panicked msg /\ PanicsIn s msg /\ Unanswered s (snd out))
  \/ (exists s1, Ran s s1
                 /\ out = (Val (Some (executeDecisions (context s1)), None),
                           drained s1)).

End Running.

(** ** Package [metrics]: the reporter of the stress runs

    [SimpleReporter] keeps eight [int64] counters, which [IncCounter] and the
    timers add to, and prints them.  Calls are taken one at a time, so an
    atomic load is a read and an atomic add is an addition with the
    wrap-around of [int64].  The reporter's [scope] and [tags], which no
    counter and no report depends on, are left out, with the functions that
    only serve them ([GetChildReporter], [GetTags], [GetScope]); its logger
    is the list of the lines it was asked to write.  What [time.Now()] reads
    is an argument of the functions that call it. *)
Module metrics.

Definition wrap64 (z : Z) : Z := (z + 2 ^ 63) mod 2 ^ 64 - 2 ^ 63.

Definition MaxInt64 : Z := 2 ^ 63 - 1.
Definition MinInt64 : Z := - 2 ^ 63.

Definition add64 (a b : Z) : Z := wrap64 (a + b).
Definition sub64 (a b : Z) : Z := wrap64 (a - b).

(** [a / b] for a divisor that is not zero: the quotient truncated towards
    zero, which is out of range for the least [int64] by [-1] only. *)
Definition quot64 (a b : Z) : Z := wrap64 (Z.quot a b).

(** The run-time panic of an integer division by zero. *)
Definition divideByZero : string := "integer divide by zero".

Definition div64 {S} (a b : Z) : M S Z :=
  if (b =? 0)%Z then panic divideByZero else ret (quot64 a b).

(** [time.Duration] is an [int64] number of nanoseconds. *)
Definition Microsecond : Z := 1000.
Definition Millisecond : Z := 1000000.
Definition Second : Z := 1000000000.

(** [time.Time], as the nanoseconds since the zero time.  [t.Sub(u)] is the
    difference [t - u], or the largest or least duration if that is out of
    range. *)
Definition Time : Type := Z.

Definition IsZero (t : Time) : bool := (t =? 0)%Z.

Definition Sub (t u : Time) : Z := Z.max MinInt64 (Z.min MaxInt64 (t - u)).

Record SimpleReporter := {
  startTime : Time;
  workflowsStartCount : Z;
  activitiesTotalCount : Z;
  decisionsTotalCount : Z;
  decisionsTimeoutCount : Z;
  workflowsCompletionCount : Z;
  workflowsEndToEndLatency : Z;
  activitiesEndToEndLatency : Z;
  decisionsEndToEndLatency : Z;
  previousReportTime : Time;
  previousWorkflowsStartCount : Z;
  previousActivitiesTotalCount : Z;
  previousDecisionsTotalCount : Z;
  previousDecisionsTimeoutCount : Z;
  previousWorkflowsCompletionCount : Z;
  previousWorkflowsEndToEndLatency : Z;
  previousActivitiesEndToEndLatency : Z;
  previousDecisionsEndToEndLatency : Z
}.

Module simpleStopWatch.
Record t := {
  metricName : string;
  startTime : Time;
  elasped : Z
}.
End simpleStopWatch.

Definition WorkflowsStartTotalCounter : string := "workflows-start-total".
Definition ActivitiesTotalCounter : string := "activities-total".
Definition DecisionsTotalCounter : string := "decisions-total".
Definition DecisionsTimeoutCounter : string := "decisions-timeout".
Definition WorkflowsCompletionTotalCounter : string := "workflows-completion-total".
Definition WorkflowEndToEndLatency : string := "workflows-endtoend-latency".
Definition ActivityEndToEndLatency : string := "activities-endtoend-latency".
Definition DecisionsEndToEndLatency : string := "decisions-endtoend-latency".

(** An argument of a [%v] verb of a log line: an [int64] or a
    [time.Duration]. *)
Inductive LogValue :=
| Int64Value (v : Z)
| DurationValue (d : Z).

(** What the logger is asked to write: [Infof(format, args...)] or
    [WithField(key, value).Error(msg)]. *)
Inductive LogEntry :=
| Infof (format : string) (args : list LogValue)
| WithField_Error (key value msg : string).

(** A reporter and what its logger was asked to write so far. *)
Record Reporting := {
  reporter : SimpleReporter;
  logger : list LogEntry
}.

Definition modifyReporter (f : SimpleReporter -> SimpleReporter)
    : M Reporting unit :=
  modify (fun s => {| reporter := f (reporter s); logger := logger s |}).

Definition log (entry : LogEntry) : M Reporting unit :=
  modify (fun s => {| reporter := reporter s; logger := logger s ++ [entry] |}).

(** The zero values of the fields, the counters set to zero once more, and
    the start time. *)
Definition NewSimpleReporter (now : Time) : SimpleReporter :=
  {| startTime := now;
     workflowsStartCount := 0;
     activitiesTotalCount := 0;
     decisionsTotalCount := 0;
     decisionsTimeoutCount := 0;
     workflowsCompletionCount := 0;
     workflowsEndToEndLatency := 0;
     activitiesEndToEndLatency := 0;
     decisionsEndToEndLatency := 0;
     previousReportTime := 0;
     previousWorkflowsStartCount := 0;
     previousActivitiesTotalCount := 0;
     previousDecisionsTotalCount := 0;
     previousDecisionsTimeoutCount := 0;
     previousWorkflowsCompletionCount := 0;
     previousWorkflowsEndToEndLatency := 0;
     previousActivitiesEndToEndLatency := 0;
     previousDecisionsEndToEndLatency := 0 |}.

Definition InitMetrics : M Reporting unit := ret tt.

(** [atomic.AddInt64(&r.field, delta)], field by field. *)
Definition AddInt64_workflowsStartCount (delta : Z) (r : SimpleReporter)
    : SimpleReporter :=
  {| startTime := startTime r;
     workflowsStartCount := add64 (workflowsStartCount r) delta;
     activitiesTotalCount := activitiesTotalCount r;
     decisionsTotalCount := decisionsTotalCount r;
     decisionsTimeoutCount := decisionsTimeoutCount r;
     workflowsCompletionCount := workflowsCompletionCount r;
     workflowsEndToEndLatency := workflowsEndToEndLatency r;
     activitiesEndToEndLatency := activitiesEndToEndLatency r;
     decisionsEndToEndLatency := decisionsEndToEndLatency r;
     previousReportTime := previousReportTime r;
     previousWorkflowsStartCount := previousWorkflowsStartCount r;
     previousActivitiesTotalCount := previousActivitiesTotalCount r;
     previousDecisionsTotalCount := previousDecisionsTotalCount r;
     previousDecisionsTimeoutCount := previousDecisionsTimeoutCount r;
     previousWorkflowsCompletionCount := previousWorkflowsCompletionCount r;
     previousWorkflowsEndToEndLatency := previousWorkflowsEndToEndLatency r;
     previousActivitiesEndToEndLatency := previousActivitiesEndToEndLatency r;
     previousDecisionsEndToEndLatency := previousDecisionsEndToEndLatency r |}.

Definition AddInt64_activitiesTotalCount (delta : Z) (r : SimpleReporter)
    : SimpleReporter :=
  {| startTime := startTime r;
     workflowsStartCount := workflowsStartCount r;
     activitiesTotalCount := add64 (activitiesTotalCount r) delta;
     decisionsTotalCount := decisionsTotalCount r;
     decisionsTimeoutCount := decisionsTimeoutCount r;
     workflowsCompletionCount := workflowsCompletionCount r;
     workflowsEndToEndLatency := workflowsEndToEndLatency r;
     activitiesEndToEndLatency := activitiesEndToEndLatency r;
     decisionsEndToEndLatency := decisionsEndToEndLatency r;
     previousReportTime := previousReportTime r;
     previousWorkflowsStartCount := previousWorkflowsStartCount r;
     previousActivitiesTotalCount := previousActivitiesTotalCount r;
     previousDecisionsTotalCount := previousDecisionsTotalCount r;
     previousDecisionsTimeoutCount := previousDecisionsTimeoutCount r;
     previousWorkflowsCompletionCount := previousWorkflowsCompletionCount r;
     previousWorkflowsEndToEndLatency := previousWorkflowsEndToEndLatency r;
     previousActivitiesEndToEndLatency := previousActivitiesEndToEndLatency r;
     previousDecisionsEndToEndLatency := previousDecisionsEndToEndLatency r |}.

Definition AddInt64_decisionsTotalCount (delta : Z) (r : SimpleReporter)
    : SimpleReporter :=
  {| startTime := startTime r;
     workflowsStartCount := workflowsStartCount r;
     activitiesTotalCount := activitiesTotalCount r;
     decisionsTotalCount := add64 (decisionsTotalCount r) delta;
     decisionsTimeoutCount := decisionsTimeoutCount r;
     workflowsCompletionCount := workflowsCompletionCount r;
     workflowsEndToEndLatency := workflowsEndToEndLatency r;
     activitiesEndToEndLatency := activitiesEndToEndLatency r;
     decisionsEndToEndLatency := decisionsEndToEndLatency r;
     previousReportTime := previousReportTime r;
     previousWorkflowsStartCount := previousWorkflowsStartCount r;
     previousActivitiesTotalCount := previousActivitiesTotalCount r;
     previousDecisionsTotalCount := previousDecisionsTotalCount r;
     previousDecisionsTimeoutCount := previousDecisionsTimeoutCount r;
     previousWorkflowsCompletionCount := previousWorkflowsCompletionCount r;
     previousWorkflowsEndToEndLatency := previousWorkflowsEndToEndLatency r;
     previousActivitiesEndToEndLatency := previousActivitiesEndToEndLatency r;
     previousDecisionsEndToEndLatency := previousDecisionsEndToEndLatency r |}.

Definition AddInt64_decisionsTimeoutCount (delta : Z) (r : SimpleReporter)
    : SimpleReporter :=
  {| startTime := startTime r;
     workflowsStartCount := workflowsStartCount r;
     activitiesTotalCount := activitiesTotalCount r;
     decisionsTotalCount := decisionsTotalCount r;
     decisionsTimeoutCount := add64 (decisionsTimeoutCount r) delta;
     workflowsCompletionCount := workflowsCompletionCount r;
     workflowsEndToEndLatency := workflowsEndToEndLatency r;
     activitiesEndToEndLatency := activitiesEndToEndLatency r;
     decisionsEndToEndLatency := decisionsEndToEndLatency r;
     previousReportTime := previousReportTime r;
     previousWorkflowsStartCount := previousWorkflowsStartCount r;
     previousActivitiesTotalCount := previousActivitiesTotalCount r;
     previousDecisionsTotalCount := previousDecisionsTotalCount r;
     previousDecisionsTimeoutCount := previousDecisionsTimeoutCount r;
     previousWorkflowsCompletionCount := previousWorkflowsCompletionCount r;
     previousWorkflowsEndToEndLatency := previousWorkflowsEndToEndLatency r;
     previousActivitiesEndToEndLatency := previousActivitiesEndToEndLatency r;
     previousDecisionsEndToEndLatency := previousDecisionsEndToEndLatency r |}.

Definition AddInt64_workflowsCompletionCount (delta : Z) (r : SimpleReporter)
    : SimpleReporter :=
  {| startTime := startTime r;
     workflowsStartCount := workflowsStartCount r;
     activitiesTotalCount := activitiesTotalCount r;
     decisionsTotalCount := decisionsTotalCount r;
     decisionsTimeoutCount := decisionsTimeoutCount r;
     workflowsCompletionCount := add64 (workflowsCompletionCount r) delta;
     workflowsEndToEndLatency := workflowsEndToEndLatency r;
     activitiesEndToEndLatency := activitiesEndToEndLatency r;
     decisionsEndToEndLatency := decisionsEndToEndLatency r;
     previousReportTime := previousReportTime r;
     previousWorkflowsStartCount := previousWorkflowsStartCount r;
     previousActivitiesTotalCount := previousActivitiesTotalCount r;
     previousDecisionsTotalCount := previousDecisionsTotalCount r;
     previousDecisionsTimeoutCount := previousDecisionsTimeoutCount r;
     previousWorkflowsCompletionCount := previousWorkflowsCompletionCount r;
     previousWorkflowsEndToEndLatency := previousWorkflowsEndToEndLatency r;
     previousActivitiesEndToEndLatency := previousActivitiesEndToEndLatency r;
     previousDecisionsEndToEndLatency := previousDecisionsEndToEndLatency r |}.

Definition AddInt64_workflowsEndToEndLatency (delta : Z) (r : SimpleReporter)
    : SimpleReporter :=
  {| startTime := startTime r;
     workflowsStartCount := workflowsStartCount r;
     activitiesTotalCount := activitiesTotalCount r;
     decisionsTotalCount := decisionsTotalCount r;
     decisionsTimeoutCount := decisionsTimeoutCount r;
     workflowsCompletionCount := workflowsCompletionCount r;
     workflowsEndToEndLatency := add64 (workflowsEndToEndLatency r) delta;
     activitiesEndToEndLatency := activitiesEndToEndLatency r;
     decisionsEndToEndLatency := decisionsEndToEndLatency r;
     previousReportTime := previousReportTime r;
     previousWorkflowsStartCount := previousWorkflowsStartCount r;
     previousActivitiesTotalCount := previousActivitiesTotalCount r;
     previousDecisionsTotalCount := previousDecisionsTotalCount r;
     previousDecisionsTimeoutCount := previousDecisionsTimeoutCount r;
     previousWorkflowsCompletionCount := previousWorkflowsCompletionCount r;
     previousWorkflowsEndToEndLatency := previousWorkflowsEndToEndLatency r;
     previousActivitiesEndToEndLatency := previousActivitiesEndToEndLatency r;
     previousDecisionsEndToEndLatency := previousDecisionsEndToEndLatency r |}.

Definition AddInt64_activitiesEndToEndLatency (delta : Z) (r : SimpleReporter)
    : SimpleReporter :=
  {| startTime := startTime r;
     workflowsStartCount := workflowsStartCount r;
     activitiesTotalCount := activitiesTotalCount r;
     decisionsTotalCount := decisionsTotalCount r;
     decisionsTimeoutCount := decisionsTimeoutCount r;
     workflowsCompletionCount := workflowsCompletionCount r;
     workflowsEndToEndLatency := workflowsEndToEndLatency r;
     activitiesEndToEndLatency := add64 (activitiesEndToEndLatency r) delta;
     decisionsEndToEndLatency := decisionsEndToEndLatency r;
     previousReportTime := previousReportTime r;
     previousWorkflowsStartCount := previousWorkflowsStartCount r;
     previousActivitiesTotalCount := previousActivitiesTotalCount r;
     previousDecisionsTotalCount := previousDecisionsTotalCount r;
     previousDecisionsTimeoutCount := previousDecisionsTimeoutCount r;
     previousWorkflowsCompletionCount := previousWorkflowsCompletionCount r;
     previousWorkflowsEndToEndLatency := previousWorkflowsEndToEndLatency r;
     previousActivitiesEndToEndLatency := previousActivitiesEndToEndLatency r;
     previousDecisionsEndToEndLatency := previousDecisionsEndToEndLatency r |}.

Definition AddInt64_decisionsEndToEndLatency (delta : Z) (r : SimpleReporter)
    : SimpleReporter :=
  {| startTime := startTime r;
     workflowsStartCount := workflowsStartCount r;
     activitiesTotalCount := activitiesTotalCount r;
     decisionsTotalCount := decisionsTotalCount r;
     decisionsTimeoutCount := decisionsTimeoutCount r;
     workflowsCompletionCount := workflowsCompletionCount r;
     workflowsEndToEndLatency := workflowsEndToEndLatency r;
     activitiesEndToEndLatency := activitiesEndToEndLatency r;
     decisionsEndToEndLatency := add64 (decisionsEndToEndLatency r) delta;
     previousReportTime := previousReportTime r;
     previousWorkflowsStartCount := previousWorkflowsStartCount r;
     previousActivitiesTotalCount := previousActivitiesTotalCount r;
     previousDecisionsTotalCount := previousDecisionsTotalCount r;
     previousDecisionsTimeoutCount := previousDecisionsTimeoutCount r;
     previousWorkflowsCompletionCount := previousWorkflowsCompletionCount r;
     previousWorkflowsEndToEndLatency := previousWorkflowsEndToEndLatency r;
     previousActivitiesEndToEndLatency := previousActivitiesEndToEndLatency r;
     previousDecisionsEndToEndLatency := previousDecisionsEndToEndLatency r |}.

(** The [tags] argument is not used. *)
Definition IncCounter (name : string) (tags : option (gmap string string))
    (delta : Z) : M Reporting unit :=
  if (name =? WorkflowsStartTotalCounter)%string then
    modifyReporter (AddInt64_workflowsStartCount delta)
  else if (name =? ActivitiesTotalCounter)%string then
    modifyReporter (AddInt64_activitiesTotalCount delta)
  else if (name =? DecisionsTotalCounter)%string then
    modifyReporter (AddInt64_decisionsTotalCount delta)
  else if (name =? WorkflowsCompletionTotalCounter)%string then
    modifyReporter (AddInt64_workflowsCompletionCount delta)
  else if (name =? WorkflowEndToEndLatency)%string then
    modifyReporter (AddInt64_workflowsEndToEndLatency delta)
  else if (name =? ActivityEndToEndLatency)%string then
    modifyReporter (AddInt64_activitiesEndToEndLatency delta)
  else if (name =? DecisionsEndToEndLatency)%string then
    modifyReporter (AddInt64_decisionsEndToEndLatency delta)
  else if (name =? DecisionsTimeoutCounter)%string then
    modifyReporter (AddInt64_decisionsTimeoutCount delta)
  else
    log (WithField_Error "name" name "Unknown metric").

Definition UpdateGauge (name : string) (tags : option (gmap string string))
    (value : Z) : M Reporting unit :=
  ret tt.

Definition newSimpleStopWatch (metricName : string) : simpleStopWatch.t :=
  {| simpleStopWatch.metricName := metricName;
     simpleStopWatch.startTime := 0;
     simpleStopWatch.elasped := 0 |}.

Definition Start (now : Time) (w : simpleStopWatch.t) : simpleStopWatch.t :=
  {| simpleStopWatch.metricName := simpleStopWatch.metricName w;
     simpleStopWatch.startTime := now;
     simpleStopWatch.elasped := simpleStopWatch.elasped w |}.

Definition milliseconds (w : simpleStopWatch.t) : Z :=
  quot64 (simpleStopWatch.elasped w) Millisecond.

Definition microseconds (w : simpleStopWatch.t) : Z :=
  quot64 (simpleStopWatch.elasped w) Microsecond.

(** The watch reports to the reporter it was made for, which is the
    reporter of the state.  [time.Since(t)] is [time.Now().Sub(t)]. *)
Definition Stop (now : Time) (w : simpleStopWatch.t)
    : M Reporting (Z * simpleStopWatch.t) :=
  let w1 :=
    {| simpleStopWatch.metricName := simpleStopWatch.metricName w;
       simpleStopWatch.startTime := simpleStopWatch.startTime w;
       simpleStopWatch.elasped := Sub now (simpleStopWatch.startTime w) |} in
  IncCounter (simpleStopWatch.metricName w1) None (milliseconds w1) ;;
  ret (simpleStopWatch.elasped w1, w1).

Definition StartTimer (now : Time) (name : string)
    (tags : option (gmap string string)) : simpleStopWatch.t :=
  let w := newSimpleStopWatch name in
  Start now w.

Definition RecordTimer (name : string) (tags : option (gmap string string))
    (d : Z) : M Reporting unit :=
  let timeToRecord := quot64 d Millisecond in
  IncCounter name tags timeToRecord.

(** The assignments to the [previous...] fields that end
    [PrintStressMetric]. *)
Definition reported (currentTime : Time) (r : SimpleReporter) : SimpleReporter :=
  {| startTime := startTime r;
     workflowsStartCount := workflowsStartCount r;
     activitiesTotalCount := activitiesTotalCount r;
     decisionsTotalCount := decisionsTotalCount r;
     decisionsTimeoutCount := decisionsTimeoutCount r;
     workflowsCompletionCount := workflowsCompletionCount r;
     workflowsEndToEndLatency := workflowsEndToEndLatency r;
     activitiesEndToEndLatency := activitiesEndToEndLatency r;
     decisionsEndToEndLatency := decisionsEndToEndLatency r;
     previousReportTime := currentTime;
     previousWorkflowsStartCount := workflowsStartCount r;
     previousActivitiesTotalCount := activitiesTotalCount r;
     previousDecisionsTotalCount := decisionsTotalCount r;
     previousDecisionsTimeoutCount := decisionsTimeoutCount r;
     previousWorkflowsCompletionCount := workflowsCompletionCount r;
     previousWorkflowsEndToEndLatency := workflowsEndToEndLatency r;
     previousActivitiesEndToEndLatency := activitiesEndToEndLatency r;
     previousDecisionsEndToEndLatency := decisionsEndToEndLatency r |}.

(** The variable [decisionsLatency] is declared and printed, and never
    assigned: the latency of the decisions is assigned to
    [activityLatency]. *)
Definition PrintStressMetric (currentTime : Time) : M Reporting unit :=
  r <- gets reporter ;;
  let elapsed :=
    if negb (IsZero (previousReportTime r))
    then quot64 (Sub currentTime (previousReportTime r)) Second
    else 0 in
  let totalWorkflowStarted := workflowsStartCount r in
  creationThroughput <-
    (if (elapsed >? 0)%Z
        && (totalWorkflowStarted >? previousWorkflowsStartCount r)%Z
     then div64 (sub64 totalWorkflowStarted (previousWorkflowsStartCount r)) elapsed
     else ret 0) ;;
  let totalActivitiesCount := activitiesTotalCount r in
  activitiesThroughput <-
    (if (elapsed >? 0)%Z
        && (totalActivitiesCount >? previousActivitiesTotalCount r)%Z
     then div64 (sub64 totalActivitiesCount (previousActivitiesTotalCount r)) elapsed
     else ret 0) ;;
  let activitiesEndToEndLatency' := activitiesEndToEndLatency r in
  activityLatency <-
    (if (totalActivitiesCount >? 0)%Z
        && (activitiesEndToEndLatency' >? previousActivitiesEndToEndLatency r)%Z
     then
       let currentLatency :=
         sub64 activitiesEndToEndLatency' (previousActivitiesEndToEndLatency r) in
       div64 currentLatency totalActivitiesCount
     else ret 0) ;;
  let totalDecisionsCount := decisionsTotalCount r in
  decisionsThroughput <-
    (if (elapsed >? 0)%Z
        && (totalDecisionsCount >? previousDecisionsTotalCount r)%Z
     then div64 (sub64 totalDecisionsCount (previousDecisionsTotalCount r)) elapsed
     else ret 0) ;;
  let totalDecisionTimeoutCount := decisionsTimeoutCount r in
  let decisionsLatency := 0 in
  let decisionsEndToEndLatency' := decisionsEndToEndLatency r in
  activityLatency <-
    (if (totalDecisionsCount >? 0)%Z
        && (decisionsEndToEndLatency' >? previousDecisionsEndToEndLatency r)%Z
     then
       let currentLatency :=
         sub64 decisionsEndToEndLatency' (previousDecisionsEndToEndLatency r) in
       div64 currentLatency totalDecisionsCount
     else ret activityLatency) ;;
  let totalWorkflowsCompleted := workflowsCompletionCount r in
  completionThroughput <-
    (if (elapsed >? 0)%Z
        && (totalWorkflowsCompleted >? previousWorkflowsCompletionCount r)%Z
     then div64 (sub64 totalWorkflowsCompleted (previousWorkflowsCompletionCount r))
            elapsed
     else ret 0) ;;
  let workflowsLatency := workflowsEndToEndLatency r in
  latency <-
    (if (totalWorkflowsCompleted >? 0)%Z
        && (workflowsLatency >? previousWorkflowsEndToEndLatency r)%Z
     then
       let currentLatency :=
         sub64 workflowsLatency (previousWorkflowsEndToEndLatency r) in
       div64 currentLatency totalWorkflowsCompleted
     else ret 0) ;;
  log (Infof "Workflows Started(Count=%v, Throughput=%v)"
         [Int64Value totalWorkflowStarted; Int64Value creationThroughput]) ;;
  log (Infof "Workflows Completed(Count=%v, Throughput=%v, Average Latency: %v)"
         [Int64Value totalWorkflowsCompleted; Int64Value completionThroughput;
          Int64Value latency]) ;;
  log (Infof "Activites(Count=%v, Throughput=%v, Average Latency: %v)"
         [Int64Value totalActivitiesCount; Int64Value activitiesThroughput;
          Int64Value activityLatency]) ;;
  log (Infof "Decisions(Count=%v, Throughput=%v, Average Latency: %v, TimeoutCount=%v)"
         [Int64Value totalDecisionsCount; Int64Value decisionsThroughput;
          Int64Value decisionsLatency; Int64Value totalDecisionTimeoutCount]) ;;
  modifyReporter (reported currentTime).

Definition PrintFinalMetric (now : Time) : M Reporting unit :=
  r <- gets reporter ;;
  let workflowsCount := workflowsStartCount r in
  let workflowsCompletedCount := workflowsCompletionCount r in
  let totalLatency := workflowsEndToEndLatency r in
  let activitiesCount := activitiesTotalCount r in
  let totalActivitiesLatency := activitiesEndToEndLatency r in
  let decisionsCount := decisionsTotalCount r in
  let totalDecisionsLatency := decisionsEndToEndLatency r in
  let decisionsTimeoutCount' := decisionsTimeoutCount r in
  let elapsed := quot64 (Sub now (startTime r)) Second in
  workflows <-
    (if (workflowsCompletedCount >? 0)%Z then
       throughput <- div64 workflowsCompletedCount elapsed ;;
       latency <- div64 totalLatency workflowsCompletedCount ;;
       ret (throughput, latency)
     else ret (0, 0)) ;;
  activities <-
    (if (activitiesCount >? 0)%Z then
       activityThroughput <- div64 activitiesCount elapsed ;;
       activityLatency <- div64 totalActivitiesLatency activitiesCount ;;
       ret (activityThroughput, activityLatency)
     else ret (0, 0)) ;;
  decisions <-
    (if (decisionsCount >? 0)%Z then
       decisionsThroughput <- div64 decisionsCount elapsed ;;
       decisionLatency <- div64 totalDecisionsLatency decisionsCount ;;
       ret (decisionsThroughput, decisionLatency)
     else ret (0, 0)) ;;
  log (Infof "Total Workflows processed:(Started=%v, Completed=%v), Throughput: %v, Average Latency: %v"
         [Int64Value workflowsCount; Int64Value workflowsCompletedCount;
          Int64Value (fst workflows); DurationValue (snd workflows)]) ;;
  log (Infof "Total Activites processed:(Count=%v, Throughput=%v, Average Latency=%v)"
         [Int64Value activitiesCount; Int64Value (fst activities);
          Int64Value (snd activities)]) ;;
  log (Infof "Total Decisions processed:(Count=%v, Throughput=%v, Average Latency=%v, TimeoutCount=%v)"
         [Int64Value decisionsCount; Int64Value (fst decisions);
          Int64Value (snd decisions); Int64Value decisionsTimeoutCount']).

Definition IsProcessComplete (r : SimpleReporter) : bool :=
  let totalWorkflowStarted := workflowsStartCount r in
  let totalWorkflowsCompleted := workflowsCompletionCount r in
  (totalWorkflowStarted >? 0)%Z && (totalWorkflowStarted =? totalWorkflowsCompleted)%Z.

(** Six of the eight counters are stored to; the latencies of the
    activities and of the decisions are not. *)
Definition ResetMetric (r : SimpleReporter) : SimpleReporter :=
  {| startTime := startTime r;
     workflowsStartCount := 0;
     activitiesTotalCount := 0;
     decisionsTotalCount := 0;
     decisionsTimeoutCount := 0;
     workflowsCompletionCount := 0;
     workflowsEndToEndLatency := 0;
     activitiesEndToEndLatency := activitiesEndToEndLatency r;
     decisionsEndToEndLatency := decisionsEndToEndLatency r;
     previousReportTime := previousReportTime r;
     previousWorkflowsStartCount := previousWorkflowsStartCount r;
     previousActivitiesTotalCount := previousActivitiesTotalCount r;
     previousDecisionsTotalCount := previousDecisionsTotalCount r;
     previousDecisionsTimeoutCount := previousDecisionsTimeoutCount r;
     previousWorkflowsCompletionCount := previousWorkflowsCompletionCount r;
     previousWorkflowsEndToEndLatency := previousWorkflowsEndToEndLatency r;
     previousActivitiesEndToEndLatency := previousActivitiesEndToEndLatency r;
     previousDecisionsEndToEndLatency := previousDecisionsEndToEndLatency r |}.

(** *** Definitions used to state the properties of the reporter *)

(** The fields an [int64] counter can hold. *)
Definition int64 (v : Z) : Prop := MinInt64 <= v <= MaxInt64.

Definition counters (r : SimpleReporter) : list Z :=
  [workflowsStartCount r; activitiesTotalCount r; decisionsTotalCount r;
   decisionsTimeoutCount r; workflowsCompletionCount r;
   workflowsEndToEndLatency r; activitiesEndToEndLatency r;
   decisionsEndToEndLatency r].

(** What the counters were when the last report was printed. *)
Definition previousCounters (r : SimpleReporter) : list Z :=
  [previousWorkflowsStartCount r; previousActivitiesTotalCount r;
   previousDecisionsTotalCount r; previousDecisionsTimeoutCount r;
   previousWorkflowsCompletionCount r; previousWorkflowsEndToEndLatency r;
   previousActivitiesEndToEndLatency r; previousDecisionsEndToEndLatency r].

(** The names [IncCounter] has a counter for. *)
Definition metricNames : list string :=
  [WorkflowsStartTotalCounter; ActivitiesTotalCounter; DecisionsTotalCounter;
   DecisionsTimeoutCounter; WorkflowsCompletionTotalCounter;
   WorkflowEndToEndLatency; ActivityEndToEndLatency; DecisionsEndToEndLatency].

Definition isMetricName (name : string) : bool :=
  bool_decide (name ∈ metricNames).

(** Calls of [IncCounter], one after the other. *)
Definition incCounters (increments : list (string * Z)) : M Reporting unit :=
  forEach (fun increment => IncCounter (fst increment) None (snd increment))
    increments.

(** The sum of the increments made under a name. *)
Definition deltasOf (name : string) (increments : list (string * Z)) : Z :=
  fold_right Z.add 0
    (map snd (filter (fun increment => fst increment = name) increments)).

(** A counter after the increments made under its name, one by one. *)
Definition accumulated (name : string) (increments : list (string * Z)) (v : Z) : Z :=
  fold_left
    (fun v increment =>
       if decide (fst increment = name) then add64 v (snd increment) else v)
    increments v.

(** The lines of the increments under names that stand for no counter. *)
Definition unknownMetrics (increments : list (string * Z)) : list LogEntry :=
  map (fun increment => WithField_Error "name" (fst increment) "Unknown metric")
    (filter (fun increment => isMetricName (fst increment) = false) increments).

End metrics.

(** * Properties *)

(** ** Activity ids *)

Section ContextProperties.

Context {ResultHandler : Type}.
Implicit Types wc : workflowContext ResultHandler.

Lemma wrap32_in_range (z : Z) : MinInt32 <= z <= MaxInt32 -> wrap32 z = z.
Proof.
  unfold wrap32, MinInt32, MaxInt32. intros Hz.
  rewrite Z.mod_small by lia. lia.
Qed.

Lemma wrap32_overflow : wrap32 (MaxInt32 + 1) = MinInt32.
Proof. reflexivity. Qed.

Lemma GenerateActivityID_eq wc :
  GenerateActivityID wc
  = (Sprintf_d (counterID wc), withCounterID (wrap32 (counterID wc + 1)) wc).
Proof. reflexivity. Qed.

(** While the counter stays below [2^31] the ids count up from it. *)
Lemma generateIDs_count_up (n : nat) : forall wc,
  MinInt32 <= counterID wc ->
  counterID wc + Z.of_nat n <= 2 ^ 31 ->
  fst (generateIDs n wc)
  = map (fun i => Sprintf_d (counterID wc + Z.of_nat i)) (seq 0 n).
Proof.
  induction n as [|n IH]; intros wc Hlo Hhi; [reflexivity|].
  cbn [generateIDs]. rewrite GenerateActivityID_eq.
  destruct (generateIDs n _) as [ids wc2] eqn:Hrest.
  cbn [fst seq map]. rewrite Z.add_0_r. f_equal.
  change ids with (fst (ids, wc2)). rewrite <- Hrest.
  destruct n as [|n]; [reflexivity|].
  assert (Hw : wrap32 (counterID wc + 1) = counterID wc + 1)
    by (apply wrap32_in_range; unfold MinInt32, MaxInt32 in *; lia).
  rewrite IH; cbn [withCounterID counterID]; rewrite Hw;
    [| unfold MinInt32 in *; lia | lia].
  rewrite <- seq_shift, map_map. apply map_ext. intros i.
  f_equal. lia.
Qed.

Lemma generateIDs_counter (n : nat) : forall wc,
  MinInt32 <= counterID wc ->
  counterID wc + Z.of_nat n <= MaxInt32 ->
  counterID (snd (generateIDs n wc)) = counterID wc + Z.of_nat n.
Proof.
  induction n as [|n IH]; intros wc Hlo Hhi.
  - cbn. lia.
  - cbn [generateIDs]. rewrite GenerateActivityID_eq.
    destruct (generateIDs n _) as [ids wc2] eqn:Hrest.
    cbn [snd]. change wc2 with (snd (ids, wc2)). rewrite <- Hrest.
    assert (Hw : wrap32 (counterID wc + 1) = counterID wc + 1)
      by (apply wrap32_in_range; unfold MinInt32, MaxInt32 in *; lia).
    rewrite IH; cbn [withCounterID counterID]; rewrite Hw;
      [lia | unfold MinInt32 in *; lia | lia].
Qed.

End ContextProperties.

(** C8, as the code has it: [GenerateActivityID] returns the decimal form of
    the counter and adds one to it with the wrap-around of [int32]; below the
    largest [int32] that is the counter plus one, and the first [n <= 2^31]
    ids a fresh context generates are "0", "1", ..., [n-1] in this order,
    whatever the execution. *)
Theorem GenerateActivityID_counts_up_to_overflow
    (ResultHandler : Type) (info : WorkflowInfo) (n : nat) :
  Z.of_nat n <= 2 ^ 31 ->
  (forall wc : workflowContext ResultHandler,
      fst (GenerateActivityID wc) = Sprintf_d (counterID wc)
      /\ counterID (snd (GenerateActivityID wc)) = wrap32 (counterID wc + 1)
      /\ (MinInt32 <= counterID wc < MaxInt32 ->
          counterID (snd (GenerateActivityID wc)) = counterID wc + 1))
  /\ fst (generateIDs n (newWorkflowContext (ResultHandler := ResultHandler) info))
     = map (fun i => Sprintf_d (Z.of_nat i)) (seq 0 n).
Proof.
  intros Hn. split.
  - intros wc. rewrite GenerateActivityID_eq. cbn [fst snd withCounterID counterID].
    repeat split. intros Hc. apply wrap32_in_range. lia.
  - rewrite generateIDs_count_up; cbn [newWorkflowContext counterID];
      [reflexivity | unfold MinInt32; lia | lia].
Qed.

Lemma GenerateActivityID_counts_up_witness :
  Z.of_nat 3 <= 2 ^ 31
  /\ fst (generateIDs 3 (newWorkflowContext (ResultHandler := unit) Samples.info))
     = ["0"; "1"; "2"].
Proof.
  split; [lia|].
  apply (GenerateActivityID_counts_up_to_overflow unit Samples.info 3). lia.
Defined.

(** C8 fails at the largest [int32]: after [2147483647] calls on a fresh
    context the counter is [MaxInt32]; the next call returns "2147483647" and
    leaves the counter at [MinInt32], not at the counter plus one, and the
    call after it returns "-2147483648". *)
Lemma GenerateActivityID_wraps_around :
  let wc := snd (generateIDs (Z.to_nat MaxInt32)
                   (newWorkflowContext (ResultHandler := unit) Samples.info)) in
  let wc1 := snd (GenerateActivityID wc) in
  counterID wc = 2147483647
  /\ fst (GenerateActivityID wc) = "2147483647"
  /\ counterID wc1 = -2147483648
  /\ counterID wc1 <> counterID wc + 1
  /\ fst (GenerateActivityID wc1) = "-2147483648".
Proof.
  intros wc wc1.
  assert (Hc : counterID wc = 2147483647).
  { unfold wc. rewrite generateIDs_counter.
    - cbn [newWorkflowContext counterID].
      rewrite Z2Nat.id by (unfold MaxInt32; lia). reflexivity.
    - cbn [newWorkflowContext counterID]. unfold MinInt32. lia.
    - cbn [newWorkflowContext counterID].
      rewrite Z2Nat.id by (unfold MaxInt32; lia). lia. }
  assert (Hc1 : counterID wc1 = -2147483648).
  { unfold wc1. rewrite GenerateActivityID_eq.
    cbn [snd withCounterID counterID]. rewrite Hc. reflexivity. }
  split; [exact Hc|]. split.
  { rewrite GenerateActivityID_eq. cbn [fst]. rewrite Hc. vm_compute. reflexivity. }
  split; [exact Hc1|]. split.
  { rewrite Hc1, Hc. lia. }
  rewrite GenerateActivityID_eq. cbn [fst]. rewrite Hc1. vm_compute. reflexivity.
Qed.

(** ** Scheduling an activity *)

Section ExecuteActivityProperties.

Context {ResultHandler : Type}.
Implicit Types wc : workflowContext ResultHandler.

Lemma ExecuteActivity_eq parameters (callback : option ResultHandler) wc :
  ExecuteActivity parameters callback wc
  = {| workflowInfo := workflowInfo wc;
       scheduledActivites :=
         <[ activityIDOf parameters wc := callback ]> (scheduledActivites wc);
       scheduledEventIDToActivityID := scheduledEventIDToActivityID wc;
       counterID := match ActivityID parameters with
                    | None => wrap32 (counterID wc + 1)
                    | Some _ => counterID wc
                    end;
       executeDecisions :=
         executeDecisions wc
         ++ [scheduleDecision (activityIDOf parameters wc) parameters] |}.
Proof.
  unfold ExecuteActivity, activityIDOf.
  destruct (ActivityID parameters); reflexivity.
Qed.

Lemma ExecuteActivity_decisions parameters (callback : option ResultHandler) wc :
  executeDecisions (ExecuteActivity parameters callback wc)
  = executeDecisions wc ++ [scheduleDecision (activityIDOf parameters wc) parameters].
Proof. rewrite ExecuteActivity_eq. reflexivity. Qed.

Lemma ExecuteActivity_registers parameters (callback : option ResultHandler) wc :
  scheduledActivites (ExecuteActivity parameters callback wc)
    !! activityIDOf parameters wc = Some callback.
Proof. rewrite ExecuteActivity_eq. cbn. apply lookup_insert_eq. Qed.

Lemma ExecuteActivity_eventIDs parameters (callback : option ResultHandler) wc :
  scheduledEventIDToActivityID (ExecuteActivity parameters callback wc)
  = scheduledEventIDToActivityID wc.
Proof. rewrite ExecuteActivity_eq. reflexivity. Qed.

End ExecuteActivityProperties.

(** C5 at a request with a heartbeat timeout: the decision carries the
    activity id (generated when the request has none), the activity type, the
    task list, the input and the three schedule and start timeouts, and the
    callback is registered under the id; but the request's heartbeat timeout
    goes nowhere, the context after the call being the same for every value
    of it. *)
Theorem ExecuteActivity_drops_heartbeat_timeout
    (ResultHandler : Type) (parameters : ExecuteActivityParameters)
    (callback : option ResultHandler) (wc : workflowContext ResultHandler) :
  executeDecisions (ExecuteActivity parameters callback wc)
  = executeDecisions wc ++ [scheduleDecision (activityIDOf parameters wc) parameters]
  /\ scheduledActivites (ExecuteActivity parameters callback wc)
       !! activityIDOf parameters wc = Some callback
  /\ forall h : Z,
       ExecuteActivity (withHeartbeatTimeoutSeconds h parameters) callback wc
       = ExecuteActivity parameters callback wc.
Proof.
  split; [apply ExecuteActivity_decisions|].
  split; [apply ExecuteActivity_registers|].
  intros h. rewrite !ExecuteActivity_eq. reflexivity.
Qed.

(** C4 fails: two calls with the same user-provided id both go through; the
    second callback replaces the first in [scheduledActivites] and two
    decisions with the same activity id are pending. *)
Lemma ExecuteActivity_duplicate_id_replaces :
  let p := {| ActivityID := Some "a"; ActivityType := Samples.Foo;
              TaskListName := "tl"; Input := [];
              ScheduleToCloseTimeoutSeconds := 60;
              ScheduleToStartTimeoutSeconds := 10;
              StartToCloseTimeoutSeconds := 50;
              HeartbeatTimeoutSeconds := 0 |} in
  let wc1 := ExecuteActivity p (Some 1%nat) (newWorkflowContext Samples.info) in
  let wc2 := ExecuteActivity p (Some 2%nat) wc1 in
  scheduledActivites wc1 !! "a" = Some (Some 1%nat)
  /\ scheduledActivites wc2 !! "a" = Some (Some 2%nat)
  /\ executeDecisions wc2 = [scheduleDecision "a" p; scheduleDecision "a" p].
Proof.
  cbv zeta. split; [|split].
  - apply (ExecuteActivity_registers (ResultHandler := nat)).
  - apply (ExecuteActivity_registers (ResultHandler := nat)).
  - reflexivity.
Qed.

Section BetweenTwoCalls.

Context {ResultHandler : Type}.
Implicit Types wc : workflowContext ResultHandler.
Implicit Types ops : list (contextOperation ResultHandler).

Lemma performAll_snoc ops op wc :
  performAll (ops ++ [op]) wc = perform op (performAll ops wc).
Proof. unfold performAll. rewrite fold_left_app. reflexivity. Qed.

(** No operation removes an entry of [scheduledActivites]. *)
Lemma performAll_keeps_entries ops wc id :
  is_Some (scheduledActivites wc !! id) ->
  is_Some (scheduledActivites (performAll ops wc) !! id).
Proof.
  induction ops as [|op ops IH] using rev_ind; intros Hin; [exact Hin|].
  rewrite performAll_snoc. specialize (IH Hin).
  destruct op as [parameters callback| |decisions|eventID activityID];
    cbn [perform]; try exact IH.
  rewrite ExecuteActivity_eq. cbn [scheduledActivites].
  apply lookup_insert_is_Some'. right. exact IH.
Qed.

(** Only [ExecuteActivity] changes [scheduledActivites]. *)
Lemma performAll_scheduledActivites ops wc :
  forallb (fun op => negb (isExecuteActivity op)) ops = true ->
  scheduledActivites (performAll ops wc) = scheduledActivites wc.
Proof.
  induction ops as [|op ops IH] using rev_ind; intros Hnone; [reflexivity|].
  rewrite forallb_app in Hnone. apply andb_true_iff in Hnone as [Hops Hop].
  rewrite performAll_snoc, <- (IH Hops).
  destruct op; cbn in Hop; try discriminate; reflexivity.
Qed.

(** Only [SwapExecuteDecisions] takes decisions out of the queue. *)
Lemma performAll_executeDecisions ops wc :
  forallb (fun op => negb (isSwapExecuteDecisions op)) ops = true ->
  exists others,
    executeDecisions (performAll ops wc) = executeDecisions wc ++ others.
Proof.
  induction ops as [|op ops IH] using rev_ind; intros Hnone.
  - exists []. rewrite app_nil_r. reflexivity.
  - rewrite forallb_app in Hnone. apply andb_true_iff in Hnone as [Hops Hop].
    destruct (IH Hops) as (others & Hothers).
    rewrite performAll_snoc.
    destruct op as [parameters callback| |decisions|eventID activityID];
      cbn in Hop; try discriminate; cbn [perform].
    + rewrite ExecuteActivity_decisions, Hothers, <- app_assoc.
      eexists. reflexivity.
    + exists others. exact Hothers.
    + exists others. exact Hothers.
Qed.

End BetweenTwoCalls.

(** C4, as the code has it: when two calls of [ExecuteActivity] on a
    workflow context resolve to the same activity id, whatever is done to the
    context between them, the second call goes through like any other.  The
    id is taken when it is made (by the callback of the first call, when no
    call of [ExecuteActivity] came between); its callback replaces that entry
    of [scheduledActivites] and no other; its decision joins the pending ones
    at the end, after the decision of the first call when the queue was not
    swapped out in between; nothing else of the context changes. *)
Theorem ExecuteActivity_same_id_replaces_callback
    (ResultHandler : Type) (p1 p2 : ExecuteActivityParameters)
    (callback1 callback2 : option ResultHandler)
    (between : list (contextOperation ResultHandler))
    (wc : workflowContext ResultHandler) :
  let id := activityIDOf p1 wc in
  let wc1 := ExecuteActivity p1 callback1 wc in
  let before := performAll between wc1 in
  let wc2 := ExecuteActivity p2 callback2 before in
  activityIDOf p2 before = id ->
  scheduledActivites wc1 !! id = Some callback1
  /\ is_Some (scheduledActivites before !! id)
  /\ (forallb (fun op => negb (isExecuteActivity op)) between = true ->
      scheduledActivites before !! id = Some callback1)
  /\ scheduledActivites wc2 = <[ id := callback2 ]> (scheduledActivites before)
  /\ scheduledActivites wc2 !! id = Some callback2
  /\ executeDecisions wc2 = executeDecisions before ++ [scheduleDecision id p2]
  /\ (forallb (fun op => negb (isSwapExecuteDecisions op)) between = true ->
      exists others,
        executeDecisions wc2
        = executeDecisions wc
          ++ scheduleDecision id p1 :: others ++ [scheduleDecision id p2])
  /\ scheduledEventIDToActivityID wc2 = scheduledEventIDToActivityID before
  /\ workflowInfo wc2 = workflowInfo before.
Proof.
  intros id wc1 before wc2 Hsame.
  assert (H1 : scheduledActivites wc1 !! id = Some callback1)
    by apply ExecuteActivity_registers.
  split; [exact H1|].
  split; [apply performAll_keeps_entries; rewrite H1; eexists; reflexivity|].
  split.
  { intros Hnone. unfold before.
    rewrite (performAll_scheduledActivites between wc1 Hnone). exact H1. }
  split; [unfold wc2; rewrite ExecuteActivity_eq, Hsame; reflexivity|].
  split; [rewrite <- Hsame; apply ExecuteActivity_registers|].
  split; [unfold wc2; rewrite ExecuteActivity_decisions, Hsame; reflexivity|].
  split.
  { intros Hnone.
    destruct (performAll_executeDecisions between wc1 Hnone) as (others & Hothers).
    exists others. unfold wc2. rewrite ExecuteActivity_decisions, Hsame.
    fold before in Hothers. rewrite Hothers. unfold wc1.
    rewrite ExecuteActivity_decisions. fold id.
    rewrite <- !app_assoc. reflexivity. }
  split; unfold wc2; rewrite ExecuteActivity_eq; reflexivity.
Qed.

(** A generated id colliding with a user-provided one, after the decision
    of the first call was handed out. *)
Lemma ExecuteActivity_same_id_witness :
  let p1 := Samples.request [] in
  let p2 := {| ActivityID := Some "0"; ActivityType := Samples.Foo;
               TaskListName := "tl"; Input := [];
               ScheduleToCloseTimeoutSeconds := 60;
               ScheduleToStartTimeoutSeconds := 10;
               StartToCloseTimeoutSeconds := 50;
               HeartbeatTimeoutSeconds := 0 |} in
  let wc := newWorkflowContext (ResultHandler := nat) Samples.info in
  let between := [callSwapExecuteDecisions []; recordScheduled 5 "0"] in
  let before := performAll between (ExecuteActivity p1 (Some 1%nat) wc) in
  let wc2 := ExecuteActivity p2 (Some 2%nat) before in
  activityIDOf p2 before = activityIDOf p1 wc
  /\ scheduledActivites before !! "0" = Some (Some 1%nat)
  /\ scheduledActivites wc2 !! "0" = Some (Some 2%nat)
  /\ executeDecisions wc2 = [scheduleDecision "0" p2].
Proof.
  cbv zeta.
  pose proof (ExecuteActivity_same_id_replaces_callback nat
                (Samples.request [])
                {| ActivityID := Some "0"; ActivityType := Samples.Foo;
                   TaskListName := "tl"; Input := [];
                   ScheduleToCloseTimeoutSeconds := 60;
                   ScheduleToStartTimeoutSeconds := 10;
                   StartToCloseTimeoutSeconds := 50;
                   HeartbeatTimeoutSeconds := 0 |}
                (Some 1%nat) (Some 2%nat)
                [callSwapExecuteDecisions []; recordScheduled 5 "0"]
                (newWorkflowContext Samples.info) eq_refl) as H.
  cbv zeta in H.
  destruct H as (_ & _ & Hfirst & _ & Hsecond & Hdecisions & _).
  split; [reflexivity|].
  split; [exact (Hfirst eq_refl)|].
  split; [exact Hsecond|].
  exact Hdecisions.
Defined.

(** ** The event handler against any callbacks and workflow definitions *)

Section EventHandlerProperties.

Context {ResultHandler WorkflowDefinition World : Type}.
Local Abbreviation State := (State ResultHandler WorkflowDefinition World).

Variable callResultHandler :
  ResultHandler -> bytes -> option Error -> M State unit.
Variable Execute : WorkflowDefinition -> bytes -> M State unit.
Variable workflowDefinitionFactory :
  m.WorkflowType -> M State (option WorkflowDefinition * option Error).

Local Abbreviation process :=
  (ProcessEvent callResultHandler Execute workflowDefinitionFactory).
Local Abbreviation Evolves :=
  (Evolves callResultHandler Execute workflowDefinitionFactory).

Lemma swapExecuteDecisions_eq decisions (s : State) :
  swapExecuteDecisions decisions s
  = (Val (executeDecisions (context s)),
     setContext (snd (SwapExecuteDecisions decisions (context s))) s).
Proof. reflexivity. Qed.

(** After the callback, a terminal activity handler drains. *)
Lemma callback_then_drain_evolves (s : State) (handler : option ResultHandler) r e :
  Evolves s false
    (snd ((match handler with
           | Some h => callResultHandler h r e
           | None => ret tt
           end ;;
           decisions <- swapExecuteDecisions [] ;;
           ret (Some decisions, @None error)) s)).
Proof.
  unfold bind. destruct handler as [h|]; cbn.
  - destruct (callResultHandler h r e s) as [[[]|msg] s1] eqn:Hcall; cbn.
    + eapply Evolves_callback; eassumption.
    + eapply Evolves_callback_panic; eassumption.
  - apply Evolves_nil_callback.
Qed.

Lemma handleActivityTaskCompleted_evolves attributes (s : State) :
  Evolves s false (snd (handleActivityTaskCompleted callResultHandler attributes s)).
Proof.
  unfold handleActivityTaskCompleted.
  destruct attributes as [a|]; [|apply Evolves_same].
  cbn. destruct (_ !! _) as [activityID|]; [|apply Evolves_same].
  destruct (_ !! _) as [handler|]; [|apply Evolves_same].
  apply callback_then_drain_evolves.
Qed.

Lemma handleActivityTaskTimedOut_evolves attributes (s : State) :
  Evolves s false (snd (handleActivityTaskTimedOut callResultHandler attributes s)).
Proof.
  unfold handleActivityTaskTimedOut.
  destruct attributes as [a|]; [|apply Evolves_same].
  cbn. destruct (_ !! _) as [activityID|]; [|apply Evolves_same].
  destruct (_ !! _) as [handler|]; [|apply Evolves_same].
  apply callback_then_drain_evolves.
Qed.

Lemma handleActivityTaskFailed_evolves attributes (s : State) :
  Evolves s false (snd (handleActivityTaskFailed callResultHandler attributes s)).
Proof.
  unfold handleActivityTaskFailed.
  destruct attributes as [a|]; [|apply Evolves_same].
  cbn. destruct (_ !! _) as [activityID|]; [|apply Evolves_same].
  destruct (_ !! _) as [handler|]; [|apply Evolves_same].
  destruct handler as [h|].
  - destruct (m.ActivityTaskFailedEventAttributes.Reason a) as [reason|] eqn:Hreason.
    + unfold bind at 1. unfold bind at 2. cbn.
      apply (callback_then_drain_evolves s (Some h)).
    + unfold bind. cbn. apply Evolves_same.
  - apply (callback_then_drain_evolves s None [] None).
Qed.

Lemma handleWorkflowExecutionStarted_evolves attributes (s : State) :
  Evolves s true
    (snd (handleWorkflowExecutionStarted Execute workflowDefinitionFactory
            attributes s)).
Proof.
  unfold handleWorkflowExecutionStarted, bind, gets. cbn.
  destruct (workflowDefinitionFactory _ s) as [[made|msg] s0] eqn:Hmade; cbn;
    [|eapply Evolves_factory_panic; eassumption].
  destruct (snd made) as [err|]; cbn;
    [eapply Evolves_factory; eassumption|].
  destruct (fst made) as [d|] eqn:Hd; cbn.
  2: { rewrite <- Hd. eapply Evolves_factory; eassumption. }
  destruct attributes as [a|]; cbn.
  2: { rewrite <- Hd. eapply Evolves_factory; eassumption. }
  destruct (Execute d _ _) as [[[]|msg] s1] eqn:Hexec; cbn.
  - eapply Evolves_execute; [eassumption|]. rewrite Hd. eassumption.
  - eapply Evolves_execute_panic; [eassumption|]. rewrite Hd. eassumption.
Qed.

Lemma ProcessEvent_ActivityTaskScheduled event a (s : State) :
  m.HistoryEvent.EventType event = m.EventType_ActivityTaskScheduled ->
  m.HistoryEvent.ActivityTaskScheduledEventAttributes event = Some a ->
  process (Some event) s
  = (Val (None, None),
     setContext
       (recordScheduledEvent (m.HistoryEvent.EventId event)
          (m.ActivityTaskScheduledEventAttributes.ActivityId a) (context s)) s).
Proof. intros Htype Ha. unfold ProcessEvent. rewrite Htype, Ha. reflexivity. Qed.

(** Every call of [ProcessEvent] records a scheduled event or changes the
    state in one of the ways of [Evolves]. *)
Lemma ProcessEvent_evolves event (s : State) :
  (exists e a,
      event = Some e
      /\ m.HistoryEvent.EventType e = m.EventType_ActivityTaskScheduled
      /\ snd (process event s)
         = setContext
             (recordScheduledEvent (m.HistoryEvent.EventId e) a (context s)) s)
  \/ Evolves s (isStarted event) (snd (process event s)).
Proof.
  destruct event as [event|]; [|right; apply Evolves_same].
  unfold isStarted.
  destruct (m.HistoryEvent.EventType event) eqn:Htype;
    unfold ProcessEvent; rewrite Htype; try (right; apply Evolves_same).
  - right. apply handleWorkflowExecutionStarted_evolves.
  - destruct (m.HistoryEvent.ActivityTaskScheduledEventAttributes event) as [a|];
      [|right; apply Evolves_same].
    left. eexists _, _. split; [reflexivity|]. split; [assumption|]. reflexivity.
  - right. apply handleActivityTaskCompleted_evolves.
  - right. apply handleActivityTaskFailed_evolves.
  - right. apply handleActivityTaskTimedOut_evolves.
Qed.

End EventHandlerProperties.

Section Routing.

Context {ResultHandler WorkflowDefinition World : Type}.
Local Abbreviation State := (State ResultHandler WorkflowDefinition World).

Variable callResultHandler :
  ResultHandler -> bytes -> option Error -> M State unit.
Variable Execute : WorkflowDefinition -> bytes -> M State unit.
Variable workflowDefinitionFactory :
  m.WorkflowType -> M State (option WorkflowDefinition * option Error).

Local Abbreviation process :=
  (ProcessEvent callResultHandler Execute workflowDefinitionFactory).

Lemma ActivityTaskCompleted_resolves event a activityID h (s : State) :
  m.HistoryEvent.EventType event = m.EventType_ActivityTaskCompleted ->
  m.HistoryEvent.ActivityTaskCompletedEventAttributes event = Some a ->
  scheduledEventIDToActivityID (context s)
    !! m.ActivityTaskCompletedEventAttributes.ScheduledEventId a = Some activityID ->
  scheduledActivites (context s) !! activityID = Some (Some h) ->
  process (Some event) s
  = deliver callResultHandler h
      (m.ActivityTaskCompletedEventAttributes.Result_ a) None s.
Proof.
  intros Htype Ha Hid Hh. unfold ProcessEvent. rewrite Htype, Ha.
  unfold handleActivityTaskCompleted, deliver, bind. cbn. rewrite Hid, Hh.
  reflexivity.
Qed.

Lemma ActivityTaskTimedOut_resolves event a activityID h (s : State) :
  m.HistoryEvent.EventType event = m.EventType_ActivityTaskTimedOut ->
  m.HistoryEvent.ActivityTaskTimedOutEventAttributes event = Some a ->
  scheduledEventIDToActivityID (context s)
    !! m.ActivityTaskTimedOutEventAttributes.ScheduledEventId a = Some activityID ->
  scheduledActivites (context s) !! activityID = Some (Some h) ->
  process (Some event) s
  = deliver callResultHandler h []
      (Some (ActivityTaskTimeoutError
               (m.ActivityTaskTimedOutEventAttributes.TimeoutType a))) s.
Proof.
  intros Htype Ha Hid Hh. unfold ProcessEvent. rewrite Htype, Ha.
  unfold handleActivityTaskTimedOut, deliver, bind. cbn. rewrite Hid, Hh.
  reflexivity.
Qed.

Lemma ActivityTaskFailed_resolves event a activityID h (s : State) :
  m.HistoryEvent.EventType event = m.EventType_ActivityTaskFailed ->
  m.HistoryEvent.ActivityTaskFailedEventAttributes event = Some a ->
  scheduledEventIDToActivityID (context s)
    !! m.ActivityTaskFailedEventAttributes.ScheduledEventId a = Some activityID ->
  scheduledActivites (context s) !! activityID = Some (Some h) ->
  process (Some event) s
  = match m.ActivityTaskFailedEventAttributes.Reason a with
    | Some reason =>
        deliver callResultHandler h []
          (Some (ActivityTaskFailedError reason
                   (m.ActivityTaskFailedEventAttributes.Details a))) s
    | None => (Panicked nilDereference, s)
    end.
Proof.
  intros Htype Ha Hid Hh. unfold ProcessEvent. rewrite Htype, Ha.
  unfold handleActivityTaskFailed, deliver, bind. cbn. rewrite Hid, Hh.
  destruct (m.ActivityTaskFailedEventAttributes.Reason a); reflexivity.
Qed.

(** A terminal activity event whose scheduled event id is not in
    [scheduledEventIDToActivityID]: an error, and the state as it was. *)
Lemma terminal_event_unmapped event scheduledEventID (s : State) :
  terminalScheduledEventId event = Some scheduledEventID ->
  scheduledEventIDToActivityID (context s) !! scheduledEventID = None ->
  exists format args,
    process (Some event) s = (Val (None, Some (Errorf format args)), s).
Proof.
  unfold terminalScheduledEventId, ProcessEvent.
  destruct (m.HistoryEvent.EventType event); try discriminate.
  - destruct (m.HistoryEvent.ActivityTaskCompletedEventAttributes event) as [a|];
      [|discriminate].
    intros [= <-] Hnone. unfold handleActivityTaskCompleted, bind. cbn.
    rewrite Hnone. eauto.
  - destruct (m.HistoryEvent.ActivityTaskFailedEventAttributes event) as [a|];
      [|discriminate].
    intros [= <-] Hnone. unfold handleActivityTaskFailed, bind. cbn.
    rewrite Hnone. eauto.
  - destruct (m.HistoryEvent.ActivityTaskTimedOutEventAttributes event) as [a|];
      [|discriminate].
    intros [= <-] Hnone. unfold handleActivityTaskTimedOut, bind. cbn.
    rewrite Hnone. eauto.
Qed.

(** C9: a nil event is answered with the error "nil event provided", no
    decisions and an untouched state; an event whose type is none of those
    [ProcessEvent] names is answered with the error "missing event handler
    for event type", no decisions and an untouched state. *)
Theorem ProcessEvent_rejects_nil_and_unlisted_events (s : State) :
  process None s = (Val (None, Some (Errorf "nil event provided" [])), s)
  /\ forall event code,
       m.HistoryEvent.EventType event = m.EventType_Other code ->
       process (Some event) s
       = (Val (None,
               Some (Errorf "missing event handler for event type: %v"
                       [ArgEvent event])),
          s).
Proof.
  split; [reflexivity|].
  intros event code Htype. unfold ProcessEvent. rewrite Htype. reflexivity.
Qed.

(** C10: on an [ActivityTaskFailed] event that resolves to a non-nil
    callback, the handler reads through the event's [Reason] pointer before
    it calls the callback.  With no reason the read panics, the callback
    is not called and the state is as it was; with a reason the callback
    gets a nil result and the [ActivityTaskFailedError] made of the
    event's reason and details, and the handler drains the decisions. *)
Theorem handleActivityTaskFailed_dereferences_Reason
    event a activityID h (s : State) :
  m.HistoryEvent.EventType event = m.EventType_ActivityTaskFailed ->
  m.HistoryEvent.ActivityTaskFailedEventAttributes event = Some a ->
  scheduledEventIDToActivityID (context s)
    !! m.ActivityTaskFailedEventAttributes.ScheduledEventId a = Some activityID ->
  scheduledActivites (context s) !! activityID = Some (Some h) ->
  (m.ActivityTaskFailedEventAttributes.Reason a = None ->
   process (Some event) s = (Panicked nilDereference, s))
  /\ (forall reason,
        m.ActivityTaskFailedEventAttributes.Reason a = Some reason ->
        process (Some event) s
        = (callResultHandler h []
             (Some (ActivityTaskFailedError reason
                      (m.ActivityTaskFailedEventAttributes.Details a))) ;;
           decisions <- swapExecuteDecisions [] ;;
           ret (Some decisions, None)) s).
Proof.
  intros Htype Ha Hid Hh.
  rewrite (ActivityTaskFailed_resolves event a activityID h s Htype Ha Hid Hh).
  split.
  - intros ->. reflexivity.
  - intros reason ->. reflexivity.
Qed.

End Routing.

(** ** The workflow definition adapter *)

Section AdapterProperties.

Variable rt : Runtime.
Implicit Types s : St rt.

Lemma forEach_registerCalls c made s :
  forEach (contextImpl_ExecuteActivity rt c) made s
  = (Val tt, setContext (registerCalls rt c made (context s)) s).
Proof.
  revert s. induction made as [|call made IH]; intros s.
  - destruct s; reflexivity.
  - cbn [forEach]. unfold bind at 1.
    unfold contextImpl_ExecuteActivity at 1, executeActivity, modify.
    rewrite IH. destruct s; reflexivity.
Qed.

Lemma getContextImpl_eq c s :
  getContextImpl rt c s
  = match contexts rt (world s) !! c with
    | Some ctx => (Val ctx, s)
    | None => (Panicked nilDereference, s)
    end.
Proof.
  unfold getContextImpl, bind, gets, deref.
  destruct (contexts rt (world s) !! c); reflexivity.
Qed.

Lemma executeDispatcher_invalid c s :
  contexts rt (world s) !! c = None ->
  executeDispatcher rt c s = (Panicked nilDereference, s).
Proof.
  intros Hc. unfold executeDispatcher, ExecuteUntilAllBlocked.
  unfold bind at 1. unfold bind at 1. rewrite getContextImpl_eq, Hc. reflexivity.
Qed.

Lemma executeDispatcher_closed c ctx s :
  contexts rt (world s) !! c = Some ctx ->
  closed rt (dispatcher rt ctx) = true ->
  executeDispatcher rt c s = (Panicked dispatcherClosed, s).
Proof.
  intros Hc Hclosed. unfold executeDispatcher, ExecuteUntilAllBlocked.
  unfold bind at 1. unfold bind at 1. rewrite getContextImpl_eq, Hc, Hclosed.
  reflexivity.
Qed.

Lemma executeDispatcher_open c ctx s :
  contexts rt (world s) !! c = Some ctx ->
  closed rt (dispatcher rt ctx) = false ->
  executeDispatcher rt c s = (Val tt, pumped rt c ctx s).
Proof.
  intros Hc Hopen.
  assert (Hlen : (c < length (contexts rt (world s)))%nat)
    by (eapply lookup_lt_Some; eassumption).
  unfold executeDispatcher, ExecuteUntilAllBlocked.
  unfold bind at 1. unfold bind at 1. rewrite getContextImpl_eq, Hc, Hopen.
  unfold bind at 1. unfold gets at 1. cbv beta iota zeta.
  unfold bind at 1. rewrite forEach_registerCalls.
  unfold pumped, completionAfter, slotAfter.
  set (p := run rt (ambient rt (world s)) (coroutines rt (dispatcher rt ctx))).
  unfold closeDispatcher, Complete, completeHandler.
  unfold bind, setContextImpl, setAmbient, modify, ret.
  unfold setWorld, setContext. cbn -[insert lookup].
  destruct (recovered p) as [panicErr|]; cbn -[insert lookup].
  - rewrite list_lookup_insert_eq by assumption. cbn -[insert lookup].
    rewrite list_insert_insert_eq. reflexivity.
  - rewrite list_lookup_insert_eq by assumption. cbn -[insert lookup].
    destruct (match returned p with Some r => Some r | None => result rt ctx end)
      as [r|]; cbn -[insert lookup].
    + rewrite list_lookup_insert_eq by assumption. cbn -[insert lookup].
      rewrite list_insert_insert_eq. reflexivity.
    + rewrite app_nil_r. reflexivity.
Qed.

Lemma callResultHandler_invalid h r e s :
  contexts rt (world s) !! callback_c rt h = None ->
  callResultHandler rt h r e s = (Panicked nilDereference, s).
Proof.
  intros Hc. unfold callResultHandler, modifyCoroutines. cbv zeta.
  unfold bind at 1. unfold bind at 1. rewrite getContextImpl_eq, Hc. reflexivity.
Qed.

(** The callback: the assignments, the send, and then the pump. *)
Lemma callResultHandler_eq h r e ctx s :
  let c := callback_c rt h in
  let ch := callback_resultChannel rt h in
  let sent := SendAsync rt ch (assigned rt ch r e (coroutines rt (dispatcher rt ctx))) in
  let s' := withCoroutines rt c ctx (snd sent) s in
  contexts rt (world s) !! callback_c rt h = Some ctx ->
  callResultHandler rt h r e s
  = if fst sent then executeDispatcher rt c s' else (Panicked "unexpected", s').
Proof.
  intros c ch sent s'. intros Hc. fold c in Hc.
  assert (Hlen : (c < length (contexts rt (world s)))%nat)
    by (eapply lookup_lt_Some; eassumption).
  unfold callResultHandler, modifyCoroutines, sendAsync. cbv zeta.
  fold c. fold ch.
  unfold bind at 1. unfold bind at 1. rewrite getContextImpl_eq. fold c.
  rewrite Hc.
  unfold setContextImpl, modify. unfold setWorld. cbn -[insert lookup].
  unfold s', sent, withCoroutines, assigned, setWorld.
  destruct e as [e|]; unfold bind, ret; cbn -[insert lookup];
    rewrite ?getContextImpl_eq; cbn -[insert lookup];
    rewrite ?list_lookup_insert_eq by (rewrite ?length_insert; assumption);
    cbn -[insert lookup];
    rewrite ?getContextImpl_eq; cbn -[insert lookup];
    rewrite ?list_lookup_insert_eq by (rewrite ?length_insert; assumption);
    cbn -[insert lookup];
    rewrite ?list_insert_insert_eq;
    destruct (SendAsync rt ch _) as [[] cs3]; reflexivity.
Qed.

Lemma Execute_eq d input s :
  let ctx := {| dispatcher := NewDispatcher rt (start rt (workflow rt d) input);
                result := None |} in
  let s0 := setWorld {| completions := completions rt (world s);
                        contexts := contexts rt (world s) ++ [ctx];
                        ambient := ambient rt (world s) |} s in
  Execute rt d input s
  = (Val tt, pumped rt (length (contexts rt (world s))) ctx s0).
Proof.
  intros ctx s0. unfold Execute, bind, newContextImpl. fold ctx. fold s0.
  apply executeDispatcher_open; [|reflexivity].
  unfold s0, setWorld. cbn -[lookup].
  rewrite lookup_app_r by lia. rewrite Nat.sub_diag. reflexivity.
Qed.

End AdapterProperties.

Section AdapterInvariants.

Variable rt : Runtime.
Implicit Types s : St rt.

Lemma callResultHandler_called h r e s :
  Called rt h s (fst (callResultHandler rt h r e s))
    (snd (callResultHandler rt h r e s)).
Proof.
  destruct (contexts rt (world s) !! callback_c rt h) as [ctx|] eqn:Hc.
  2: { rewrite callResultHandler_invalid by assumption. cbn.
       apply Called_invalid. assumption. }
  assert (Hlen : (callback_c rt h < length (contexts rt (world s)))%nat)
    by (eapply lookup_lt_Some; eassumption).
  rewrite (callResultHandler_eq rt h r e ctx s Hc).
  destruct (SendAsync rt _ _) as [[] cs]; cbn [fst snd].
  2: { apply Called_refused. assumption. }
  destruct (closed rt (dispatcher rt ctx)) eqn:Hclosed.
  - erewrite executeDispatcher_closed.
    + cbn. apply Called_closed; assumption.
    + unfold withCoroutines, setWorld. cbn -[insert lookup].
      apply list_lookup_insert_eq. assumption.
    + cbn. assumption.
  - rewrite (executeDispatcher_open rt (callback_c rt h)
               {| dispatcher := {| coroutines := cs; closed := false |};
                  result := result rt ctx |}).
    + cbn [fst snd]. apply Called_pumped; assumption.
    + unfold withCoroutines, setWorld. cbn -[insert lookup].
      rewrite Hclosed. apply list_lookup_insert_eq. assumption.
    + reflexivity.
Qed.

(** *** What the adapter leaves alone *)

Lemma registerCalls_cons c call made wc :
  registerCalls rt c (call :: made) wc
  = registerCalls rt c made
      (ExecuteActivity (fst call)
         (Some {| callback_c := c; callback_resultChannel := snd call |}) wc).
Proof. reflexivity. Qed.

Lemma registerCalls_eventIDs c made wc :
  scheduledEventIDToActivityID (registerCalls rt c made wc)
  = scheduledEventIDToActivityID wc.
Proof.
  revert wc. induction made as [|call made IH]; intros wc; [reflexivity|].
  rewrite registerCalls_cons, IH. apply ExecuteActivity_eventIDs.
Qed.

Lemma Called_eventIDs h s out s1 :
  Called rt h s out s1 ->
  scheduledEventIDToActivityID (context s1)
  = scheduledEventIDToActivityID (context s).
Proof.
  destruct 1; try reflexivity.
  unfold pumped. cbn. apply registerCalls_eventIDs.
Qed.

Lemma Called_panic_context h s msg s1 :
  Called rt h s (Panicked msg) s1 -> context s1 = context s.
Proof. inversion 1; reflexivity. Qed.

Lemma Called_contexts_length h s out s1 :
  Called rt h s out s1 ->
  length (contexts rt (world s1)) = length (contexts rt (world s)).
Proof.
  destruct 1; try reflexivity;
    unfold pumped, withCoroutines, setWorld; cbn -[insert];
    rewrite ?length_insert; reflexivity.
Qed.

(** *** Closed dispatchers and calls of [Complete] *)

Lemma closedCount_insert (all : list (contextImpl rt)) c ctx ctx' :
  all !! c = Some ctx ->
  (closedCount rt (<[ c := ctx' ]> all)
   + (if closed rt (dispatcher rt ctx) then 1 else 0)
   = closedCount rt all
     + (if closed rt (dispatcher rt ctx') then 1 else 0))%nat.
Proof.
  intros Hc.
  assert (Hlen : (c < length all)%nat) by (eapply lookup_lt_Some; eassumption).
  rewrite insert_take_drop by assumption.
  rewrite <- (take_drop_middle all c ctx Hc) at 3.
  unfold closedCount. rewrite !filter_app, !filter_cons, !length_app.
  destruct (closed rt (dispatcher rt ctx)), (closed rt (dispatcher rt ctx'));
    repeat case_decide; try congruence; cbn [length]; lia.
Qed.

Lemma closedCount_app (l1 l2 : list (contextImpl rt)) :
  closedCount rt (l1 ++ l2) = (closedCount rt l1 + closedCount rt l2)%nat.
Proof. unfold closedCount. rewrite filter_app, length_app. reflexivity. Qed.

Lemma closedCount_le (all : list (contextImpl rt)) :
  (closedCount rt all <= length all)%nat.
Proof. unfold closedCount. apply length_filter. Qed.

Lemma withCoroutines_completed c ctx cs s :
  contexts rt (world s) !! c = Some ctx ->
  completedOncePerClosed rt s ->
  completedOncePerClosed rt (withCoroutines rt c ctx cs s).
Proof.
  unfold completedOncePerClosed, withCoroutines, setWorld. cbn -[insert].
  intros Hc ->.
  pose proof (closedCount_insert (contexts rt (world s)) c ctx
                {| dispatcher := {| coroutines := cs;
                                    closed := closed rt (dispatcher rt ctx) |};
                   result := result rt ctx |} Hc) as Hcount.
  cbn in Hcount. destruct (closed rt (dispatcher rt ctx)); lia.
Qed.

Lemma pumped_completed c ctx s :
  contexts rt (world s) !! c = Some ctx ->
  closed rt (dispatcher rt ctx) = false ->
  completedOncePerClosed rt s ->
  completedOncePerClosed rt (pumped rt c ctx s).
Proof.
  unfold completedOncePerClosed, pumped. cbn -[insert].
  intros Hc Hopen Hinv. rewrite length_app, Hinv.
  match goal with
  | |- context [ <[ c := ?new ]> _ ] =>
      pose proof (closedCount_insert (contexts rt (world s)) c ctx new Hc)
        as Hcount
  end.
  rewrite Hopen in Hcount. cbn in Hcount.
  destruct (completionAfter rt _ ctx); cbn [option_list option_rect length]; lia.
Qed.

Lemma Called_completed h s out s1 :
  Called rt h s out s1 ->
  completedOncePerClosed rt s -> completedOncePerClosed rt s1.
Proof.
  destruct 1 as [Hc|ctx cs Hc|ctx cs Hc Hclosed|ctx cs Hc Hopen]; intros Hinv;
    try assumption; try (apply withCoroutines_completed; assumption).
  assert (Hlen : (callback_c rt h < length (contexts rt (world s)))%nat)
    by (eapply lookup_lt_Some; eassumption).
  apply pumped_completed.
  - unfold withCoroutines, setWorld. cbn -[insert lookup].
    rewrite Hopen. apply list_lookup_insert_eq. assumption.
  - reflexivity.
  - apply withCoroutines_completed; assumption.
Qed.

Lemma Execute_completed d input s :
  completedOncePerClosed rt s ->
  completedOncePerClosed rt (snd (Execute rt d input s)).
Proof.
  intros Hinv. rewrite Execute_eq. cbn [snd].
  apply pumped_completed.
  - unfold setWorld. cbn -[lookup].
    rewrite lookup_app_r by lia. rewrite Nat.sub_diag. reflexivity.
  - reflexivity.
  - unfold completedOncePerClosed, setWorld in *. cbn.
    rewrite closedCount_app. unfold closedCount at 2. cbn.
    case_decide; [discriminate|]. cbn. lia.
Qed.

Lemma Execute_val d input s : fst (Execute rt d input s) = Val tt.
Proof. rewrite Execute_eq. reflexivity. Qed.

Lemma Execute_contexts_length d input s :
  length (contexts rt (world (snd (Execute rt d input s))))
  = S (length (contexts rt (world s))).
Proof.
  rewrite Execute_eq. unfold pumped, setWorld. cbn -[insert].
  rewrite length_insert, length_app. cbn. lia.
Qed.

Lemma Execute_eventIDs d input s :
  scheduledEventIDToActivityID (context (snd (Execute rt d input s)))
  = scheduledEventIDToActivityID (context s).
Proof.
  rewrite Execute_eq. unfold pumped. cbn. apply registerCalls_eventIDs.
Qed.

End AdapterInvariants.

(** ** The event handler over the adapter *)

Section HandlerInvariants.

Variable rt : Runtime.
Variable workflowDefinitionFactory :
  m.WorkflowType -> option (workflowDefinition rt) * option Error.
Implicit Types s : St rt.

Local Abbreviation step := (processEvent rt workflowDefinitionFactory).
Local Abbreviation play := (replay rt workflowDefinitionFactory).
Local Abbreviation evolves :=
  (Evolves (callResultHandler rt) (Execute rt) (factory rt workflowDefinitionFactory)).

Lemma replay_cons event history s :
  play (event :: history) s
  = (fst (step event s) :: fst (play history (snd (step event s))),
     snd (play history (snd (step event s)))).
Proof.
  unfold replay, processEvent. cbn [processHistory].
  destruct (ProcessEvent _ _ _ event s) as [r s1]. cbn [fst snd].
  destruct (processHistory _ _ _ history s1). reflexivity.
Qed.

(** An invariant of the callbacks and of [Execute] that does not look at
    the workflow context nor at the handler's definition is an invariant
    of [ProcessEvent]. *)
Lemma Evolves_world_invariant (P : World rt -> Prop) s b s' :
  (forall h s out s1, Called rt h s out s1 -> P (world s) -> P (world s1)) ->
  (forall d input s, P (world s) -> P (world (snd (Execute rt d input s)))) ->
  evolves s b s' -> P (world s) -> P (world s').
Proof.
  intros Hcall Hexec Hev HP.
  destruct Hev as [b| |h r e s1 Hc|h r e msg s1 Hc|msg s0 Hf|made s0 Hf
                  |made s0 d input s1 Hf He|made s0 d input msg s1 Hf He];
    try assumption.
  - change (P (world s1)). eapply Hcall; [|exact HP].
    pose proof (callResultHandler_called rt h r e s) as H'.
    rewrite Hc in H'. exact H'.
  - eapply Hcall; [|exact HP].
    pose proof (callResultHandler_called rt h r e s) as H'.
    rewrite Hc in H'. exact H'.
  - inversion Hf.
  - inversion Hf; subst. exact HP.
  - inversion Hf; subst. change (P (world s1)).
    change s1 with (snd (Val tt, s1)). rewrite <- He. apply Hexec. exact HP.
  - inversion Hf; subst.
    change s1 with (snd (@Panicked unit msg, s1)). rewrite <- He.
    apply Hexec. exact HP.
Qed.

Lemma processEvent_world_invariant (P : World rt -> Prop) event s :
  (forall h s out s1, Called rt h s out s1 -> P (world s) -> P (world s1)) ->
  (forall d input s, P (world s) -> P (world (snd (Execute rt d input s)))) ->
  P (world s) -> P (world (snd (step event s))).
Proof.
  intros Hcall Hexec HP.
  destruct (ProcessEvent_evolves (callResultHandler rt) (Execute rt)
              (factory rt workflowDefinitionFactory) event s)
    as [(e & a & _ & _ & Hs)|Hev].
  - unfold processEvent. rewrite Hs. exact HP.
  - eapply Evolves_world_invariant; eassumption.
Qed.

Lemma replay_world_invariant (P : World rt -> Prop) history s :
  (forall h s out s1, Called rt h s out s1 -> P (world s) -> P (world s1)) ->
  (forall d input s, P (world s) -> P (world (snd (Execute rt d input s)))) ->
  P (world s) -> P (world (snd (play history s))).
Proof.
  intros Hcall Hexec. revert s.
  induction history as [|event history IH]; intros s HP; [exact HP|].
  rewrite replay_cons. cbn [snd]. apply IH.
  apply processEvent_world_invariant; assumption.
Qed.

End HandlerInvariants.

Section HandlerProperties.

Variable rt : Runtime.
Variable workflowDefinitionFactory :
  m.WorkflowType -> option (workflowDefinition rt) * option Error.
Implicit Types s : St rt.

Local Abbreviation step := (processEvent rt workflowDefinitionFactory).
Local Abbreviation play := (replay rt workflowDefinitionFactory).
Local Abbreviation evolves :=
  (Evolves (callResultHandler rt) (Execute rt) (factory rt workflowDefinitionFactory)).

(** [Evolves] over the adapter: the factory does not touch the state and
    [Execute] does not panic. *)
Lemma Evolves_adapter s b s' :
  evolves s b s' ->
  s' = s
  \/ s' = drained s
  \/ (exists h s1, Called rt h s (Val tt) s1 /\ s' = drained s1)
  \/ (exists h msg, Called rt h s (Panicked msg) s')
  \/ (b = true /\ exists made, s' = setWorkflowDefinition made s)
  \/ (b = true /\ exists made d input,
        s' = drained (snd (Execute rt d input (setWorkflowDefinition made s)))).
Proof.
  intros Hev.
  destruct Hev as [b| |h r e s1 Hc|h r e msg s1 Hc|msg s0 Hf|made s0 Hf
                  |made s0 d input s1 Hf He|made s0 d input msg s1 Hf He].
  - left. reflexivity.
  - right. left. reflexivity.
  - right. right. left. exists h, s1. split; [|reflexivity].
    pose proof (callResultHandler_called rt h r e s) as H'.
    rewrite Hc in H'. exact H'.
  - right. right. right. left. exists h, msg.
    pose proof (callResultHandler_called rt h r e s) as H'.
    rewrite Hc in H'. exact H'.
  - inversion Hf.
  - inversion Hf; subst. do 4 right. left. eauto.
  - inversion Hf; subst. do 5 right. split; [reflexivity|].
    exists (fst (workflowDefinitionFactory (workflowType (workflowInfo (context s0))))),
      d, input.
    rewrite He. reflexivity.
  - pose proof (Execute_val rt d input (setWorkflowDefinition (fst made) s0)) as Hv.
    rewrite He in Hv. discriminate.
Qed.

(** *** The pending decisions between events *)

Lemma Evolves_queue s b s' :
  evolves s b s' ->
  executeDecisions (context s) = [] -> executeDecisions (context s') = [].
Proof.
  intros Hev Hq.
  destruct (Evolves_adapter s b s' Hev)
    as [->|[->|[(h & s1 & _ & ->)|[(h & msg & Hc)|[(_ & made & ->)|(_ & made & d & input & ->)]]]]];
    try reflexivity; try assumption.
  rewrite (Called_panic_context rt h s msg s' Hc). assumption.
Qed.

Lemma processEvent_queue event s :
  executeDecisions (context s) = [] ->
  executeDecisions (context (snd (step event s))) = [].
Proof.
  intros Hq.
  destruct (ProcessEvent_evolves (callResultHandler rt) (Execute rt)
              (factory rt workflowDefinitionFactory) event s)
    as [(e & a & _ & _ & Hs)|Hev].
  - unfold processEvent. rewrite Hs. exact Hq.
  - eapply Evolves_queue; eassumption.
Qed.

Lemma replay_queue history : forall s,
  executeDecisions (context s) = [] ->
  executeDecisions (context (snd (play history s))) = [].
Proof.
  induction history as [|event history IH]; intros s Hq; [exact Hq|].
  rewrite replay_cons. cbn [snd]. apply IH. apply processEvent_queue. exact Hq.
Qed.

(** *** The contexts and the calls of [Complete] *)

Lemma Evolves_contexts_length s b s' :
  evolves s b s' ->
  (length (contexts rt (world s'))
   <= length (contexts rt (world s)) + (if b then 1 else 0))%nat.
Proof.
  intros Hev.
  destruct (Evolves_adapter s b s' Hev)
    as [->|[->|[(h & s1 & Hc & ->)|[(h & msg & Hc)|[(-> & made & ->)|(-> & made & d & input & ->)]]]]];
    cbn [drained setContext setWorkflowDefinition world]; try lia.
  - rewrite (Called_contexts_length rt h s _ s1 Hc). lia.
  - rewrite (Called_contexts_length rt h s _ s' Hc). lia.
  - rewrite Execute_contexts_length. cbn. lia.
Qed.

Lemma isStarted_count event history :
  startedCount (event :: history)
  = ((if isStarted event then 1 else 0) + startedCount history)%nat.
Proof.
  unfold startedCount. rewrite filter_cons.
  destruct (isStarted event); case_decide; try congruence; reflexivity.
Qed.

Lemma processEvent_contexts_length event s :
  (length (contexts rt (world (snd (step event s))))
   <= length (contexts rt (world s)) + (if isStarted event then 1 else 0))%nat.
Proof.
  destruct (ProcessEvent_evolves (callResultHandler rt) (Execute rt)
              (factory rt workflowDefinitionFactory) event s)
    as [(e & a & _ & _ & Hs)|Hev].
  - unfold processEvent. rewrite Hs. cbn. lia.
  - apply Evolves_contexts_length. exact Hev.
Qed.

Lemma replay_contexts_length history : forall s,
  (length (contexts rt (world (snd (play history s))))
   <= length (contexts rt (world s)) + startedCount history)%nat.
Proof.
  induction history as [|event history IH]; intros s; [cbn; lia|].
  rewrite replay_cons, isStarted_count. cbn [snd].
  specialize (IH (snd (step event s))).
  pose proof (processEvent_contexts_length event s). lia.
Qed.

Lemma replay_completed history s :
  completedOncePerClosed rt s ->
  completedOncePerClosed rt (snd (play history s)).
Proof.
  apply (replay_world_invariant rt workflowDefinitionFactory
           (fun w => length (completions rt w) = closedCount rt (contexts rt w))).
  - intros h s0 out s1. apply Called_completed.
  - intros d input s0. apply Execute_completed.
Qed.

End HandlerProperties.

(** C3: fed any history from a fresh handler, the adapter has called
    [Complete] exactly once for each context whose dispatcher it closed, a
    closed dispatcher rejecting every later pump, also the one of the
    activity callback; there is at most one context per
    [WorkflowExecutionStarted] event; so a history with one such event, as
    the service delivers them, has [Complete] called at most once, whether
    the workflow returned, failed or panicked. *)
Theorem Complete_at_most_once_per_execution
    (rt : Runtime)
    (workflowDefinitionFactory :
       m.WorkflowType -> option (workflowDefinition rt) * option Error)
    (info : WorkflowInfo) (a : Ambient rt)
    (history : list (option m.HistoryEvent.t)) :
  let s := snd (replay rt workflowDefinitionFactory history (newHandler rt info a)) in
  length (completions rt (world s)) = closedCount rt (contexts rt (world s))
  /\ (closedCount rt (contexts rt (world s)) <= length (contexts rt (world s)))%nat
  /\ (length (contexts rt (world s)) <= startedCount history)%nat
  /\ ((startedCount history <= 1)%nat ->
      (length (completions rt (world s)) <= 1)%nat).
Proof.
  intros s.
  assert (H1 : length (completions rt (world s)) = closedCount rt (contexts rt (world s))).
  { apply (replay_completed rt workflowDefinitionFactory history (newHandler rt info a)).
    reflexivity. }
  pose proof (closedCount_le rt (contexts rt (world s))) as H2.
  pose proof (replay_contexts_length rt workflowDefinitionFactory history
                (newHandler rt info a)) as H3.
  cbn [newHandler newWorkflowExecutionEventHandler world newWorld contexts length] in H3.
  fold s in H3.
  repeat split; try assumption; lia.
Qed.

(** ** Routing of terminal activity events *)

Section RoutingOverAdapter.

Variable rt : Runtime.
Variable workflowDefinitionFactory :
  m.WorkflowType -> option (workflowDefinition rt) * option Error.
Implicit Types s : St rt.

Local Abbreviation step := (processEvent rt workflowDefinitionFactory).
Local Abbreviation play := (replay rt workflowDefinitionFactory).
Local Abbreviation evolves :=
  (Evolves (callResultHandler rt) (Execute rt) (factory rt workflowDefinitionFactory)).

Lemma Evolves_eventIDs s b s' :
  evolves s b s' ->
  scheduledEventIDToActivityID (context s')
  = scheduledEventIDToActivityID (context s).
Proof.
  intros Hev.
  destruct (Evolves_adapter rt workflowDefinitionFactory s b s' Hev)
    as [->|[->|[(h & s1 & Hc & ->)|[(h & msg & Hc)|[(_ & made & ->)|(_ & made & d & input & ->)]]]]];
    try reflexivity.
  - apply (Called_eventIDs rt h s _ s1 Hc).
  - apply (Called_eventIDs rt h s _ s' Hc).
  - cbn [drained setContext context SwapExecuteDecisions snd
           scheduledEventIDToActivityID].
    rewrite Execute_eventIDs. reflexivity.
Qed.

(** Only an [ActivityTaskScheduled] event with that id changes what an
    event id maps to. *)
Lemma processEvent_eventID_lookup eventID event s :
  schedulesEventID eventID event = false ->
  scheduledEventIDToActivityID (context (snd (step event s))) !! eventID
  = scheduledEventIDToActivityID (context s) !! eventID.
Proof.
  intros Hno.
  destruct (ProcessEvent_evolves (callResultHandler rt) (Execute rt)
              (factory rt workflowDefinitionFactory) event s)
    as [(e & a & -> & Htype & Hs)|Hev].
  - unfold processEvent. rewrite Hs. cbn.
    unfold schedulesEventID in Hno. rewrite Htype in Hno.
    apply bool_decide_eq_false in Hno.
    apply lookup_insert_ne. exact Hno.
  - erewrite Evolves_eventIDs by eassumption. reflexivity.
Qed.

Lemma replay_eventID_lookup eventID history : forall s,
  Forall (fun event => schedulesEventID eventID event = false) history ->
  scheduledEventIDToActivityID (context (snd (play history s))) !! eventID
  = scheduledEventIDToActivityID (context s) !! eventID.
Proof.
  induction history as [|event history IH]; intros s Hno; [reflexivity|].
  inversion Hno as [|? ? Hevent Hrest]; subst.
  rewrite replay_cons. cbn [snd]. rewrite IH by assumption.
  apply processEvent_eventID_lookup. assumption.
Qed.

(** Once both lookups succeed, a terminal event calls the callback with
    its arguments and drains. *)
Lemma terminal_event_resolves event activityID h r e s :
  terminalScheduledEventId event = Some activityID.1 ->
  callbackArguments event = Some (Val (r, e)) ->
  scheduledEventIDToActivityID (context s) !! activityID.1 = Some activityID.2 ->
  scheduledActivites (context s) !! activityID.2 = Some (Some h) ->
  step (Some event) s = deliver (callResultHandler rt) h r e s.
Proof.
  destruct activityID as [E A]. cbn [fst snd].
  unfold terminalScheduledEventId, callbackArguments, processEvent.
  destruct (m.HistoryEvent.EventType event) eqn:Htype; try discriminate.
  - destruct (m.HistoryEvent.ActivityTaskCompletedEventAttributes event) as [a|] eqn:Ha;
      [|discriminate].
    intros [= <-] [= <- <-] Hid Hh.
    eapply ActivityTaskCompleted_resolves; eassumption.
  - destruct (m.HistoryEvent.ActivityTaskFailedEventAttributes event) as [a|] eqn:Ha;
      [|discriminate].
    intros [= <-] Hargs Hid Hh. cbn in Hargs.
    erewrite ActivityTaskFailed_resolves by eassumption.
    destruct (m.ActivityTaskFailedEventAttributes.Reason a); [|discriminate].
    injection Hargs as <- <-. reflexivity.
  - destruct (m.HistoryEvent.ActivityTaskTimedOutEventAttributes event) as [a|] eqn:Ha;
      [|discriminate].
    intros [= <-] [= <- <-] Hid Hh.
    eapply ActivityTaskTimedOut_resolves; eassumption.
Qed.

End RoutingOverAdapter.

(** C2: after an [ActivityTaskScheduled] event with event id [E] and
    activity id [A], and any later events that do not schedule [E] again,
    [E] maps to [A]; a terminal activity event that carries [E] then calls
    the callback registered under [A], with the arguments of its kind, and
    drains the decisions.  A terminal activity event whose scheduled event
    id no [ActivityTaskScheduled] event of the history carried is answered
    with an error and no decisions, the state, and so every callback, left
    untouched. *)
Theorem terminal_events_route_through_the_scheduled_event_id
    (rt : Runtime)
    (workflowDefinitionFactory :
       m.WorkflowType -> option (workflowDefinition rt) * option Error)
    (s0 : St rt) (scheduledEvent : m.HistoryEvent.t)
    (attributes : m.ActivityTaskScheduledEventAttributes.t)
    (later : list (option m.HistoryEvent.t)) :
  m.HistoryEvent.EventType scheduledEvent = m.EventType_ActivityTaskScheduled ->
  m.HistoryEvent.ActivityTaskScheduledEventAttributes scheduledEvent = Some attributes ->
  Forall (fun event =>
            schedulesEventID (m.HistoryEvent.EventId scheduledEvent) event = false)
    later ->
  let E := m.HistoryEvent.EventId scheduledEvent in
  let A := m.ActivityTaskScheduledEventAttributes.ActivityId attributes in
  let s := snd (replay rt workflowDefinitionFactory (Some scheduledEvent :: later) s0) in
  scheduledEventIDToActivityID (context s) !! E = Some A
  /\ (forall event h r e,
        terminalScheduledEventId event = Some E ->
        callbackArguments event = Some (Val (r, e)) ->
        scheduledActivites (context s) !! A = Some (Some h) ->
        processEvent rt workflowDefinitionFactory (Some event) s
        = deliver (callResultHandler rt) h r e s)
  /\ (forall info a history event scheduledEventID,
        Forall (fun event => schedulesEventID scheduledEventID event = false)
          history ->
        terminalScheduledEventId event = Some scheduledEventID ->
        let s := snd (replay rt workflowDefinitionFactory history
                        (newHandler rt info a)) in
        exists format args,
          processEvent rt workflowDefinitionFactory (Some event) s
          = (Val (None, Some (Errorf format args)), s)).
Proof.
  intros Htype Hattributes Hlater E A s.
  assert (Hmapped : scheduledEventIDToActivityID (context s) !! E = Some A).
  { unfold s. rewrite replay_cons. cbn [snd].
    rewrite replay_eventID_lookup by exact Hlater.
    unfold processEvent.
    rewrite (ProcessEvent_ActivityTaskScheduled _ _ _ scheduledEvent attributes s0
               Htype Hattributes).
    cbn. apply lookup_insert_eq. }
  split; [exact Hmapped|]. split.
  - intros event h r e Hterminal Hargs Hh.
    apply (terminal_event_resolves rt workflowDefinitionFactory event (E, A));
      assumption.
  - intros info a history event scheduledEventID Hnone Hterminal s1.
    apply (terminal_event_unmapped _ _ _ event scheduledEventID s1 Hterminal).
    unfold s1. rewrite replay_eventID_lookup by exact Hnone. reflexivity.
Qed.

(** C7: [SwapExecuteDecisions] returns the pending decisions, which
    [ExecuteActivity] extends at the end, and leaves its argument in their
    place; and after any history fed to a fresh handler no decision is
    pending, so the batch a call of [ProcessEvent] returns holds nothing
    made for an earlier event. *)
Theorem SwapExecuteDecisions_returns_the_pending_decisions
    (rt : Runtime)
    (workflowDefinitionFactory :
       m.WorkflowType -> option (workflowDefinition rt) * option Error)
    (info : WorkflowInfo) (a : Ambient rt)
    (history : list (option m.HistoryEvent.t)) :
  (forall (wc : workflowContext (activityCallback rt)) (new : list m.Decision.t),
      fst (SwapExecuteDecisions new wc) = executeDecisions wc
      /\ executeDecisions (snd (SwapExecuteDecisions new wc)) = new)
  /\ (forall (wc : workflowContext (activityCallback rt)) parameters callback,
        executeDecisions (ExecuteActivity parameters callback wc)
        = executeDecisions wc
          ++ [scheduleDecision (activityIDOf parameters wc) parameters])
  /\ executeDecisions
       (context (snd (replay rt workflowDefinitionFactory history
                        (newHandler rt info a)))) = [].
Proof.
  split; [intros wc new; split; reflexivity|].
  split; [intros wc parameters callback; apply ExecuteActivity_decisions|].
  apply replay_queue. reflexivity.
Qed.

(** C6: when the dispatcher of a context is open and the coroutines end their
    run with a recovered panic, [executeDispatcher] returns after one call
    of [Complete], with a nil result and the [errorImpl] whose reason is the
    panic's message and whose details are the bytes of its stack trace, and
    the dispatcher is closed; when they end it with no panic and the result slot is still
    empty, [executeDispatcher] returns with no call of [Complete] and the
    dispatcher still open. *)
Theorem executeDispatcher_reports_a_panic_and_waits_on_an_empty_slot
    (rt : Runtime) (c : nat) (ctx : contextImpl rt) (s : St rt) :
  contexts rt (world s) !! c = Some ctx ->
  closed rt (dispatcher rt ctx) = false ->
  let p := run rt (ambient rt (world s)) (coroutines rt (dispatcher rt ctx)) in
  let out := executeDispatcher rt c s in
  let closedAfter :=
    (fun ctx' => closed rt (dispatcher rt ctx'))
      <$> contexts rt (world (snd out)) !! c in
  fst out = Val tt
  /\ (forall panicErr,
        recovered p = Some panicErr ->
        completions rt (world (snd out))
        = completions rt (world s)
          ++ [([], Some (errorImpl (PanicError_Error panicErr)
                           (bytes_of_string (PanicError_StackTrace panicErr))))]
        /\ closedAfter = Some true)
  /\ (recovered p = None ->
      returned p = None ->
      result rt ctx = None ->
      completions rt (world (snd out)) = completions rt (world s)
      /\ closedAfter = Some false).
Proof.
  intros Hc Hopen p out closedAfter.
  assert (Hlen : (c < length (contexts rt (world s)))%nat)
    by (eapply lookup_lt_Some; eassumption).
  unfold closedAfter, out. rewrite (executeDispatcher_open rt c ctx s Hc Hopen).
  cbn [fst snd]. unfold pumped. fold p. cbn -[insert lookup].
  rewrite list_lookup_insert_eq by assumption. cbn.
  split; [reflexivity|]. split.
  - intros panicErr Hp. unfold completionAfter. rewrite Hp. split; reflexivity.
  - intros Hp Hr Hslot. unfold completionAfter, slotAfter. rewrite Hp, Hr, Hslot.
    cbn. rewrite app_nil_r. split; reflexivity.
Qed.

(** ** Replaying a history twice *)

Section Relating.

Context {ResultHandler WorkflowDefinition World : Type}.
Local Abbreviation State := (State ResultHandler WorkflowDefinition World).

Variable callResultHandler :
  ResultHandler -> bytes -> option Error -> M State unit.
Variable Execute : WorkflowDefinition -> bytes -> M State unit.
Variable workflowDefinitionFactory :
  m.WorkflowType -> M State (option WorkflowDefinition * option Error).

Variable Rw : World -> World -> Prop.
Local Abbreviation R :=
  (@sameHandler ResultHandler WorkflowDefinition World Rw).

Lemma related_ret {A} (x : A) : related R (ret x) (ret x).
Proof. intros s1 s2 HR. split; [reflexivity | exact HR]. Qed.

Lemma related_panic {A} msg : related R (@panic State A msg) (panic msg).
Proof. intros s1 s2 HR. split; [reflexivity | exact HR]. Qed.

Lemma related_deref {A} (p : option A) : related R (deref p) (deref p).
Proof. destruct p; [apply related_ret | apply related_panic]. Qed.

(** The continuations need to agree only on the values the first
    computation can return from a related state. *)
Lemma related_bind_post {A B} (P : A -> Prop)
    (c1 c2 : M State A) (k1 k2 : A -> M State B) :
  related R c1 c2 ->
  (forall s1 s2 x, R s1 s2 -> fst (c1 s1) = Val x -> P x) ->
  (forall x, P x -> related R (k1 x) (k2 x)) ->
  related R (bind c1 k1) (bind c2 k2).
Proof.
  intros Hc HP Hk s1 s2 HR. unfold bind.
  destruct (Hc s1 s2 HR) as [Hout HR'].
  pose proof (HP s1 s2) as HP'.
  destruct (c1 s1) as [[x|msg] s1'], (c2 s2) as [[y|msg'] s2'];
    cbn in Hout, HR'; try discriminate.
  - injection Hout as <-. apply Hk; [|exact HR'].
    apply HP'; [exact HR | reflexivity].
  - injection Hout as <-. split; [reflexivity | exact HR'].
Qed.

Lemma related_bind {A B} (c1 c2 : M State A) (k1 k2 : A -> M State B) :
  related R c1 c2 ->
  (forall x, related R (k1 x) (k2 x)) ->
  related R (bind c1 k1) (bind c2 k2).
Proof.
  intros Hc Hk. apply (related_bind_post (fun _ => True)); auto.
Qed.

Lemma related_gets_context : related R (gets context) (gets context).
Proof.
  intros s1 s2 HR. unfold gets. cbn. split; [|exact HR].
  destruct HR as (-> & _). reflexivity.
Qed.

Lemma related_modify (f g : State -> State) :
  (forall s1 s2, R s1 s2 -> R (f s1) (g s2)) ->
  related R (modify f) (modify g).
Proof. intros Hf s1 s2 HR. split; [reflexivity | apply Hf; exact HR]. Qed.

Lemma related_modify_context (f : workflowContext ResultHandler ->
                                  workflowContext ResultHandler) :
  related R (modify (fun s => setContext (f (context s)) s))
    (modify (fun s => setContext (f (context s)) s)).
Proof.
  apply related_modify. intros s1 s2 (Hc & Hd & Hw).
  repeat split; cbn; [rewrite Hc; reflexivity | exact Hd | exact Hw].
Qed.

Lemma related_setWorkflowDefinition d :
  related R (modify (setWorkflowDefinition d)) (modify (setWorkflowDefinition d)).
Proof.
  apply related_modify. intros s1 s2 (Hc & Hd & Hw).
  repeat split; cbn; assumption.
Qed.

Lemma related_swapExecuteDecisions decisions :
  related R (swapExecuteDecisions decisions) (swapExecuteDecisions decisions).
Proof.
  intros s1 s2 (Hc & Hd & Hw). rewrite !swapExecuteDecisions_eq. cbn.
  rewrite Hc. repeat split; assumption.
Qed.

(** The workflow definitions the handler may run. *)
Variable Runs : WorkflowDefinition -> Prop.

Hypothesis callResultHandler_related :
  forall h r e, related R (callResultHandler h r e) (callResultHandler h r e).
Hypothesis Execute_related :
  forall d input, Runs d -> related R (Execute d input) (Execute d input).
Hypothesis workflowDefinitionFactory_related :
  forall t, related R (workflowDefinitionFactory t) (workflowDefinitionFactory t).
Hypothesis workflowDefinitionFactory_runs :
  forall t s made d,
    fst (workflowDefinitionFactory t s) = Val made -> fst made = Some d -> Runs d.

Ltac relate :=
  repeat first
    [ apply related_ret
    | apply related_panic
    | apply related_deref
    | apply related_gets_context
    | apply related_swapExecuteDecisions
    | apply related_setWorkflowDefinition
    | apply related_modify_context
    | apply callResultHandler_related
    | apply workflowDefinitionFactory_related
    | apply related_bind; [|intros ?]
    | match goal with
      | |- related _ (match ?x with _ => _ end) _ => destruct x
      end ].

Lemma handleWorkflowExecutionStarted_related attributes :
  related R
    (handleWorkflowExecutionStarted Execute workflowDefinitionFactory attributes)
    (handleWorkflowExecutionStarted Execute workflowDefinitionFactory attributes).
Proof.
  unfold handleWorkflowExecutionStarted.
  apply related_bind; [apply related_gets_context|]. intros wc.
  apply (related_bind_post (fun made => forall d, fst made = Some d -> Runs d)).
  - apply workflowDefinitionFactory_related.
  - intros s1 _ made _ Hmade d Hd.
    exact (workflowDefinitionFactory_runs _ s1 made d Hmade Hd).
  - intros made Hruns. cbv zeta.
    apply related_bind; [apply related_setWorkflowDefinition|]. intros _.
    destruct (snd made); [apply related_ret|].
    apply (related_bind_post Runs); [apply related_deref| |].
    + intros s1 _ d _ Hd. apply Hruns.
      destruct (fst made); [|discriminate Hd]. cbn in Hd. congruence.
    + intros d Hd. apply related_bind; [apply related_deref|]. intros a.
      apply related_bind; [apply Execute_related; exact Hd|]. intros _.
      relate.
Qed.

Lemma ProcessEvent_related event :
  related R
    (ProcessEvent callResultHandler Execute workflowDefinitionFactory event)
    (ProcessEvent callResultHandler Execute workflowDefinitionFactory event).
Proof.
  destruct event as [event|]; [|apply related_ret].
  unfold ProcessEvent.
  destruct (m.HistoryEvent.EventType event); try apply related_ret.
  - apply handleWorkflowExecutionStarted_related.
  - relate.
  - unfold handleActivityTaskCompleted. relate.
  - unfold handleActivityTaskFailed. relate.
  - unfold handleActivityTaskTimedOut. relate.
Qed.

Lemma processHistory_related history : forall s1 s2,
  R s1 s2 ->
  fst (processHistory callResultHandler Execute workflowDefinitionFactory history s1)
  = fst (processHistory callResultHandler Execute workflowDefinitionFactory history s2)
  /\ R (snd (processHistory callResultHandler Execute workflowDefinitionFactory
               history s1))
       (snd (processHistory callResultHandler Execute workflowDefinitionFactory
               history s2)).
Proof.
  induction history as [|event history IH]; intros s1 s2 HR.
  - split; [reflexivity | exact HR].
  - cbn [processHistory].
    destruct (ProcessEvent_related event s1 s2 HR) as [Hout HR'].
    destruct (ProcessEvent _ _ _ event s1) as [r1 s1'].
    destruct (ProcessEvent _ _ _ event s2) as [r2 s2'].
    cbn in Hout, HR'. subst r2.
    destruct (IH s1' s2' HR') as [Houts HR''].
    destruct (processHistory _ _ _ history s1') as [rs1 s1''].
    destruct (processHistory _ _ _ history s2') as [rs2 s2''].
    cbn in *. subst rs2. split; [reflexivity | exact HR''].
Qed.

End Relating.

Section Determinism.

Variable rt : Runtime.
Implicit Types s : St rt.
Implicit Types cs : Coroutines rt.

Local Abbreviation R :=
  (@sameHandler (activityCallback rt) (workflowDefinition rt) (World rt)
     (sameButAmbient rt)).
Local Abbreviation kept := (underContract rt).

Lemma related_gets_contexts :
  related R (gets (fun s => contexts rt (world s)))
    (gets (fun s => contexts rt (world s))).
Proof.
  intros s1 s2 HR. unfold gets. cbn. split; [|exact HR].
  destruct HR as (_ & _ & _ & -> & _). reflexivity.
Qed.

Lemma related_gets_ambient {A} (k1 k2 : Ambient rt -> M (St rt) A) :
  (forall a1 a2, related R (k1 a1) (k2 a2)) ->
  related R (a <- gets (fun s => ambient rt (world s)) ;; k1 a)
    (a <- gets (fun s => ambient rt (world s)) ;; k2 a).
Proof. intros Hk s1 s2 HR. unfold bind, gets. apply Hk. exact HR. Qed.

Lemma related_getContextImpl c :
  related R (getContextImpl rt c) (getContextImpl rt c).
Proof.
  unfold getContextImpl. apply related_bind; [apply related_gets_contexts|].
  intros all. apply related_deref.
Qed.

(** A context of a related state runs a workflow that keeps the contract. *)
Lemma getContextImpl_kept c s1 s2 ctx :
  R s1 s2 ->
  fst (getContextImpl rt c s1) = Val ctx ->
  kept (coroutines rt (dispatcher rt ctx)).
Proof.
  intros (_ & _ & _ & _ & Hall) Hctx.
  unfold getContextImpl, bind, gets in Hctx.
  destruct (contexts rt (world s1) !! c) as [ctx'|] eqn:Hc;
    cbn in Hctx; [|discriminate Hctx].
  injection Hctx as <-.
  exact (proj1 (Forall_lookup _ _) Hall c ctx' Hc).
Qed.

Lemma related_setContextImpl c ctx :
  kept (coroutines rt (dispatcher rt ctx)) ->
  related R (setContextImpl rt c ctx) (setContextImpl rt c ctx).
Proof.
  intros Hkept. apply related_modify. intros s1 s2 (Hc & Hd & Hco & Hcs & Hall).
  repeat split; cbn; try assumption; [rewrite Hcs; reflexivity|].
  apply Forall_insert; assumption.
Qed.

Lemma related_setAmbient a1 a2 :
  related R (setAmbient rt a1) (setAmbient rt a2).
Proof.
  apply related_modify. intros s1 s2 (Hc & Hd & Hco & Hcs & Hall).
  repeat split; cbn; assumption.
Qed.

Lemma related_completeHandler r e :
  related R (completeHandler rt r e) (completeHandler rt r e).
Proof.
  apply related_modify. intros s1 s2 (Hc & Hd & Hco & Hcs & Hall).
  repeat split; cbn; try assumption. rewrite Hco. reflexivity.
Qed.

Lemma related_newContextImpl ctx :
  kept (coroutines rt (dispatcher rt ctx)) ->
  related R (newContextImpl rt ctx) (newContextImpl rt ctx).
Proof.
  intros Hkept s1 s2 (Hc & Hd & Hco & Hcs & Hall). unfold newContextImpl. cbn.
  rewrite Hcs. repeat split; try assumption.
  rewrite <- Hcs. apply Forall_app. split; [exact Hall|].
  constructor; [exact Hkept | constructor].
Qed.

Lemma related_forEach {A} (f : A -> M (St rt) unit) (l : list A) :
  (forall x, related R (f x) (f x)) ->
  related R (forEach f l) (forEach f l).
Proof.
  intros Hf. induction l as [|x l IH]; cbn [forEach].
  - apply related_ret.
  - apply related_bind; [apply Hf | intros _; exact IH].
Qed.

Lemma related_contextImpl_ExecuteActivity c call :
  related R (contextImpl_ExecuteActivity rt c call)
    (contextImpl_ExecuteActivity rt c call).
Proof.
  unfold contextImpl_ExecuteActivity, executeActivity.
  apply (related_modify_context (sameButAmbient rt)
           (ExecuteActivity (fst call) _)).
Qed.

(** An effect on the context [c] that leaves its coroutines under the
    contract. *)
Lemma related_onContextImpl {A} c (k : contextImpl rt -> M (St rt) A) :
  (forall ctx, kept (coroutines rt (dispatcher rt ctx)) ->
               related R (k ctx) (k ctx)) ->
  related R (ctx <- getContextImpl rt c ;; k ctx)
    (ctx <- getContextImpl rt c ;; k ctx).
Proof.
  intros Hk.
  apply (related_bind_post (sameButAmbient rt)
           (fun ctx => kept (coroutines rt (dispatcher rt ctx))));
    [apply related_getContextImpl| |exact Hk].
  intros s1 s2 ctx HR Hctx. eapply getContextImpl_kept; eassumption.
Qed.

Lemma related_closeDispatcher c :
  related R (closeDispatcher rt c) (closeDispatcher rt c).
Proof.
  unfold closeDispatcher. apply related_onContextImpl.
  intros ctx Hkept. apply related_setContextImpl. exact Hkept.
Qed.

Lemma related_modifyCoroutines c f :
  (forall cs, kept cs -> kept (f cs)) ->
  related R (modifyCoroutines rt c f) (modifyCoroutines rt c f).
Proof.
  intros Hf. unfold modifyCoroutines. apply related_onContextImpl.
  intros ctx Hkept. apply related_setContextImpl. apply Hf. exact Hkept.
Qed.

Lemma related_sendAsync c ch :
  related R (sendAsync rt c ch) (sendAsync rt c ch).
Proof.
  unfold sendAsync. apply related_onContextImpl.
  intros ctx (w & Hw & Hreach). cbv zeta.
  apply related_bind;
    [apply related_setContextImpl; exists w; split;
       [exact Hw | apply Reaches_SendAsync; exact Hreach]|].
  intros _. apply related_ret.
Qed.

Lemma related_ExecuteUntilAllBlocked c :
  related R (ExecuteUntilAllBlocked rt c) (ExecuteUntilAllBlocked rt c).
Proof.
  unfold ExecuteUntilAllBlocked. apply related_onContextImpl.
  intros ctx (w & Hw & Hreach).
  destruct (closed rt (dispatcher rt ctx)); [apply related_panic|].
  apply related_gets_ambient. intros a1 a2. cbv zeta.
  destruct (Hw a1 a2 (coroutines rt (dispatcher rt ctx)) Hreach)
    as (-> & -> & -> & Hafter).
  apply related_bind;
    [apply related_forEach; intros call; apply related_contextImpl_ExecuteActivity|].
  intros _. rewrite <- Hafter. apply related_bind.
  { apply related_setContextImpl. exists w. split; [exact Hw|].
    apply Reaches_run. exact Hreach. }
  intros _. apply related_bind; [apply related_setAmbient|].
  intros _. apply related_ret.
Qed.

Lemma related_executeDispatcher c :
  related R (executeDispatcher rt c) (executeDispatcher rt c).
Proof.
  unfold executeDispatcher, Complete.
  apply related_bind; [apply related_ExecuteUntilAllBlocked|].
  intros [panicErr|].
  - apply related_bind; [apply related_completeHandler|].
    intros _. apply related_closeDispatcher.
  - apply related_bind; [apply related_getContextImpl|]. intros ctx.
    destruct (result rt ctx) as [r|]; [|apply related_ret].
    apply related_bind; [apply related_completeHandler|].
    intros _. apply related_closeDispatcher.
Qed.

Lemma related_callResultHandler h r e :
  related R (callResultHandler rt h r e) (callResultHandler rt h r e).
Proof.
  unfold callResultHandler. cbv zeta.
  apply related_bind.
  { apply related_modifyCoroutines. intros cs (w & Hw & Hreach).
    exists w. split; [exact Hw | apply Reaches_assignResult; exact Hreach]. }
  intros _. apply related_bind.
  { destruct e; [|apply related_ret].
    apply related_modifyCoroutines. intros cs (w & Hw & Hreach).
    exists w. split; [exact Hw | apply Reaches_assignErr; exact Hreach]. }
  intros _. apply related_bind; [apply related_sendAsync|].
  intros [|]; [apply related_executeDispatcher | apply related_panic].
Qed.

Lemma related_Execute d input :
  Deterministic rt (workflow rt d) ->
  related R (Execute rt d input) (Execute rt d input).
Proof.
  intros Hd. unfold Execute. apply related_bind.
  - apply related_newContextImpl. exists (workflow rt d).
    split; [exact Hd | apply Reaches_start].
  - intros c. apply related_executeDispatcher.
Qed.

End Determinism.

(** *** Code of [Script] that keeps the contract *)

Lemma exec_clockFree code :
  clockFree code ->
  forall now now' cs,
    calls (Script.exec now code cs) = calls (Script.exec now' code cs)
    /\ returned (Script.exec now code cs) = returned (Script.exec now' code cs)
    /\ recovered (Script.exec now code cs) = recovered (Script.exec now' code cs)
    /\ after (Script.exec now code cs) = after (Script.exec now' code cs)
    /\ clockFreeStatus (Script.root (after (Script.exec now code cs))).
Proof.
  intros [r e|msg|parameters k Hk] now now' cs; cbn; repeat split; exact Hk.
Qed.

Lemma run_clockFree cs :
  clockFreeStatus (Script.root cs) ->
  forall now now',
    calls (Script.run now cs) = calls (Script.run now' cs)
    /\ returned (Script.run now cs) = returned (Script.run now' cs)
    /\ recovered (Script.run now cs) = recovered (Script.run now' cs)
    /\ after (Script.run now cs) = after (Script.run now' cs)
    /\ clockFreeStatus (Script.root (after (Script.run now cs))).
Proof.
  intros Hfree now now'. unfold Script.run.
  destruct (Script.root cs) as [code|ch k|] eqn:Hroot; cbn in Hfree.
  - apply exec_clockFree. exact Hfree.
  - destruct (decide (ch ∈ Script.buffered cs)).
    + apply exec_clockFree. apply Hfree.
    + cbn. rewrite Hroot. repeat split. exact Hfree.
  - cbn. rewrite Hroot. repeat split.
Qed.

Lemma Reaches_clockFree (w : bytes -> Script.Code) cs :
  (forall input, clockFree (w input)) ->
  Reaches Script.runtime w cs ->
  clockFreeStatus (Script.root cs).
Proof.
  intros Hw Hreach.
  induction Hreach as [input|a cs _ IH|ch r cs _ IH|ch e cs _ IH|ch cs _ IH].
  - apply Hw.
  - apply (run_clockFree cs IH a a).
  - exact IH.
  - exact IH.
  - cbn. unfold Script.SendAsync. destruct (decide _); exact IH.
Qed.

(** A workflow of [Script] whose code never reads the clock keeps the
    determinism contract. *)
Lemma clockFree_Deterministic (w : bytes -> Script.Code) :
  (forall input, clockFree (w input)) ->
  Deterministic Script.runtime w.
Proof.
  intros Hw a a' cs Hreach.
  destruct (run_clockFree cs (Reaches_clockFree w cs Hw Hreach) a a')
    as (H1 & H2 & H3 & H4 & _).
  repeat split; assumption.
Qed.

(** Code that reads the clock does not keep it. *)
Lemma readsClock_not_Deterministic :
  ~ Deterministic Script.runtime Samples.readsClock.
Proof.
  intros Hd.
  destruct (Hd 0 1 (Script.start Samples.readsClock [])
              (Reaches_start Script.runtime Samples.readsClock []))
    as (Hcalls & _).
  vm_compute in Hcalls. discriminate Hcalls.
Qed.

(** C1, as the code has it: when the workflows the factory makes definitions
    of keep the determinism contract, a history fed to a fresh handler gives,
    call by call of [ProcessEvent], the same outcome (decisions, error or
    panic) whatever ambient state the workflow code runs in; so also when
    the same history is fed again to a second fresh handler, in the ambient
    state the first replay left. *)
Theorem replay_is_deterministic
    (rt : Runtime)
    (workflowDefinitionFactory :
       m.WorkflowType -> option (workflowDefinition rt) * option Error)
    (info : WorkflowInfo) (a1 a2 : Ambient rt)
    (history : list (option m.HistoryEvent.t)) :
  (forall t d,
      fst (workflowDefinitionFactory t) = Some d ->
      Deterministic rt (workflow rt d)) ->
  fst (replay rt workflowDefinitionFactory history (newHandler rt info a1))
  = fst (replay rt workflowDefinitionFactory history (newHandler rt info a2))
  /\ fst (replay rt workflowDefinitionFactory history (newHandler rt info a1))
     = fst (replay rt workflowDefinitionFactory history
              (newHandler rt info
                 (ambient rt
                    (world (snd (replay rt workflowDefinitionFactory history
                                   (newHandler rt info a1))))))).
Proof.
  intros Hdet.
  assert (Hany : forall a a',
    fst (replay rt workflowDefinitionFactory history (newHandler rt info a))
    = fst (replay rt workflowDefinitionFactory history (newHandler rt info a'))).
  { intros a a'. unfold replay.
    apply (processHistory_related (callResultHandler rt) (Execute rt)
             (factory rt workflowDefinitionFactory) (sameButAmbient rt)
             (fun d => Deterministic rt (workflow rt d))).
    - intros h r e. apply related_callResultHandler.
    - intros d input Hd. apply related_Execute. exact Hd.
    - intros t. apply related_ret.
    - intros t s made d Hmade Hd. unfold factory, ret in Hmade.
      cbn in Hmade. injection Hmade as <-. exact (Hdet t d Hd).
    - repeat split. constructor. }
  split; apply Hany.
Qed.

(** ** The properties at sample inputs *)

(** S3: the time-out of event 5 reaches the callback of activity "0" as an
    [ActivityTaskTimeoutError], which this workflow returns. *)
Lemma S3_timeout_reaches_the_workflow :
  completions Script.runtime
    (world (snd (processEvent Script.runtime
                   (Samples.factoryOf Script.runtime Samples.oneActivity)
                   (Some (Samples.timedOut 7 5 m.TimeoutType_SCHEDULE_TO_CLOSE))
                   Samples.awaiting)))
  = [([], Some (ActivityTaskTimeoutError m.TimeoutType_SCHEDULE_TO_CLOSE))].
Proof. vm_compute. reflexivity. Qed.

(** Two [WorkflowExecutionStarted] events start two executions on the same
    handler; each one completes once. *)
Lemma two_started_events_start_two_executions :
  let s := snd (replay Script.runtime
                  (Samples.factoryOf Script.runtime Samples.returnsAtOnce)
                  [Some (Samples.started 1 Samples.x);
                   Some (Samples.started 2 Samples.y)]
                  (newHandler Script.runtime Samples.info 0)) in
  completions Script.runtime (world s) = [(Samples.x, None); (Samples.y, None)]
  /\ length (contexts Script.runtime (world s)) = 2%nat.
Proof. vm_compute. split; reflexivity. Qed.

Lemma replay_is_deterministic_witness :
  (forall t d,
      fst (Samples.factoryOf Script.runtime Samples.oneActivity t) = Some d ->
      Deterministic Script.runtime (workflow Script.runtime d))
  /\ fst (replay Script.runtime
            (Samples.factoryOf Script.runtime Samples.oneActivity)
            Samples.S1 (newHandler Script.runtime Samples.info 0))
     = fst (replay Script.runtime
              (Samples.factoryOf Script.runtime Samples.oneActivity)
              Samples.S1 (newHandler Script.runtime Samples.info 1)).
Proof.
  assert (Hd : forall t d,
    fst (Samples.factoryOf Script.runtime Samples.oneActivity t) = Some d ->
    Deterministic Script.runtime (workflow Script.runtime d)).
  { intros t d Hmade. injection Hmade as <-.
    apply clockFree_Deterministic. intros input.
    constructor. intros r e. constructor. }
  split; [exact Hd|].
  apply (replay_is_deterministic Script.runtime
           (Samples.factoryOf Script.runtime Samples.oneActivity)
           Samples.info 0 1 Samples.S1 Hd).
Defined.

(** C1 fails for a workflow outside the contract, which the handler relies
    on and does not enforce: code that puts the wall clock into its
    activity's input makes for the same history another first decision
    batch in a replay at another time. *)
Lemma replay_of_clock_reading_code_differs :
  let first := replay Script.runtime
                 (Samples.factoryOf Script.runtime Samples.readsClock)
                 Samples.S1 (newHandler Script.runtime Samples.info 0) in
  let second := replay Script.runtime
                  (Samples.factoryOf Script.runtime Samples.readsClock)
                  Samples.S1
                  (newHandler Script.runtime Samples.info
                     (ambient Script.runtime (world (snd first)))) in
  nth_error (fst first) 0
  = Some (Val (Some [scheduleDecision "0"
                       (Samples.request (bytes_of_string "0"))], None))
  /\ nth_error (fst second) 0
     = Some (Val (Some [scheduleDecision "0"
                          (Samples.request (bytes_of_string "1"))], None))
  /\ fst first <> fst second.
Proof.
  cbv zeta. split; [vm_compute; reflexivity|]. split; [vm_compute; reflexivity|].
  intros H. vm_compute in H. discriminate H.
Qed.

Lemma terminal_events_route_witness :
  let s0 := snd (replay Script.runtime
                   (Samples.factoryOf Script.runtime Samples.oneActivity)
                   [Some (Samples.started 1 Samples.x)]
                   (newHandler Script.runtime Samples.info 0)) in
  m.HistoryEvent.EventType (Samples.scheduled 5 "0") = m.EventType_ActivityTaskScheduled
  /\ m.HistoryEvent.ActivityTaskScheduledEventAttributes (Samples.scheduled 5 "0")
     = Some {| m.ActivityTaskScheduledEventAttributes.ActivityId := "0" |}
  /\ Forall (fun event => schedulesEventID 5 event = false) []
  /\ scheduledEventIDToActivityID
       (context
          (snd (replay Script.runtime
                  (Samples.factoryOf Script.runtime Samples.oneActivity)
                  [Some (Samples.scheduled 5 "0")] s0))) !! 5
     = Some "0".
Proof.
  intros s0.
  split; [reflexivity|]. split; [reflexivity|]. split; [constructor|].
  pose proof (terminal_events_route_through_the_scheduled_event_id
                Script.runtime
                (Samples.factoryOf Script.runtime Samples.oneActivity)
                s0 (Samples.scheduled 5 "0")
                {| m.ActivityTaskScheduledEventAttributes.ActivityId := "0" |}
                [] eq_refl eq_refl (List.Forall_nil _)) as H.
  cbv zeta in H. destruct H as [H _]. exact H.
Defined.

(** S1 routed end to end: the completion of event 5 reaches the callback of
    activity "0", the workflow returns the activity's result, and
    [Complete] gets it. *)
Lemma S1_completes_with_the_activity_result :
  let out := replay Script.runtime
               (Samples.factoryOf Script.runtime Samples.oneActivity)
               Samples.S1 (newHandler Script.runtime Samples.info 0) in
  fst out
  = [Val (Some [scheduleDecision "0" (Samples.request Samples.x)], None);
     Val (None, None);
     Val (Some [], None)]
  /\ completions Script.runtime (world (snd out)) = [(Samples.y, None)].
Proof. vm_compute. split; reflexivity. Qed.

Lemma Complete_at_most_once_witness :
  (startedCount Samples.S1twice <= 1)%nat
  /\ (length
        (completions Script.runtime
           (world (snd (replay Script.runtime
                          (Samples.factoryOf Script.runtime Samples.oneActivity)
                          Samples.S1twice
                          (newHandler Script.runtime Samples.info 0%Z)))))
      <= 1)%nat.
Proof.
  assert (Hone : (startedCount Samples.S1twice <= 1)%nat) by (vm_compute; lia).
  split; [exact Hone|].
  pose proof (Complete_at_most_once_per_execution Script.runtime
                (Samples.factoryOf Script.runtime Samples.oneActivity)
                Samples.info 0 Samples.S1twice) as H.
  cbv zeta in H. destruct H as (_ & _ & _ & H). exact (H Hone).
Defined.

(** The second delivery of the completion finds the dispatcher closed: the
    pump is rejected and [Complete] is not called again. *)
Lemma second_completion_is_rejected :
  let out := replay Script.runtime
               (Samples.factoryOf Script.runtime Samples.oneActivity)
               Samples.S1twice (newHandler Script.runtime Samples.info 0) in
  nth_error (fst out) 3 = Some (Panicked dispatcherClosed)
  /\ completions Script.runtime (world (snd out)) = [(Samples.y, None)].
Proof. vm_compute. split; reflexivity. Qed.

Lemma executeDispatcher_reports_a_panic_witness :
  contexts Script.runtime (world Samples.aboutToPanic) !! 0%nat
  = Some {| dispatcher := NewDispatcher Script.runtime
                            (Script.start Samples.panics Samples.x);
            result := None |}
  /\ closed Script.runtime
       (NewDispatcher Script.runtime (Script.start Samples.panics Samples.x))
     = false
  /\ fst (executeDispatcher Script.runtime 0 Samples.aboutToPanic) = Val tt.
Proof.
  split; [reflexivity|]. split; [reflexivity|].
  pose proof (executeDispatcher_reports_a_panic_and_waits_on_an_empty_slot
                Script.runtime 0
                {| dispatcher := NewDispatcher Script.runtime
                                   (Script.start Samples.panics Samples.x);
                   result := None |}
                Samples.aboutToPanic eq_refl eq_refl) as H.
  cbv zeta in H. destruct H as [H _]. exact H.
Defined.

(** S5: the panic "nope" is reported through [Complete] with its stack. *)
Lemma S5_panic_is_reported :
  completions Script.runtime
    (world (snd (executeDispatcher Script.runtime 0 Samples.aboutToPanic)))
  = [([], Some (errorImpl "nope" (bytes_of_string (Script.stackOf "nope"))))].
Proof. vm_compute. reflexivity. Qed.

Lemma ProcessEvent_rejects_unlisted_witness :
  m.HistoryEvent.EventType (Samples.event 11 (m.EventType_Other 99))
  = m.EventType_Other 99
  /\ processEvent Script.runtime
       (Samples.factoryOf Script.runtime Samples.oneActivity)
       (Some (Samples.event 11 (m.EventType_Other 99))) Samples.awaiting
     = (Val (None,
             Some (Errorf "missing event handler for event type: %v"
                     [ArgEvent (Samples.event 11 (m.EventType_Other 99))])),
        Samples.awaiting).
Proof.
  split; [reflexivity|]. unfold processEvent.
  apply (proj2 (ProcessEvent_rejects_nil_and_unlisted_events
                  (callResultHandler Script.runtime) (Execute Script.runtime)
                  (factory Script.runtime
                     (Samples.factoryOf Script.runtime Samples.oneActivity))
                  Samples.awaiting)
           (Samples.event 11 (m.EventType_Other 99)) 99).
  reflexivity.
Defined.

Lemma handleActivityTaskFailed_witness :
  let event := Samples.failed 7 5 (Some "boom") (bytes_of_string "d") in
  let a := {| m.ActivityTaskFailedEventAttributes.Reason := Some "boom";
              m.ActivityTaskFailedEventAttributes.Details := bytes_of_string "d";
              m.ActivityTaskFailedEventAttributes.ScheduledEventId := 5 |} in
  let h := Build_activityCallback Script.runtime 0%nat 0%nat in
  m.HistoryEvent.EventType event = m.EventType_ActivityTaskFailed
  /\ m.HistoryEvent.ActivityTaskFailedEventAttributes event = Some a
  /\ scheduledEventIDToActivityID (context Samples.awaiting) !! 5 = Some "0"
  /\ scheduledActivites (context Samples.awaiting) !! "0" = Some (Some h)
  /\ processEvent Script.runtime
       (Samples.factoryOf Script.runtime Samples.oneActivity)
       (Some event) Samples.awaiting
     = (callResultHandler Script.runtime h []
          (Some (ActivityTaskFailedError "boom" (bytes_of_string "d"))) ;;
        decisions <- swapExecuteDecisions [] ;;
        ret (Some decisions, None)) Samples.awaiting.
Proof.
  intros event a h.
  assert (H1 : scheduledEventIDToActivityID (context Samples.awaiting) !! 5 = Some "0")
    by (vm_compute; reflexivity).
  assert (H2 : scheduledActivites (context Samples.awaiting) !! "0" = Some (Some h))
    by (vm_compute; reflexivity).
  split; [reflexivity|]. split; [reflexivity|].
  split; [exact H1|]. split; [exact H2|].
  unfold processEvent.
  apply (proj2 (handleActivityTaskFailed_dereferences_Reason
                  (callResultHandler Script.runtime) (Execute Script.runtime)
                  (factory Script.runtime
                     (Samples.factoryOf Script.runtime Samples.oneActivity))
                  event a "0" h Samples.awaiting eq_refl eq_refl H1 H2)
           "boom").
  reflexivity.
Defined.

(** S2 and a failure event without a reason, from the same state. *)
Lemma failure_without_reason_panics :
  fst (processEvent Script.runtime
         (Samples.factoryOf Script.runtime Samples.oneActivity)
         (Some (Samples.failed 7 5 None (bytes_of_string "d"))) Samples.awaiting)
  = Panicked nilDereference
  /\ completions Script.runtime
       (world (snd (processEvent Script.runtime
                      (Samples.factoryOf Script.runtime Samples.oneActivity)
                      (Some (Samples.failed 7 5 (Some "boom") (bytes_of_string "d")))
                      Samples.awaiting)))
     = [([], Some (ActivityTaskFailedError "boom" (bytes_of_string "d")))].
Proof. vm_compute. split; reflexivity. Qed.

(** * Further properties *)

(** ** What [ProcessEvent] returns *)

Section Outcomes.

Context {ResultHandler WorkflowDefinition World : Type}.
Local Abbreviation State := (State ResultHandler WorkflowDefinition World).

Variable callResultHandler :
  ResultHandler -> bytes -> option Error -> M State unit.
Variable Execute : WorkflowDefinition -> bytes -> M State unit.
Variable workflowDefinitionFactory :
  m.WorkflowType -> M State (option WorkflowDefinition * option Error).

Local Abbreviation process :=
  (ProcessEvent callResultHandler Execute workflowDefinitionFactory).
Local Abbreviation Ran :=
  (Ran callResultHandler Execute workflowDefinitionFactory).
Local Abbreviation PanicsIn :=
  (PanicsIn callResultHandler Execute workflowDefinitionFactory).
Local Abbreviation Unanswered :=
  (Unanswered callResultHandler Execute workflowDefinitionFactory).

Local Abbreviation Drained :=
  (Drained callResultHandler Execute workflowDefinitionFactory).

Lemma then_drain (c : M State unit) (s : State) :
  (forall msg s1, c s = (Panicked msg, s1) -> PanicsIn s msg /\ Unanswered s s1) ->
  (forall s1, c s = (Val tt, s1) -> Ran s s1) ->
  Drained s ((c ;; decisions <- swapExecuteDecisions [] ;;
              ret (Some decisions, None)) s).
Proof.
  intros Hpanic Hran. unfold bind.
  destruct (c s) as [[[]|msg] s1] eqn:Hc.
  - right. exists s1. split; [apply Hran; reflexivity|].
    rewrite swapExecuteDecisions_eq. reflexivity.
  - left. exists msg. split; [reflexivity|]. apply Hpanic. reflexivity.
Qed.

Lemma callback_Drained (handler : option ResultHandler) r e (s : State) :
  Drained s
    ((match handler with
      | Some h => callResultHandler h r e
      | None => ret tt
      end ;;
      decisions <- swapExecuteDecisions [] ;;
      ret (Some decisions, None)) s).
Proof.
  apply then_drain.
  - destruct handler as [h|]; [|discriminate].
    intros msg s1 Hc. split.
    + eapply PanicsIn_callback. exact Hc.
    + eapply Unanswered_callback_panic. exact Hc.
  - destruct handler as [h|].
    + intros s1 Hc. eapply Ran_callback. exact Hc.
    + intros s1 [= <-]. apply Ran_nothing.
Qed.

(** The outcomes of [ProcessEvent]: no decisions, with a panic, an error or
    neither, and one of the states of [Unanswered]; or, from a handler that
    drains, the decisions pending after what it ran, and no error. *)
Lemma ProcessEvent_outcome event (s : State) :
  (Unanswered s (snd (process event s))
   /\ ((exists msg, fst (process event s) = Panicked msg /\ PanicsIn s msg)
       \/ (exists err, fst (process event s) = Val (None, err))))
  \/ (drainsDecisions event = true
      /\ exists s1, Ran s s1
           /\ process event s
              = (Val (Some (executeDecisions (context s1)), None), drained s1)).
Proof.
  assert (Hd : forall out,
    drainsDecisions event = true -> Drained s out ->
    (Unanswered s (snd out)
     /\ ((exists msg, fst out = Panicked msg /\ PanicsIn s msg)
         \/ (exists err, fst out = Val (None, err))))
    \/ (drainsDecisions event = true
        /\ exists s1, Ran s s1
             /\ out = (Val (Some (executeDecisions (context s1)), None),
                       drained s1))).
  { intros out Hdrains [(msg & Hout & Hin & Hun)|Hr].
    - left. split; [exact Hun|]. left. exists msg. split; assumption.
    - right. split; assumption. }
  assert (Hnil : PanicsIn s nilDereference)
    by (apply PanicsIn_dereference; reflexivity).
  assert (Hsame : Unanswered s s) by apply Unanswered_same.
  destruct event as [event|];
    [|left; split; [exact Hsame | right; eexists; reflexivity]].
  unfold ProcessEvent, drainsDecisions in *.
  destruct (m.HistoryEvent.EventType event) eqn:Htype;
    try (left; split; [exact Hsame | right; eexists; reflexivity]).
  - (* WorkflowExecutionStarted *)
    unfold handleWorkflowExecutionStarted, bind, gets. cbn.
    destruct (workflowDefinitionFactory _ s) as [[made|msg] s0] eqn:Hmade; cbn.
    2: { left. split; [eapply Unanswered_factory_panic; exact Hmade|].
         left. exists msg. split; [reflexivity|].
         eapply PanicsIn_factory. exact Hmade. }
    assert (Hkept : Unanswered s (setWorkflowDefinition (fst made) s0))
      by (eapply Unanswered_factory; exact Hmade).
    destruct (snd made) as [err|]; cbn;
      [left; split; [exact Hkept | right; eexists; reflexivity]|].
    destruct (fst made) as [d|] eqn:Hd'; cbn;
      [|left; split;
        [exact Hkept | left; exists nilDereference; split; [reflexivity | exact Hnil]]].
    destruct (m.HistoryEvent.WorkflowExecutionStartedEventAttributes event)
      as [a|]; cbn;
      [|left; split;
        [exact Hkept | left; exists nilDereference; split; [reflexivity | exact Hnil]]].
    destruct (Execute d _ _) as [[[]|msg] s1] eqn:Hexec; cbn.
    + right. split; [reflexivity|]. exists s1. split; [|reflexivity].
      eapply Ran_execute; [exact Hmade|]. rewrite Hd'. exact Hexec.
    + left. split.
      * eapply Unanswered_execute_panic; [exact Hmade|]. rewrite Hd'. exact Hexec.
      * left. exists msg. split; [reflexivity|].
        eapply PanicsIn_execute; [exact Hmade|]. rewrite Hd'. exact Hexec.
  - (* ActivityTaskScheduled *)
    destruct (m.HistoryEvent.ActivityTaskScheduledEventAttributes event) as [a|].
    + left. split; [apply Unanswered_recorded | right; eexists; reflexivity].
    + left. split;
        [exact Hsame | left; exists nilDereference; split; [reflexivity | exact Hnil]].
  - (* ActivityTaskCompleted *)
    unfold handleActivityTaskCompleted.
    destruct (m.HistoryEvent.ActivityTaskCompletedEventAttributes event) as [a|];
      [|left; split;
        [exact Hsame | left; exists nilDereference; split; [reflexivity | exact Hnil]]].
    cbn. destruct (_ !! _) as [activityID|];
      [|left; split; [exact Hsame | right; eexists; reflexivity]].
    destruct (_ !! _) as [handler|];
      [|left; split; [exact Hsame | right; eexists; reflexivity]].
    apply Hd; [reflexivity|]. apply callback_Drained.
  - (* ActivityTaskFailed *)
    unfold handleActivityTaskFailed.
    destruct (m.HistoryEvent.ActivityTaskFailedEventAttributes event) as [a|];
      [|left; split;
        [exact Hsame | left; exists nilDereference; split; [reflexivity | exact Hnil]]].
    cbn. destruct (_ !! _) as [activityID|];
      [|left; split; [exact Hsame | right; eexists; reflexivity]].
    destruct (_ !! _) as [handler|];
      [|left; split; [exact Hsame | right; eexists; reflexivity]].
    apply Hd; [reflexivity|].
    destruct handler as [h|]; [|apply (callback_Drained None [] None)].
    destruct (m.ActivityTaskFailedEventAttributes.Reason a) as [reason|].
    + apply (callback_Drained (Some h)).
    + left. exists nilDereference. split; [reflexivity|]. split; assumption.
  - (* ActivityTaskTimedOut *)
    unfold handleActivityTaskTimedOut.
    destruct (m.HistoryEvent.ActivityTaskTimedOutEventAttributes event) as [a|];
      [|left; split;
        [exact Hsame | left; exists nilDereference; split; [reflexivity | exact Hnil]]].
    cbn. destruct (_ !! _) as [activityID|];
      [|left; split; [exact Hsame | right; eexists; reflexivity]].
    destruct (_ !! _) as [handler|];
      [|left; split; [exact Hsame | right; eexists; reflexivity]].
    apply Hd; [reflexivity|]. apply callback_Drained.
Qed.

(** X1: a call of [ProcessEvent] never returns decisions together with an
    error.  It panics, or returns no decisions (with or without an error),
    or returns decisions with no error; the last only for a
    [WorkflowExecutionStarted] event and for the three terminal activity
    events, and then no decision is left pending. *)
Theorem ProcessEvent_returns_decisions_or_an_error event (s : State) :
  (exists msg, fst (process event s) = Panicked msg)
  \/ (exists err, fst (process event s) = Val (None, err))
  \/ (drainsDecisions event = true
      /\ (exists decisions, fst (process event s) = Val (Some decisions, None))
      /\ executeDecisions (context (snd (process event s))) = []).
Proof.
  destruct (ProcessEvent_outcome event s)
    as [(_ & [(msg & Hout & _)|Hnone])|(Hdrains & s1 & _ & Hout)].
  - left. exists msg. exact Hout.
  - right. left. exact Hnone.
  - right. right. split; [exact Hdrains|]. rewrite Hout. split.
    + eexists. reflexivity.
    + reflexivity.
Qed.

(** X2: a history made of the events [ProcessEvent] has no operation for
    (workflow execution completed, failed, timed out; decision task
    scheduled, started, timed out, completed; activity task started; timer
    started and fired) is answered event by event with no decisions and no
    error, and leaves the handler as it was, its pending decisions
    included. *)
Theorem events_without_operation_change_nothing
    (history : list (option m.HistoryEvent.t)) (s : State) :
  forallb isNoOperation history = true ->
  processHistory callResultHandler Execute workflowDefinitionFactory history s
  = (map (fun _ => Val (None, None)) history, s).
Proof.
  induction history as [|event history IH]; intros Hall; [reflexivity|].
  cbn [forallb] in Hall. apply andb_prop in Hall. destruct Hall as [Hevent Hall].
  cbn [processHistory map].
  assert (Hstep : process event s = (Val (None, None), s)).
  { destruct event as [event|]; [|discriminate].
    unfold isNoOperation in Hevent. unfold ProcessEvent.
    destruct (m.HistoryEvent.EventType event); try discriminate; reflexivity. }
  rewrite Hstep, (IH Hall). reflexivity.
Qed.

(** X3: a terminal activity event whose scheduled event id maps to an
    activity id under which no callback is registered is answered with the
    error "unable to find callback handler for the event", no decisions and
    an untouched state. *)
Theorem terminal_event_without_a_callback_is_an_error
    event scheduledEventID activityID (s : State) :
  terminalScheduledEventId event = Some scheduledEventID ->
  scheduledEventIDToActivityID (context s) !! scheduledEventID = Some activityID ->
  scheduledActivites (context s) !! activityID = None ->
  exists rest args,
    process (Some event) s
    = (Val (None,
            Some (Errorf ("unable to find callback handler for the event: %v"
                          ++ rest) args)),
       s).
Proof.
  unfold terminalScheduledEventId, ProcessEvent.
  destruct (m.HistoryEvent.EventType event); try discriminate.
  - destruct (m.HistoryEvent.ActivityTaskCompletedEventAttributes event) as [a|];
      [|discriminate].
    intros [= <-] Hid Hnone. unfold handleActivityTaskCompleted, bind. cbn.
    rewrite Hid, Hnone. exists " with activity ID: %v". eexists. reflexivity.
  - destruct (m.HistoryEvent.ActivityTaskFailedEventAttributes event) as [a|];
      [|discriminate].
    intros [= <-] Hid Hnone. unfold handleActivityTaskFailed, bind. cbn.
    rewrite Hid, Hnone. exists "". eexists. reflexivity.
  - destruct (m.HistoryEvent.ActivityTaskTimedOutEventAttributes event) as [a|];
      [|discriminate].
    intros [= <-] Hid Hnone. unfold handleActivityTaskTimedOut, bind. cbn.
    rewrite Hid, Hnone. exists "". eexists. reflexivity.
Qed.

(** X4: when the callback registered for a terminal activity event is nil,
    the handler calls nothing: it returns the pending decisions with no
    error and leaves none pending.  This holds for a failure event without a
    reason too, the reason being read only to call a callback. *)
Theorem nil_callback_is_skipped event scheduledEventID activityID (s : State) :
  terminalScheduledEventId event = Some scheduledEventID ->
  scheduledEventIDToActivityID (context s) !! scheduledEventID = Some activityID ->
  scheduledActivites (context s) !! activityID = Some None ->
  process (Some event) s
  = (Val (Some (executeDecisions (context s)), None), drained s).
Proof.
  unfold terminalScheduledEventId, ProcessEvent.
  destruct (m.HistoryEvent.EventType event); try discriminate.
  - destruct (m.HistoryEvent.ActivityTaskCompletedEventAttributes event) as [a|];
      [|discriminate].
    intros [= <-] Hid Hnil. unfold handleActivityTaskCompleted, bind. cbn.
    rewrite Hid, Hnil. reflexivity.
  - destruct (m.HistoryEvent.ActivityTaskFailedEventAttributes event) as [a|];
      [|discriminate].
    intros [= <-] Hid Hnil. unfold handleActivityTaskFailed, bind. cbn.
    rewrite Hid, Hnil. reflexivity.
  - destruct (m.HistoryEvent.ActivityTaskTimedOutEventAttributes event) as [a|];
      [|discriminate].
    intros [= <-] Hid Hnil. unfold handleActivityTaskTimedOut, bind. cbn.
    rewrite Hid, Hnil. reflexivity.
Qed.

(** X5: on a [WorkflowExecutionStarted] event the handler keeps what the
    factory returned as its workflow definition, also when the factory
    failed.  With an error of the factory it returns that error and no
    decisions: [Execute] is not called and the pending decisions stay
    pending.  With no error and no definition, the call of [Execute] on the
    nil definition panics. *)
Theorem WorkflowExecutionStarted_stops_at_a_factory_error
    event made (s s0 : State) :
  m.HistoryEvent.EventType event = m.EventType_WorkflowExecutionStarted ->
  workflowDefinitionFactory (workflowType (workflowInfo (context s))) s
  = (Val made, s0) ->
  (forall e, snd made = Some e ->
     process (Some event) s
     = (Val (None, Some (ErrorOf e)), setWorkflowDefinition (fst made) s0))
  /\ (made = (None, None) ->
      process (Some event) s
      = (Panicked nilDereference, setWorkflowDefinition None s0)).
Proof.
  intros Htype Hmade. unfold ProcessEvent. rewrite Htype.
  unfold handleWorkflowExecutionStarted, bind, gets. cbn. rewrite Hmade. cbn.
  split.
  - intros e He. rewrite He. reflexivity.
  - intros ->. reflexivity.
Qed.

End Outcomes.

(** ** Generated activity ids *)

Section GeneratedIds.

Context {ResultHandler : Type}.
Implicit Types wc : workflowContext ResultHandler.

Lemma scheduleAll_snoc requests request wc :
  scheduleAll (requests ++ [request]) wc
  = ExecuteActivity (fst request) (snd request) (scheduleAll requests wc).
Proof. unfold scheduleAll. rewrite fold_left_app. reflexivity. Qed.

(** Requests without an activity id take the counter up one by one. *)
Lemma scheduleAll_counter requests : forall wc,
  Forall (fun request => ActivityID (fst request) = None) requests ->
  MinInt32 <= counterID wc ->
  counterID wc + Z.of_nat (length requests) <= MaxInt32 ->
  counterID (scheduleAll requests wc) = counterID wc + Z.of_nat (length requests).
Proof.
  induction requests as [|request requests IH] using rev_ind; intros wc Hnone Hlo Hhi.
  - cbn. lia.
  - apply Forall_app in Hnone. destruct Hnone as [Hnone Hlast].
    apply Forall_cons in Hlast. destruct Hlast as [Hlast _].
    rewrite length_app in *. cbn [length] in *.
    rewrite scheduleAll_snoc, ExecuteActivity_eq. cbn [counterID].
    rewrite Hlast, IH by (assumption || lia).
    rewrite wrap32_in_range by (unfold MinInt32, MaxInt32 in *; lia). lia.
Qed.

End GeneratedIds.

(** X6: up to [2^31] calls of [ExecuteActivity] without an activity id, on a
    fresh workflow context, get the ids "0", "1", "2", ... in the order of
    the calls, and these do not collide: every callback stays registered
    under the id of its call, and the decisions are pending in the order of
    the calls, each with its id. *)
Theorem generated_activity_ids_do_not_collide
    (ResultHandler : Type) (info : WorkflowInfo)
    (requests : list (ExecuteActivityParameters * option ResultHandler)) :
  Forall (fun request => ActivityID (fst request) = None) requests ->
  Z.of_nat (length requests) <= 2 ^ 31 ->
  let wc := scheduleAll requests (newWorkflowContext info) in
  (forall (i : nat) request,
      requests !! i = Some request ->
      scheduledActivites wc !! Sprintf_d (Z.of_nat i) = Some (snd request))
  /\ executeDecisions wc
     = imap (fun i request => scheduleDecision (Sprintf_d (Z.of_nat i)) (fst request))
         requests.
Proof.
  induction requests as [|request requests IH] using rev_ind; intros Hnone Hlen wc.
  - split; [intros i request Hi; discriminate | reflexivity].
  - apply Forall_app in Hnone. destruct Hnone as [Hnone Hlast].
    apply Forall_cons in Hlast. destruct Hlast as [Hlast _].
    rewrite length_app in Hlen. cbn [length] in Hlen.
    destruct (IH Hnone ltac:(lia)) as [IHcallbacks IHdecisions].
    pose proof (scheduleAll_counter requests (newWorkflowContext info) Hnone
                  ltac:(cbn; unfold MinInt32; lia)
                  ltac:(cbn; unfold MaxInt32; lia)) as Hcounter.
    cbn [newWorkflowContext counterID] in Hcounter. rewrite Z.add_0_l in Hcounter.
    assert (Hid : activityIDOf (fst request)
                    (scheduleAll requests (newWorkflowContext info))
                  = Sprintf_d (Z.of_nat (length requests))).
    { unfold activityIDOf. rewrite Hlast, Hcounter. reflexivity. }
    unfold wc. rewrite scheduleAll_snoc, ExecuteActivity_eq.
    cbn [scheduledActivites executeDecisions]. rewrite Hid. split.
    + intros i request' Hi.
      destruct (decide (i = length requests)) as [->|Hne].
      * rewrite lookup_app_r, Nat.sub_diag in Hi by lia.
        injection Hi as <-. apply lookup_insert_eq.
      * assert (Hlt : (i < length requests)%nat).
        { apply lookup_lt_Some in Hi. rewrite length_app in Hi. cbn in Hi. lia. }
        rewrite lookup_app_l in Hi by assumption.
        rewrite lookup_insert_ne; [apply IHcallbacks; exact Hi|].
        unfold Sprintf_d. intros Heq. apply (inj pretty) in Heq. lia.
    + rewrite IHdecisions, imap_app. cbn [imap]. rewrite Nat.add_0_r. reflexivity.
Qed.

(** ** The decisions and the panics of the handler over the adapter *)

Section AdapterOutcomes.

Variable rt : Runtime.
Variable workflowDefinitionFactory :
  m.WorkflowType -> option (workflowDefinition rt) * option Error.
Implicit Types s : St rt.

Local Abbreviation step := (processEvent rt workflowDefinitionFactory).
Local Abbreviation play := (replay rt workflowDefinitionFactory).
Local Abbreviation ran :=
  (Ran (callResultHandler rt) (Execute rt) (factory rt workflowDefinitionFactory)).
Local Abbreviation panicsIn :=
  (PanicsIn (callResultHandler rt) (Execute rt) (factory rt workflowDefinitionFactory)).

Lemma registerCalls_decisions c made (wc : workflowContext (activityCallback rt)) :
  exists new,
    executeDecisions (registerCalls rt c made wc) = executeDecisions wc ++ new
    /\ forallb isScheduleActivityTask new = true
    /\ length new = length made.
Proof.
  revert wc. induction made as [|call made IH]; intros wc.
  - exists []. rewrite app_nil_r. repeat split.
  - rewrite registerCalls_cons.
    destruct (IH (ExecuteActivity (fst call)
                    (Some {| callback_c := c; callback_resultChannel := snd call |})
                    wc)) as (new & Hnew & Hall & Hlen).
    rewrite ExecuteActivity_decisions, <- app_assoc in Hnew.
    eexists. split; [exact Hnew|]. split.
    + cbn [app forallb]. rewrite Hall. reflexivity.
    + cbn. rewrite Hlen. reflexivity.
Qed.

(** What runs before a drain registers the calls of one run of the
    coroutines, and does nothing else to the workflow context. *)
Lemma Ran_registers s s1 :
  ran s s1 ->
  exists c made, context s1 = registerCalls rt c made (context s).
Proof.
  intros [|h r e s1' Hc|made s0 d input s1' Hf He].
  - exists 0%nat, []. reflexivity.
  - pose proof (callResultHandler_called rt h r e s) as Hcalled.
    rewrite Hc in Hcalled. cbn [fst snd] in Hcalled.
    inversion Hcalled as [| | |ctx cs Hctx Hopen]; subst.
    eexists _, _. reflexivity.
  - inversion Hf; subst. rewrite Execute_eq in He. inversion He; subst.
    eexists _, _. reflexivity.
Qed.

Lemma PanicsIn_adapter s msg :
  panicsIn s msg ->
  msg = nilDereference \/ msg = "unexpected" \/ msg = dispatcherClosed.
Proof.
  intros [Hnil|h r e s1 Hc|s0 Hf|made s0 d input s1 Hf He].
  - left. exact Hnil.
  - pose proof (callResultHandler_called rt h r e s) as Hcalled.
    rewrite Hc in Hcalled. cbn [fst snd] in Hcalled.
    inversion Hcalled; subst; tauto.
  - inversion Hf.
  - pose proof (Execute_val rt d input (setWorkflowDefinition (fst made) s0)) as Hv.
    rewrite He in Hv. discriminate.
Qed.

Lemma processEvent_batch event s :
  executeDecisions (context s) = [] ->
  forallb isScheduleActivityTask (batchOf (fst (step event s))) = true.
Proof.
  intros Hq.
  destruct (ProcessEvent_outcome (callResultHandler rt) (Execute rt)
              (factory rt workflowDefinitionFactory) event s)
    as [(_ & [(msg & Hout & _)|(err & Hout)])|(_ & s1 & Hran & Hout)];
    unfold processEvent; rewrite Hout; try reflexivity.
  cbn [fst batchOf].
  destruct (Ran_registers s s1 Hran) as (c & made & ->).
  destruct (registerCalls_decisions c made (context s)) as (new & -> & Hall & _).
  rewrite Hq. exact Hall.
Qed.

Lemma replay_batches history : forall s,
  executeDecisions (context s) = [] ->
  Forall (fun out => forallb isScheduleActivityTask (batchOf out) = true)
    (fst (play history s)).
Proof.
  induction history as [|event history IH]; intros s Hq; [constructor|].
  rewrite replay_cons. cbn [fst]. constructor.
  - apply processEvent_batch. exact Hq.
  - apply IH. apply processEvent_queue. exact Hq.
Qed.

End AdapterOutcomes.

(** X7: whatever the history and the workflow code, every decision the
    handler returns is a [ScheduleActivityTask] decision with its attributes
    and an activity id: the outcome of the workflow goes to [Complete], never
    into a decision. *)
Theorem every_decision_schedules_an_activity
    (rt : Runtime)
    (workflowDefinitionFactory :
       m.WorkflowType -> option (workflowDefinition rt) * option Error)
    (info : WorkflowInfo) (a : Ambient rt)
    (history : list (option m.HistoryEvent.t)) :
  Forall (fun out => forallb isScheduleActivityTask (batchOf out) = true)
    (fst (replay rt workflowDefinitionFactory history (newHandler rt info a))).
Proof. apply replay_batches. reflexivity. Qed.

(** X8: a panic of workflow code does not come out of [ProcessEvent]: the
    dispatcher recovers it and the adapter passes it to [Complete].  When
    [ProcessEvent] does panic over the adapter, with a factory that returns,
    it is a nil dereference (of missing attributes, of a missing reason or of
    a nil workflow definition), the "unexpected" of a callback whose channel
    refused the value, or the rejection of a pump by a closed dispatcher. *)
Theorem workflow_panics_do_not_escape_ProcessEvent
    (rt : Runtime)
    (workflowDefinitionFactory :
       m.WorkflowType -> option (workflowDefinition rt) * option Error)
    (event : option m.HistoryEvent.t) (s : St rt) (msg : string) :
  fst (processEvent rt workflowDefinitionFactory event s) = Panicked msg ->
  msg = nilDereference \/ msg = "unexpected" \/ msg = dispatcherClosed.
Proof.
  intros Hpanic.
  destruct (ProcessEvent_outcome (callResultHandler rt) (Execute rt)
              (factory rt workflowDefinitionFactory) event s)
    as [(_ & [(msg' & Hout & Hin)|(err & Hout)])|(_ & s1 & _ & Hout)];
    unfold processEvent in Hpanic; rewrite Hout in Hpanic; try discriminate.
  injection Hpanic as <-.
  eapply PanicsIn_adapter. exact Hin.
Qed.

(** X9: on a [WorkflowExecutionStarted] event with attributes, when the
    factory returns a workflow definition, [ProcessEvent] does not panic and
    returns no error, whatever the workflow code does: it returns what was
    pending and the decisions of the calls of [ExecuteActivity] the
    coroutines made in their first run, and a panic of that run is passed to
    [Complete] as the [errorImpl] whose reason is the panic's message and
    whose details are the bytes of its stack trace. *)
Theorem WorkflowExecutionStarted_returns_the_decisions_of_the_first_run
    (rt : Runtime)
    (workflowDefinitionFactory :
       m.WorkflowType -> option (workflowDefinition rt) * option Error)
    (event : m.HistoryEvent.t)
    (attributes : m.WorkflowExecutionStartedEventAttributes.t)
    (d : workflowDefinition rt) (s : St rt) :
  m.HistoryEvent.EventType event = m.EventType_WorkflowExecutionStarted ->
  m.HistoryEvent.WorkflowExecutionStartedEventAttributes event = Some attributes ->
  workflowDefinitionFactory (workflowType (workflowInfo (context s))) = (Some d, None) ->
  let c := length (contexts rt (world s)) in
  let p := run rt (ambient rt (world s))
             (start rt (workflow rt d)
                (m.WorkflowExecutionStartedEventAttributes.Input attributes)) in
  let out := processEvent rt workflowDefinitionFactory (Some event) s in
  fst out = Val (Some (executeDecisions (registerCalls rt c (calls p) (context s))), None)
  /\ executeDecisions (context (snd out)) = []
  /\ length (contexts rt (world (snd out))) = S c
  /\ (forall panicErr,
        recovered p = Some panicErr ->
        completions rt (world (snd out))
        = completions rt (world s)
          ++ [([], Some (errorImpl (PanicError_Error panicErr)
                           (bytes_of_string (PanicError_StackTrace panicErr))))]).
Proof.
  intros Htype Hattributes Hmade c p out.
  assert (Hout : out
    = (Val (Some (executeDecisions (registerCalls rt c (calls p) (context s))), None),
       drained
         (pumped rt c
            {| dispatcher :=
                 NewDispatcher rt
                   (start rt (workflow rt d)
                      (m.WorkflowExecutionStartedEventAttributes.Input attributes));
               result := None |}
            (setWorld
               {| completions := completions rt (world s);
                  contexts :=
                    contexts rt (world s)
                    ++ [ {| dispatcher :=
                              NewDispatcher rt
                                (start rt (workflow rt d)
                                   (m.WorkflowExecutionStartedEventAttributes.Input
                                      attributes));
                            result := None |} ];
                  ambient := ambient rt (world s) |}
               (setWorkflowDefinition (Some d) s))))).
  { unfold out, processEvent, ProcessEvent. rewrite Htype, Hattributes.
    unfold handleWorkflowExecutionStarted, factory.
    unfold bind at 1. unfold gets at 1. unfold bind at 1. unfold ret at 1.
    rewrite Hmade. cbn [fst snd].
    unfold bind at 1. unfold modify at 1.
    unfold bind at 1. unfold deref at 1, ret at 1.
    unfold bind at 1. unfold deref at 1, ret at 1.
    unfold bind at 1. rewrite Execute_eq.
    unfold bind at 1. rewrite swapExecuteDecisions_eq. reflexivity. }
  rewrite Hout. cbn [fst snd]. split; [reflexivity|]. split; [reflexivity|]. split.
  - unfold drained, pumped, setWorld. cbn -[insert].
    rewrite length_insert, length_app. cbn. fold c. lia.
  - intros panicErr Hp. unfold drained, pumped, completionAfter. cbn.
    fold p. rewrite Hp. reflexivity.
Qed.

(** X10: when the dispatcher of a context is open and the coroutines end their
    run with no panic and with a result in the slot, the one the root
    function returned in this run or an earlier one, [executeDispatcher]
    calls [Complete] once with that result and error, and closes the
    dispatcher.  When the run ends with a panic, the panic is reported, as
    the [errorImpl] whose reason is its message and whose details are the
    bytes of its stack trace, and a result in the slot is not. *)
Theorem executeDispatcher_completes_with_the_result_of_the_workflow
    (rt : Runtime) (c : nat) (ctx : contextImpl rt) (s : St rt) :
  contexts rt (world s) !! c = Some ctx ->
  closed rt (dispatcher rt ctx) = false ->
  let p := run rt (ambient rt (world s)) (coroutines rt (dispatcher rt ctx)) in
  let out := executeDispatcher rt c s in
  let closedAfter :=
    (fun ctx' => closed rt (dispatcher rt ctx'))
      <$> contexts rt (world (snd out)) !! c in
  (forall r,
      recovered p = None ->
      slotAfter rt p ctx = Some r ->
      fst out = Val tt
      /\ completions rt (world (snd out))
         = completions rt (world s) ++ [(workflowResult_ r, error_ r)]
      /\ closedAfter = Some true)
  /\ (forall panicErr r,
        recovered p = Some panicErr ->
        slotAfter rt p ctx = Some r ->
        completions rt (world (snd out))
        = completions rt (world s)
          ++ [([], Some (errorImpl (PanicError_Error panicErr)
                           (bytes_of_string (PanicError_StackTrace panicErr))))]).
Proof.
  intros Hc Hopen p out closedAfter.
  assert (Hlen : (c < length (contexts rt (world s)))%nat)
    by (eapply lookup_lt_Some; eassumption).
  unfold closedAfter, out. rewrite (executeDispatcher_open rt c ctx s Hc Hopen).
  cbn [fst snd]. unfold pumped. fold p. cbn -[insert lookup].
  rewrite list_lookup_insert_eq by assumption. cbn.
  split.
  - intros r Hp Hslot. unfold completionAfter. rewrite Hp, Hslot.
    repeat split.
  - intros panicErr r Hp Hslot. unfold completionAfter. rewrite Hp. reflexivity.
Qed.

(** X11: the callback of [contextImpl.ExecuteActivity] stores the result and
    the error for its coroutine and sends on the result channel; when the
    channel refuses the value, the callback panics with "unexpected" before
    it pumps the dispatcher: the workflow context and the calls of
    [Complete] are as they were, and the dispatcher is as open or closed as
    it was. *)
Theorem activity_callback_panics_when_the_channel_refuses
    (rt : Runtime) (h : activityCallback rt) (r : bytes) (e : option Error)
    (ctx : contextImpl rt) (s : St rt) :
  contexts rt (world s) !! callback_c rt h = Some ctx ->
  fst (SendAsync rt (callback_resultChannel rt h)
         (assigned rt (callback_resultChannel rt h) r e
            (coroutines rt (dispatcher rt ctx)))) = false ->
  let out := callResultHandler rt h r e s in
  fst out = Panicked "unexpected"
  /\ context (snd out) = context s
  /\ completions rt (world (snd out)) = completions rt (world s)
  /\ (fun ctx' => (closed rt (dispatcher rt ctx'), result rt ctx'))
       <$> contexts rt (world (snd out)) !! callback_c rt h
     = Some (closed rt (dispatcher rt ctx), result rt ctx).
Proof.
  intros Hc Hrefused out.
  assert (Hlen : (callback_c rt h < length (contexts rt (world s)))%nat)
    by (eapply lookup_lt_Some; eassumption).
  unfold out. rewrite (callResultHandler_eq rt h r e ctx s Hc).
  rewrite Hrefused. cbn [fst snd].
  split; [reflexivity|]. split; [reflexivity|]. split; [reflexivity|].
  unfold withCoroutines, setWorld. cbn -[insert lookup].
  rewrite list_lookup_insert_eq by assumption. reflexivity.
Qed.

(** X12: the path of an activity's outcome into the workflow.  When a
    terminal activity event resolves to a callback of the adapter, the
    dispatcher of its context is open and the result channel accepts the
    value, [ProcessEvent] stores the outcome for the waiting coroutine, runs
    the coroutines once, and returns what was pending and the decisions of
    the calls of [ExecuteActivity] made in that run, leaving none pending.
    What [Complete] gets depends on how that run ends: with a recovered
    panic, one call with a nil result and the [errorImpl] whose reason is the
    panic's message and whose details are the bytes of its stack trace,
    whatever the root function returned; with no panic and a result in the
    slot, the one the root function returned in that run or one that was
    there before, one call with that result and error; with no panic, no
    return of the root function and an empty slot, no call. *)
Theorem terminal_event_resumes_the_workflow
    (rt : Runtime)
    (workflowDefinitionFactory :
       m.WorkflowType -> option (workflowDefinition rt) * option Error)
    (event : m.HistoryEvent.t) (scheduledEventID : Z) (activityID : string)
    (h : activityCallback rt) (r : bytes) (e : option Error)
    (ctx : contextImpl rt) (s : St rt) :
  terminalScheduledEventId event = Some scheduledEventID ->
  callbackArguments event = Some (Val (r, e)) ->
  scheduledEventIDToActivityID (context s) !! scheduledEventID = Some activityID ->
  scheduledActivites (context s) !! activityID = Some (Some h) ->
  contexts rt (world s) !! callback_c rt h = Some ctx ->
  closed rt (dispatcher rt ctx) = false ->
  let resultChannel := callback_resultChannel rt h in
  let sent := SendAsync rt resultChannel
                (assigned rt resultChannel r e (coroutines rt (dispatcher rt ctx))) in
  fst sent = true ->
  let p := run rt (ambient rt (world s)) (snd sent) in
  let out := processEvent rt workflowDefinitionFactory (Some event) s in
  fst out
  = Val (Some (executeDecisions
                 (registerCalls rt (callback_c rt h) (calls p) (context s))),
         None)
  /\ executeDecisions (context (snd out)) = []
  /\ (forall panicErr,
        recovered p = Some panicErr ->
        completions rt (world (snd out))
        = completions rt (world s)
          ++ [([], Some (errorImpl (PanicError_Error panicErr)
                           (bytes_of_string (PanicError_StackTrace panicErr))))])
  /\ (forall returned_,
        recovered p = None ->
        returned p = Some returned_ ->
        completions rt (world (snd out))
        = completions rt (world s)
          ++ [(workflowResult_ returned_, error_ returned_)])
  /\ (forall before,
        recovered p = None ->
        returned p = None ->
        result rt ctx = Some before ->
        completions rt (world (snd out))
        = completions rt (world s)
          ++ [(workflowResult_ before, error_ before)])
  /\ (recovered p = None ->
      returned p = None ->
      result rt ctx = None ->
      completions rt (world (snd out)) = completions rt (world s)).
Proof.
  intros Hterminal Hargs Hid Hh Hc Hopen resultChannel sent Hsent p out.
  assert (Hlen : (callback_c rt h < length (contexts rt (world s)))%nat)
    by (eapply lookup_lt_Some; eassumption).
  assert (Hcall : callResultHandler rt h r e s
    = (Val tt,
       pumped rt (callback_c rt h)
         {| dispatcher := {| coroutines := snd sent; closed := false |};
            result := result rt ctx |}
         (withCoroutines rt (callback_c rt h) ctx (snd sent) s))).
  { rewrite (callResultHandler_eq rt h r e ctx s Hc).
    fold resultChannel. fold sent. rewrite Hsent.
    apply executeDispatcher_open; [|reflexivity].
    unfold withCoroutines, setWorld. cbn -[insert lookup].
    rewrite Hopen. apply list_lookup_insert_eq. exact Hlen. }
  assert (Hout : out
    = (Val (Some (executeDecisions
                    (registerCalls rt (callback_c rt h) (calls p) (context s))),
            None),
       drained
         (pumped rt (callback_c rt h)
            {| dispatcher := {| coroutines := snd sent; closed := false |};
               result := result rt ctx |}
            (withCoroutines rt (callback_c rt h) ctx (snd sent) s)))).
  { unfold out.
    rewrite (terminal_event_resolves rt workflowDefinitionFactory event
               (scheduledEventID, activityID) h r e s Hterminal Hargs Hid Hh).
    unfold deliver. unfold bind at 1. rewrite Hcall.
    unfold bind at 1. rewrite swapExecuteDecisions_eq. reflexivity. }
  rewrite Hout. cbn [fst snd].
  split; [reflexivity|]. split; [reflexivity|].
  unfold drained, pumped, completionAfter, slotAfter, withCoroutines, setWorld.
  cbn -[insert lookup]. fold p. split; [|split; [|split]].
  - intros panicErr Hp. rewrite Hp. reflexivity.
  - intros returned_ Hp Hr. rewrite Hp, Hr. reflexivity.
  - intros before Hp Hr Hslot. rewrite Hp, Hr, Hslot. reflexivity.
  - intros Hp Hr Hslot. rewrite Hp, Hr, Hslot. cbn. apply app_nil_r.
Qed.

(** ** Generated activity ids over a history *)

Section GeneratedIdsOverTheHistory.

Variable rt : Runtime.
Variable workflowDefinitionFactory :
  m.WorkflowType -> option (workflowDefinition rt) * option Error.
Implicit Types s : St rt.

Local Abbreviation step := (processEvent rt workflowDefinitionFactory).
Local Abbreviation play := (replay rt workflowDefinitionFactory).
Local Abbreviation ran :=
  (Ran (callResultHandler rt) (Execute rt) (factory rt workflowDefinitionFactory)).
Local Abbreviation unanswered :=
  (Unanswered (callResultHandler rt) (Execute rt)
     (factory rt workflowDefinitionFactory)).






End GeneratedIdsOverTheHistory.


(** ** The two maps of the workflow context *)

Section Registrations.

Variable rt : Runtime.
Variable workflowDefinitionFactory :
  m.WorkflowType -> option (workflowDefinition rt) * option Error.
Implicit Types s : St rt.

Local Abbreviation step := (processEvent rt workflowDefinitionFactory).
Local Abbreviation play := (replay rt workflowDefinitionFactory).

Lemma registerCalls_keeps c made (wc : workflowContext (activityCallback rt)) id :
  is_Some (scheduledActivites wc !! id) ->
  is_Some (scheduledActivites (registerCalls rt c made wc) !! id).
Proof.
  revert wc. induction made as [|call made IH]; intros wc Hid; [exact Hid|].
  rewrite registerCalls_cons. apply IH. rewrite ExecuteActivity_eq.
  cbn [scheduledActivites].
  destruct (decide (activityIDOf (fst call) wc = id)) as [<-|Hne].
  - rewrite lookup_insert_eq. eauto.
  - rewrite lookup_insert_ne by exact Hne. exact Hid.
Qed.

Lemma Evolves_keeps_callbacks s b s' id :
  Evolves (callResultHandler rt) (Execute rt) (factory rt workflowDefinitionFactory)
    s b s' ->
  is_Some (scheduledActivites (context s) !! id) ->
  is_Some (scheduledActivites (context s') !! id).
Proof.
  intros Hev Hid.
  destruct (Evolves_adapter rt workflowDefinitionFactory s b s' Hev)
    as [->|[->|[(h & s1 & Hc & ->)|[(h & msg & Hc)|[(_ & made & ->)|(_ & made & d & input & ->)]]]]];
    try exact Hid.
  - inversion Hc; subst. cbn. apply registerCalls_keeps. exact Hid.
  - rewrite (Called_panic_context rt h s msg _ Hc). exact Hid.
  - rewrite Execute_eq. cbn. apply registerCalls_keeps. exact Hid.
Qed.

Lemma processEvent_keeps_callbacks event s id :
  is_Some (scheduledActivites (context s) !! id) ->
  is_Some (scheduledActivites (context (snd (step event s))) !! id).
Proof.
  intros Hid.
  destruct (ProcessEvent_evolves (callResultHandler rt) (Execute rt)
              (factory rt workflowDefinitionFactory) event s)
    as [(e & a & _ & _ & Hs)|Hev].
  - unfold processEvent. rewrite Hs. exact Hid.
  - eapply Evolves_keeps_callbacks; eassumption.
Qed.

Lemma processEvent_keeps_eventIDs event s eventID :
  is_Some (scheduledEventIDToActivityID (context s) !! eventID) ->
  is_Some (scheduledEventIDToActivityID (context (snd (step event s))) !! eventID).
Proof.
  intros Hid.
  destruct (ProcessEvent_evolves (callResultHandler rt) (Execute rt)
              (factory rt workflowDefinitionFactory) event s)
    as [(e & a & _ & _ & Hs)|Hev].
  - unfold processEvent. rewrite Hs. cbn.
    destruct (decide (m.HistoryEvent.EventId e = eventID)) as [<-|Hne].
    + rewrite lookup_insert_eq. eauto.
    + rewrite lookup_insert_ne by exact Hne. exact Hid.
  - unfold processEvent.
    rewrite (Evolves_eventIDs rt workflowDefinitionFactory s _ _ Hev). exact Hid.
Qed.

End Registrations.

(** X14: the handler never removes an entry of [scheduledActivites] or of
    [scheduledEventIDToActivityID]: an activity id that has a callback and
    an event id that has an activity id still have one after any further
    history, also once the callback was called or the workflow completed. *)
Theorem registrations_are_never_removed
    (rt : Runtime)
    (workflowDefinitionFactory :
       m.WorkflowType -> option (workflowDefinition rt) * option Error)
    (history : list (option m.HistoryEvent.t)) (s : St rt)
    (activityID : string) (eventID : Z) :
  let s' := snd (replay rt workflowDefinitionFactory history s) in
  (is_Some (scheduledActivites (context s) !! activityID) ->
   is_Some (scheduledActivites (context s') !! activityID))
  /\ (is_Some (scheduledEventIDToActivityID (context s) !! eventID) ->
      is_Some (scheduledEventIDToActivityID (context s') !! eventID)).
Proof.
  revert s. induction history as [|event history IH]; intros s; cbv zeta.
  - split; intros H; exact H.
  - rewrite replay_cons. cbn [snd].
    destruct (IH (snd (processEvent rt workflowDefinitionFactory event s)))
      as [IH1 IH2].
    split; intros H.
    + apply IH1. apply processEvent_keeps_callbacks. exact H.
    + apply IH2. apply processEvent_keeps_eventIDs. exact H.
Qed.

(** ** The reporter of the stress runs *)

Section ReporterProperties.

Import metrics.

Implicit Types (s : Reporting) (r : SimpleReporter).

Lemma wrap64_in_range (z : Z) : int64 z -> wrap64 z = z.
Proof.
  unfold int64, wrap64, MinInt64, MaxInt64. intros Hz.
  rewrite Z.mod_small by lia. lia.
Qed.

Lemma wrap64_int64 (z : Z) : int64 (wrap64 z).
Proof.
  unfold int64, wrap64, MinInt64, MaxInt64.
  pose proof (Z.mod_pos_bound (z + 2 ^ 63) (2 ^ 64) ltac:(lia)). lia.
Qed.

Lemma wrap64_add_l (a b : Z) : wrap64 (wrap64 a + b) = wrap64 (a + b).
Proof.
  unfold wrap64. f_equal.
  replace ((a + 2 ^ 63) mod 2 ^ 64 - 2 ^ 63 + b + 2 ^ 63)
    with ((a + 2 ^ 63) mod 2 ^ 64 + b) by lia.
  rewrite Zplus_mod_idemp_l. f_equal. lia.
Qed.

Lemma accumulated_cons name increment increments v :
  accumulated name (increment :: increments) v
  = accumulated name increments
      (if decide (fst increment = name) then add64 v (snd increment) else v).
Proof. reflexivity. Qed.

Lemma deltasOf_cons name increment increments :
  deltasOf name (increment :: increments)
  = (if decide (fst increment = name) then snd increment else 0)
    + deltasOf name increments.
Proof.
  unfold deltasOf. rewrite filter_cons.
  destruct (decide (fst increment = name)); reflexivity.
Qed.

Lemma accumulated_sum name increments : forall v,
  wrap64 (accumulated name increments v) = wrap64 (v + deltasOf name increments).
Proof.
  induction increments as [|increment increments IH]; intros v.
  - unfold deltasOf. cbn. rewrite Z.add_0_r. reflexivity.
  - rewrite accumulated_cons, IH, deltasOf_cons.
    destruct (decide (fst increment = name)).
    + unfold add64. rewrite wrap64_add_l. f_equal. lia.
    + f_equal.
Qed.

Lemma accumulated_int64 name increments : forall v,
  int64 v -> int64 (accumulated name increments v).
Proof.
  induction increments as [|increment increments IH]; intros v Hv; [exact Hv|].
  rewrite accumulated_cons. apply IH.
  destruct (decide (fst increment = name)); [apply wrap64_int64 | exact Hv].
Qed.

Lemma accumulated_eq name increments v :
  int64 v -> accumulated name increments v = wrap64 (v + deltasOf name increments).
Proof.
  intros Hv. rewrite <- accumulated_sum.
  symmetry. apply wrap64_in_range. apply accumulated_int64. exact Hv.
Qed.

Lemma isMetricName_false name :
  name <> WorkflowsStartTotalCounter ->
  name <> ActivitiesTotalCounter ->
  name <> DecisionsTotalCounter ->
  name <> WorkflowsCompletionTotalCounter ->
  name <> WorkflowEndToEndLatency ->
  name <> ActivityEndToEndLatency ->
  name <> DecisionsEndToEndLatency ->
  name <> DecisionsTimeoutCounter ->
  isMetricName name = false.
Proof.
  intros. apply bool_decide_eq_false. unfold metricNames.
  rewrite !elem_of_cons, elem_of_nil. tauto.
Qed.

(** One call of [IncCounter]: the counter of the name, if there is one,
    and otherwise a line of the logger. *)
Lemma IncCounter_step name tags delta s :
  let out := IncCounter name tags delta s in
  fst out = Val tt
  /\ counters (reporter (snd out))
     = zip_with (fun v n => if decide (name = n) then add64 v delta else v)
         (counters (reporter s)) metricNames
  /\ previousCounters (reporter (snd out)) = previousCounters (reporter s)
  /\ startTime (reporter (snd out)) = startTime (reporter s)
  /\ previousReportTime (reporter (snd out)) = previousReportTime (reporter s)
  /\ logger (snd out)
     = logger s
       ++ (if isMetricName name then []
           else [WithField_Error "name" name "Unknown metric"]).
Proof.
  cbv zeta. unfold IncCounter.
  destruct (String.eqb_spec name WorkflowsStartTotalCounter) as [->|H1];
    [cbn; rewrite app_nil_r; repeat split|].
  destruct (String.eqb_spec name ActivitiesTotalCounter) as [->|H2];
    [cbn; rewrite app_nil_r; repeat split|].
  destruct (String.eqb_spec name DecisionsTotalCounter) as [->|H3];
    [cbn; rewrite app_nil_r; repeat split|].
  destruct (String.eqb_spec name WorkflowsCompletionTotalCounter) as [->|H4];
    [cbn; rewrite app_nil_r; repeat split|].
  destruct (String.eqb_spec name WorkflowEndToEndLatency) as [->|H5];
    [cbn; rewrite app_nil_r; repeat split|].
  destruct (String.eqb_spec name ActivityEndToEndLatency) as [->|H6];
    [cbn; rewrite app_nil_r; repeat split|].
  destruct (String.eqb_spec name DecisionsEndToEndLatency) as [->|H7];
    [cbn; rewrite app_nil_r; repeat split|].
  destruct (String.eqb_spec name DecisionsTimeoutCounter) as [->|H8];
    [cbn; rewrite app_nil_r; repeat split|].
  rewrite isMetricName_false by assumption.
  cbn [log modify fst snd reporter logger counters zip_with metricNames].
  repeat case_decide; try congruence. repeat split.
Qed.

Lemma incCounters_cons increment increments :
  incCounters (increment :: increments)
  = (IncCounter (fst increment) None (snd increment) ;; incCounters increments).
Proof. reflexivity. Qed.

Lemma incCounters_steps increments : forall s,
  let out := incCounters increments s in
  fst out = Val tt
  /\ counters (reporter (snd out))
     = zip_with (fun v n => accumulated n increments v)
         (counters (reporter s)) metricNames
  /\ previousCounters (reporter (snd out)) = previousCounters (reporter s)
  /\ startTime (reporter (snd out)) = startTime (reporter s)
  /\ previousReportTime (reporter (snd out)) = previousReportTime (reporter s)
  /\ logger (snd out) = logger s ++ unknownMetrics increments.
Proof.
  induction increments as [|increment increments IH]; intros s; cbv zeta.
  - cbn. rewrite app_nil_r. repeat split.
  - rewrite incCounters_cons. unfold bind.
    destruct (IncCounter_step (fst increment) None (snd increment) s)
      as (Hout & Hcounters & Hprevious & Hstart & Hreport & Hlogger).
    destruct (IncCounter (fst increment) None (snd increment) s) as [out s1].
    cbn [fst snd] in *. subst out.
    destruct (IH s1) as (Hout' & Hcounters' & Hprevious' & Hstart' & Hreport' & Hlogger').
    split; [exact Hout'|]. split.
    { rewrite Hcounters', Hcounters. cbn [counters zip_with metricNames].
      reflexivity. }
    split; [congruence|]. split; [congruence|]. split; [congruence|].
    rewrite Hlogger', Hlogger, <- app_assoc. f_equal.
    unfold unknownMetrics. rewrite filter_cons.
    destruct (isMetricName (fst increment)); case_decide; try congruence;
      reflexivity.
Qed.

End ReporterProperties.

(** X15: after any calls of [IncCounter] each of the eight counters holds what
    it held before plus the sum of the increments made under its name, with
    the wrap-around of [int64]; nothing else of the reporter changes, and
    each call under another name is answered with one line of the logger. *)
Theorem IncCounter_adds_up_by_name
    (s : metrics.Reporting) (increments : list (string * Z)) :
  Forall metrics.int64 (metrics.counters (metrics.reporter s)) ->
  let r := metrics.reporter s in
  let out := metrics.incCounters increments s in
  let r' := metrics.reporter (snd out) in
  let sum name v := metrics.wrap64 (v + metrics.deltasOf name increments) in
  fst out = Val tt
  /\ metrics.workflowsStartCount r'
     = sum metrics.WorkflowsStartTotalCounter (metrics.workflowsStartCount r)
  /\ metrics.activitiesTotalCount r'
     = sum metrics.ActivitiesTotalCounter (metrics.activitiesTotalCount r)
  /\ metrics.decisionsTotalCount r'
     = sum metrics.DecisionsTotalCounter (metrics.decisionsTotalCount r)
  /\ metrics.decisionsTimeoutCount r'
     = sum metrics.DecisionsTimeoutCounter (metrics.decisionsTimeoutCount r)
  /\ metrics.workflowsCompletionCount r'
     = sum metrics.WorkflowsCompletionTotalCounter (metrics.workflowsCompletionCount r)
  /\ metrics.workflowsEndToEndLatency r'
     = sum metrics.WorkflowEndToEndLatency (metrics.workflowsEndToEndLatency r)
  /\ metrics.activitiesEndToEndLatency r'
     = sum metrics.ActivityEndToEndLatency (metrics.activitiesEndToEndLatency r)
  /\ metrics.decisionsEndToEndLatency r'
     = sum metrics.DecisionsEndToEndLatency (metrics.decisionsEndToEndLatency r)
  /\ metrics.startTime r' = metrics.startTime r
  /\ metrics.previousReportTime r' = metrics.previousReportTime r
  /\ metrics.previousCounters r' = metrics.previousCounters r
  /\ metrics.logger (snd out) = metrics.logger s ++ metrics.unknownMetrics increments.
Proof.
  intros Hrange r out r' sum.
  destruct (incCounters_steps increments s)
    as (Hout & Hcounters & Hprevious & Hstart & Hreport & Hlogger).
  fold out in Hout, Hcounters, Hprevious, Hstart, Hreport, Hlogger.
  fold r' in Hcounters, Hprevious, Hstart, Hreport. fold r in Hcounters, Hprevious, Hstart, Hreport.
  unfold metrics.counters in Hcounters, Hrange. fold r in Hrange.
  cbn [zip_with metrics.metricNames] in Hcounters.
  injection Hcounters as H1 H2 H3 H4 H5 H6 H7 H8.
  repeat match goal with
         | H : Forall _ (_ :: _) |- _ => apply Forall_cons in H; destruct H as [? H]
         end.
  unfold sum.
  rewrite <- !accumulated_eq by assumption.
  repeat split; assumption.
Qed.

Section TimerProperties.

Import metrics.

Implicit Types (s : Reporting) (r : SimpleReporter).

Ltac addInt64 :=
  unfold modifyReporter, modify;
  repeat first
    [ progress unfold AddInt64_workflowsStartCount
    | progress unfold AddInt64_activitiesTotalCount
    | progress unfold AddInt64_decisionsTotalCount
    | progress unfold AddInt64_decisionsTimeoutCount
    | progress unfold AddInt64_workflowsCompletionCount
    | progress unfold AddInt64_workflowsEndToEndLatency
    | progress unfold AddInt64_activitiesEndToEndLatency
    | progress unfold AddInt64_decisionsEndToEndLatency ];
  cbn -[add64].

Lemma Reporting_eta s : {| reporter := reporter s; logger := logger s |} = s.
Proof. destruct s; reflexivity. Qed.

Lemma add64_0 v : int64 v -> add64 v 0 = v.
Proof. intros Hv. unfold add64. rewrite Z.add_0_r. apply wrap64_in_range, Hv. Qed.

(** An increment of zero under the name of a counter changes nothing. *)
Lemma IncCounter_zero name tags s :
  Forall int64 (counters (reporter s)) ->
  isMetricName name = true ->
  IncCounter name tags 0 s = (Val tt, s).
Proof.
  intros Hrange Hname.
  destruct s as [r l]. destruct r. unfold counters in Hrange. cbn in Hrange.
  repeat match goal with
         | H : Forall _ (_ :: _) |- _ => apply Forall_cons in H; destruct H as [? H]
         end.
  unfold IncCounter.
  repeat match goal with
         | |- context [String.eqb name ?c] =>
             destruct (String.eqb_spec name c) as [->|?]
         end;
    try (addInt64; rewrite add64_0 by assumption;
         reflexivity).
  rewrite isMetricName_false in Hname by assumption. discriminate.
Qed.

Lemma quot_under (d unit : Z) : - unit < d < unit -> Z.quot d unit = 0.
Proof.
  intros Hd. destruct (Z.le_gt_cases 0 d).
  - apply Z.quot_small. lia.
  - rewrite <- (Z.opp_involutive d), Z.quot_opp_l by lia.
    rewrite Z.quot_small by lia. reflexivity.
Qed.

Lemma quot64_in_range (d unit : Z) : int64 d -> 0 < unit -> quot64 d unit = Z.quot d unit.
Proof.
  intros Hd Hunit. unfold quot64. apply wrap64_in_range.
  unfold int64, MinInt64, MaxInt64 in *.
  destruct (Z.le_gt_cases 0 d).
  - pose proof (Z.quot_pos d unit ltac:(lia) ltac:(lia)).
    pose proof (Z.quot_le_upper_bound d unit d ltac:(lia)) as Hle.
    assert (d <= unit * d) by nia. lia.
  - assert (Hq : Z.quot d unit = - Z.quot (- d) unit).
    { rewrite Z.quot_opp_l by lia. lia. }
    pose proof (Z.quot_pos (- d) unit ltac:(lia) ltac:(lia)).
    pose proof (Z.quot_le_upper_bound (- d) unit (- d) ltac:(lia)) as Hle.
    assert (- d <= unit * - d) by nia. lia.
Qed.

Lemma Sub_int64 (t u : Time) : int64 (Sub t u).
Proof. unfold Sub, int64, MinInt64, MaxInt64. lia. Qed.

End TimerProperties.

(** [RecordTimer] is [IncCounter] with the whole milliseconds. *)
Lemma RecordTimer_eq
    (name : string) (tags : option (gmap string string)) (d : Z)
    (s : metrics.Reporting) :
  metrics.int64 d ->
  metrics.RecordTimer name tags d s
  = metrics.IncCounter name tags (Z.quot d metrics.Millisecond) s.
Proof.
  intros Hd. unfold metrics.RecordTimer. cbv zeta.
  rewrite quot64_in_range by (assumption || reflexivity). reflexivity.
Qed.

Lemma RecordTimer_under_a_millisecond
    (name : string) (tags : option (gmap string string)) (d : Z)
    (s : metrics.Reporting) :
  - metrics.Millisecond < d < metrics.Millisecond ->
  Forall metrics.int64 (metrics.counters (metrics.reporter s)) ->
  metrics.isMetricName name = true ->
  metrics.RecordTimer name tags d s = (Val tt, s).
Proof.
  intros Hunder Hrange Hname.
  rewrite RecordTimer_eq
    by (unfold metrics.int64, metrics.MinInt64, metrics.MaxInt64,
          metrics.Millisecond in *; lia).
  rewrite (quot_under d metrics.Millisecond) by exact Hunder.
  apply IncCounter_zero; assumption.
Qed.

(** X16: [RecordTimer] adds the whole milliseconds of the duration, the
    quotient truncated towards zero, to the counter of the name; so a
    duration under a millisecond, recorded under the name of a counter,
    leaves the reporter as it was. *)
Theorem RecordTimer_counts_whole_milliseconds
    (name : string) (tags : option (gmap string string)) (d : Z)
    (s : metrics.Reporting) :
  metrics.int64 d ->
  metrics.RecordTimer name tags d s
  = metrics.IncCounter name tags (Z.quot d metrics.Millisecond) s
  /\ (- metrics.Millisecond < d < metrics.Millisecond ->
      Forall metrics.int64 (metrics.counters (metrics.reporter s)) ->
      metrics.isMetricName name = true ->
      metrics.RecordTimer name tags d s = (Val tt, s)).
Proof.
  intros Hd. split; [apply RecordTimer_eq; exact Hd|].
  apply RecordTimer_under_a_millisecond.
Qed.

(** X17: a stopwatch of [StartTimer], stopped, does what [RecordTimer] does
    with the time since it was started, and returns that time; stopped less
    than a millisecond after its start, it adds nothing to its counter. *)
Theorem Stop_records_the_time_since_StartTimer
    (name : string) (tags : option (gmap string string)) (t0 t1 : metrics.Time)
    (s : metrics.Reporting) :
  let w := metrics.StartTimer t0 name tags in
  let out := metrics.Stop t1 w s in
  snd out = snd (metrics.RecordTimer name None (metrics.Sub t1 t0) s)
  /\ (exists w', fst out = Val (metrics.Sub t1 t0, w')
                 /\ metrics.simpleStopWatch.elasped w' = metrics.Sub t1 t0)
  /\ (0 <= t1 - t0 < metrics.Millisecond ->
      Forall metrics.int64 (metrics.counters (metrics.reporter s)) ->
      metrics.isMetricName name = true ->
      snd out = s).
Proof.
  intros w out.
  assert (Hstep : out
                  = (metrics.IncCounter name None
                       (metrics.quot64 (metrics.Sub t1 t0) metrics.Millisecond) ;;
                     ret (metrics.Sub t1 t0,
                          {| metrics.simpleStopWatch.metricName := name;
                             metrics.simpleStopWatch.startTime := t0;
                             metrics.simpleStopWatch.elasped := metrics.Sub t1 t0 |})) s)
    by reflexivity.
  destruct (IncCounter_step name None
              (metrics.quot64 (metrics.Sub t1 t0) metrics.Millisecond) s)
    as (Hval & _).
  unfold bind in Hstep.
  destruct (metrics.IncCounter name None _ s) as [v s1] eqn:Hinc.
  cbn [fst] in Hval. subst v.
  assert (Hsnd : snd out = snd (metrics.RecordTimer name None (metrics.Sub t1 t0) s)).
  { rewrite Hstep. unfold metrics.RecordTimer. cbv zeta. rewrite Hinc. reflexivity. }
  split; [exact Hsnd|]. split.
  { rewrite Hstep. eexists. split; reflexivity. }
  intros Hunder Hrange Hname. rewrite Hsnd.
  assert (Hsub : metrics.Sub t1 t0 = t1 - t0).
  { unfold metrics.Sub, metrics.MinInt64, metrics.MaxInt64, metrics.Millisecond in *.
    lia. }
  rewrite RecordTimer_under_a_millisecond;
    [reflexivity | unfold metrics.Millisecond in *; lia | assumption | assumption].
Qed.

Section ReportProperties.

Import metrics.

Implicit Types (s : Reporting) (r : SimpleReporter).

(** A division behind a guard that keeps the divisor away from zero. *)
Lemma guarded_div64 {S A} (guard : bool) (a b otherwise : Z)
    (k : Z -> M S A) (s : S) :
  (guard = true -> b <> 0) ->
  ((x <- (if guard then div64 a b else ret otherwise) ;; k x) s)
  = k (if guard then quot64 a b else otherwise) s.
Proof.
  intros Hb. unfold bind. destruct guard; [|reflexivity].
  unfold div64. destruct (Z.eqb_spec b 0) as [Hz|_]; [|reflexivity].
  exfalso. apply Hb; [reflexivity | exact Hz].
Qed.

Lemma positive_guard (x : Z) (rest : bool) :
  (x >? 0)%Z && rest = true -> x <> 0.
Proof.
  intros H. apply andb_prop in H. destruct H as [H _].
  rewrite Z.gtb_ltb in H. apply Z.ltb_lt in H. lia.
Qed.

Lemma gtb_irrefl (x : Z) : (x >? x)%Z = false.
Proof. rewrite Z.gtb_ltb. apply Z.ltb_irrefl. Qed.

End ReportProperties.

(** What a report of [PrintStressMetric] leaves. *)
Lemma PrintStressMetric_leaves (currentTime : metrics.Time) (s : metrics.Reporting) :
  exists lines,
    snd (metrics.PrintStressMetric currentTime s)
    = {| metrics.reporter := metrics.reported currentTime (metrics.reporter s);
         metrics.logger := metrics.logger s ++ lines |}.
Proof.
  unfold metrics.PrintStressMetric.
  unfold bind at 1. unfold gets at 1. cbv zeta.
  repeat (rewrite guarded_div64 by apply positive_guard).
  unfold bind, metrics.log, metrics.modifyReporter, modify.
  cbn [metrics.reporter metrics.logger snd].
  rewrite <- !app_assoc. eexists. reflexivity.
Qed.

(** X18: [PrintStressMetric] never panics, every division of it being behind
    a guard on its divisor.  It writes four lines, with the counts as they
    are, and takes the counts and the time as the previous ones; the average
    latency on the line of the decisions is always [0]. *)
Theorem PrintStressMetric_writes_four_lines
    (currentTime : metrics.Time) (s : metrics.Reporting) :
  let r := metrics.reporter s in
  exists creationThroughput completionThroughput latency
         activitiesThroughput activityLatency decisionsThroughput,
    metrics.PrintStressMetric currentTime s
    = (Val tt,
       {| metrics.reporter := metrics.reported currentTime r;
          metrics.logger :=
            metrics.logger s
            ++ [metrics.Infof "Workflows Started(Count=%v, Throughput=%v)"
                  [metrics.Int64Value (metrics.workflowsStartCount r);
                   metrics.Int64Value creationThroughput];
                metrics.Infof
                  "Workflows Completed(Count=%v, Throughput=%v, Average Latency: %v)"
                  [metrics.Int64Value (metrics.workflowsCompletionCount r);
                   metrics.Int64Value completionThroughput;
                   metrics.Int64Value latency];
                metrics.Infof
                  "Activites(Count=%v, Throughput=%v, Average Latency: %v)"
                  [metrics.Int64Value (metrics.activitiesTotalCount r);
                   metrics.Int64Value activitiesThroughput;
                   metrics.Int64Value activityLatency];
                metrics.Infof
                  "Decisions(Count=%v, Throughput=%v, Average Latency: %v, TimeoutCount=%v)"
                  [metrics.Int64Value (metrics.decisionsTotalCount r);
                   metrics.Int64Value decisionsThroughput;
                   metrics.Int64Value 0;
                   metrics.Int64Value (metrics.decisionsTimeoutCount r)]] |}).
Proof.
  intros r. unfold metrics.PrintStressMetric.
  unfold bind at 1. unfold gets at 1. cbv zeta. fold r.
  repeat (rewrite guarded_div64 by apply positive_guard).
  unfold bind, metrics.log, metrics.modifyReporter, modify.
  cbn [metrics.reporter metrics.logger]. fold r.
  rewrite <- !app_assoc. cbn [app].
  eexists _, _, _, _, _, _. reflexivity.
Qed.

(** X19: the throughputs of [PrintStressMetric] are counted per whole second
    since the previous report: in the first report of a reporter, and in a
    report less than a second after the previous one, all four are [0],
    whatever was counted. *)
Theorem PrintStressMetric_needs_a_second_for_a_throughput
    (currentTime : metrics.Time) (s : metrics.Reporting) :
  let r := metrics.reporter s in
  metrics.previousReportTime r = 0
  \/ - metrics.Second < currentTime - metrics.previousReportTime r < metrics.Second ->
  exists latency activityLatency,
    metrics.PrintStressMetric currentTime s
    = (Val tt,
       {| metrics.reporter := metrics.reported currentTime r;
          metrics.logger :=
            metrics.logger s
            ++ [metrics.Infof "Workflows Started(Count=%v, Throughput=%v)"
                  [metrics.Int64Value (metrics.workflowsStartCount r);
                   metrics.Int64Value 0];
                metrics.Infof
                  "Workflows Completed(Count=%v, Throughput=%v, Average Latency: %v)"
                  [metrics.Int64Value (metrics.workflowsCompletionCount r);
                   metrics.Int64Value 0;
                   metrics.Int64Value latency];
                metrics.Infof
                  "Activites(Count=%v, Throughput=%v, Average Latency: %v)"
                  [metrics.Int64Value (metrics.activitiesTotalCount r);
                   metrics.Int64Value 0;
                   metrics.Int64Value activityLatency];
                metrics.Infof
                  "Decisions(Count=%v, Throughput=%v, Average Latency: %v, TimeoutCount=%v)"
                  [metrics.Int64Value (metrics.decisionsTotalCount r);
                   metrics.Int64Value 0;
                   metrics.Int64Value 0;
                   metrics.Int64Value (metrics.decisionsTimeoutCount r)]] |}).
Proof.
  intros r Hearly.
  assert (Helapsed :
    (if negb (metrics.IsZero (metrics.previousReportTime r))
     then metrics.quot64
            (metrics.Sub currentTime (metrics.previousReportTime r)) metrics.Second
     else 0) = 0).
  { unfold metrics.IsZero.
    destruct (Z.eqb_spec (metrics.previousReportTime r) 0) as [Hz|Hnz];
      [reflexivity|].
    destruct Hearly as [Hz|Hnear]; [contradiction|]. cbn [negb].
    assert (Hsub : metrics.Sub currentTime (metrics.previousReportTime r)
                   = currentTime - metrics.previousReportTime r).
    { unfold metrics.Sub, metrics.MinInt64, metrics.MaxInt64, metrics.Second in *.
      lia. }
    rewrite Hsub. unfold metrics.quot64. rewrite quot_under by lia. reflexivity. }
  unfold metrics.PrintStressMetric.
  unfold bind at 1. unfold gets at 1. cbv zeta. fold r. rewrite Helapsed.
  repeat (rewrite guarded_div64 by apply positive_guard).
  unfold bind, metrics.log, metrics.modifyReporter, modify.
  cbn [metrics.reporter metrics.logger]. fold r.
  rewrite <- !app_assoc. cbn [app].
  change (0 >? 0)%Z with false. cbn [andb].
  eexists _, _. reflexivity.
Qed.

(** X20: a second report with nothing counted since the first one prints the
    counts with a throughput and an average latency of [0] on every line, at
    whatever time it is made. *)
Theorem PrintStressMetric_twice_reports_nothing_new
    (t1 t2 : metrics.Time) (s : metrics.Reporting) :
  let r := metrics.reporter s in
  exists first,
    snd (metrics.PrintStressMetric t1 s)
    = {| metrics.reporter := metrics.reported t1 r;
         metrics.logger := metrics.logger s ++ first |}
    /\ metrics.PrintStressMetric t2 (snd (metrics.PrintStressMetric t1 s))
       = (Val tt,
          {| metrics.reporter := metrics.reported t2 r;
             metrics.logger :=
               (metrics.logger s ++ first)
               ++ [metrics.Infof "Workflows Started(Count=%v, Throughput=%v)"
                     [metrics.Int64Value (metrics.workflowsStartCount r);
                      metrics.Int64Value 0];
                   metrics.Infof
                     "Workflows Completed(Count=%v, Throughput=%v, Average Latency: %v)"
                     [metrics.Int64Value (metrics.workflowsCompletionCount r);
                      metrics.Int64Value 0;
                      metrics.Int64Value 0];
                   metrics.Infof
                     "Activites(Count=%v, Throughput=%v, Average Latency: %v)"
                     [metrics.Int64Value (metrics.activitiesTotalCount r);
                      metrics.Int64Value 0;
                      metrics.Int64Value 0];
                   metrics.Infof
                     "Decisions(Count=%v, Throughput=%v, Average Latency: %v, TimeoutCount=%v)"
                     [metrics.Int64Value (metrics.decisionsTotalCount r);
                      metrics.Int64Value 0;
                      metrics.Int64Value 0;
                      metrics.Int64Value (metrics.decisionsTimeoutCount r)]] |}).
Proof.
  intros r.
  destruct (PrintStressMetric_leaves t1 s) as (first & Hfirst).
  fold r in Hfirst. rewrite Hfirst.
  exists first. split; [reflexivity|].
  unfold metrics.PrintStressMetric.
  unfold bind at 1. unfold gets at 1. cbv zeta.
  cbn [metrics.reporter].
  repeat (rewrite guarded_div64 by apply positive_guard).
  unfold metrics.reported.
  cbn [metrics.workflowsStartCount metrics.previousWorkflowsStartCount
       metrics.activitiesTotalCount metrics.previousActivitiesTotalCount
       metrics.decisionsTotalCount metrics.previousDecisionsTotalCount
       metrics.decisionsTimeoutCount
       metrics.workflowsCompletionCount metrics.previousWorkflowsCompletionCount
       metrics.workflowsEndToEndLatency metrics.previousWorkflowsEndToEndLatency
       metrics.activitiesEndToEndLatency metrics.previousActivitiesEndToEndLatency
       metrics.decisionsEndToEndLatency metrics.previousDecisionsEndToEndLatency
       metrics.previousReportTime metrics.startTime].
  rewrite !gtb_irrefl, !andb_false_r.
  unfold bind, metrics.log, metrics.modifyReporter, modify.
  cbn [metrics.reporter metrics.logger].
  rewrite <- !app_assoc. cbn [app]. reflexivity.
Qed.

Section FinalReport.

Import metrics.

Implicit Types (s : Reporting) (r : SimpleReporter).

Lemma div64_by_zero {S} (a : Z) (s : S) : div64 a 0 s = (Panicked divideByZero, s).
Proof. reflexivity. Qed.

Lemma div64_nonzero {S} (a b : Z) (s : S) : b <> 0 -> div64 a b s = (Val (quot64 a b), s).
Proof.
  intros Hb. unfold div64. destruct (Z.eqb_spec b 0); [contradiction | reflexivity].
Qed.

Lemma gtb_true (x : Z) : (x >? 0)%Z = true <-> 0 < x.
Proof. rewrite Z.gtb_ltb. apply Z.ltb_lt. Qed.

Lemma gtb_false (x : Z) : (x >? 0)%Z = false <-> x <= 0.
Proof. rewrite Z.gtb_ltb. apply Z.ltb_ge. Qed.

(** The throughput and the latency of one kind in the final report. *)
Lemma final_pair {S A} (count total elapsed : Z)
    (k : Z * Z -> M S A) (s : S) :
  ((pair <- (if (count >? 0)%Z then
               throughput <- div64 count elapsed ;;
               latency <- div64 total count ;;
               ret (throughput, latency)
             else ret (0, 0)) ;; k pair) s)
  = if (count >? 0)%Z then
      if (elapsed =? 0)%Z then (Panicked divideByZero, s)
      else k (quot64 count elapsed, quot64 total count) s
    else k (0, 0) s.
Proof.
  unfold bind. destruct (count >? 0)%Z eqn:Hcount; [|reflexivity].
  apply gtb_true in Hcount.
  destruct (Z.eqb_spec elapsed 0) as [->|Hnz]; [reflexivity|].
  rewrite (div64_nonzero count elapsed) by assumption.
  rewrite (div64_nonzero total count) by lia. reflexivity.
Qed.

End FinalReport.

(** X21: [PrintFinalMetric] divides the counts by the whole seconds since the
    reporter was made.  When that is [0] and workflows were completed, or
    activities or decisions counted, it panics with a division by zero and
    writes nothing; otherwise it writes three lines.  It never changes the
    reporter. *)
Theorem PrintFinalMetric_panics_within_the_first_second
    (now : metrics.Time) (s : metrics.Reporting) :
  let r := metrics.reporter s in
  let elapsed := metrics.quot64 (metrics.Sub now (metrics.startTime r)) metrics.Second in
  let counted :=
    0 < metrics.workflowsCompletionCount r
    \/ 0 < metrics.activitiesTotalCount r
    \/ 0 < metrics.decisionsTotalCount r in
  (elapsed = 0 -> counted ->
   metrics.PrintFinalMetric now s = (Panicked metrics.divideByZero, s))
  /\ (elapsed <> 0 \/ ~ counted ->
      exists line1 line2 line3,
        metrics.PrintFinalMetric now s
        = (Val tt,
           {| metrics.reporter := r;
              metrics.logger := metrics.logger s ++ [line1; line2; line3] |})).
Proof.
  intros r elapsed counted. split.
  - intros Hz Hcounted. unfold metrics.PrintFinalMetric.
    unfold bind at 1. unfold gets at 1. cbv zeta. fold r. fold elapsed.
    rewrite !final_pair. rewrite Hz. cbn [Z.eqb].
    destruct (metrics.workflowsCompletionCount r >? 0)%Z eqn:H1; [reflexivity|].
    destruct (metrics.activitiesTotalCount r >? 0)%Z eqn:H2; [reflexivity|].
    destruct (metrics.decisionsTotalCount r >? 0)%Z eqn:H3; [reflexivity|].
    apply gtb_false in H1, H2, H3. unfold counted in Hcounted. lia.
  - intros Hfine.
    assert (Hguard : forall count,
      (0 < count -> counted) ->
      (count >? 0)%Z = true -> (elapsed =? 0)%Z = false).
    { intros count Hc Hcount. apply gtb_true in Hcount. apply Z.eqb_neq.
      destruct Hfine as [Hnz|Hnone]; [exact Hnz|]. exfalso. apply Hnone.
      apply Hc. exact Hcount. }
    pose proof (Hguard (metrics.workflowsCompletionCount r)
                  ltac:(unfold counted; tauto)) as G1.
    pose proof (Hguard (metrics.activitiesTotalCount r)
                  ltac:(unfold counted; tauto)) as G2.
    pose proof (Hguard (metrics.decisionsTotalCount r)
                  ltac:(unfold counted; tauto)) as G3.
    unfold metrics.PrintFinalMetric.
    unfold bind at 1. unfold gets at 1. cbv zeta. fold r. fold elapsed.
    rewrite !final_pair.
    destruct (metrics.workflowsCompletionCount r >? 0)%Z eqn:E1;
      [rewrite ?(G1 eq_refl)|];
      (destruct (metrics.activitiesTotalCount r >? 0)%Z eqn:E2;
       [rewrite ?(G2 eq_refl)|]);
      (destruct (metrics.decisionsTotalCount r >? 0)%Z eqn:E3;
       [rewrite ?(G3 eq_refl)|]);
      unfold bind, metrics.log, modify; cbn [metrics.reporter metrics.logger];
      fold r; rewrite <- !app_assoc; cbn [app];
      eexists _, _, _; reflexivity.
Qed.

(** X22: with nothing counted, in a reporter just made by [NewSimpleReporter]
    or just reset by [ResetMetric], the process is not complete and the
    final report divides nothing: at any time, the first second included, it
    writes its three lines with counts, throughputs and latencies of [0].
    [ResetMetric] sets six of the eight counters to [0]: the workflows
    started and completed, the activities, the decisions and their
    time-outs, and the latency sum of the workflows.  It keeps the latency
    sums of the activities and of the decisions, the start time, and the
    counts and the time of the previous report. *)
Theorem nothing_counted_reports_zero
    (start now : metrics.Time) (r : metrics.SimpleReporter)
    (written : list metrics.LogEntry) :
  let zero :=
    [metrics.Infof
       "Total Workflows processed:(Started=%v, Completed=%v), Throughput: %v, Average Latency: %v"
       [metrics.Int64Value 0; metrics.Int64Value 0; metrics.Int64Value 0;
        metrics.DurationValue 0];
     metrics.Infof
       "Total Activites processed:(Count=%v, Throughput=%v, Average Latency=%v)"
       [metrics.Int64Value 0; metrics.Int64Value 0; metrics.Int64Value 0];
     metrics.Infof
       "Total Decisions processed:(Count=%v, Throughput=%v, Average Latency=%v, TimeoutCount=%v)"
       [metrics.Int64Value 0; metrics.Int64Value 0; metrics.Int64Value 0;
        metrics.Int64Value 0]] in
  let nothingCounted r0 :=
    metrics.IsProcessComplete r0 = false
    /\ metrics.PrintFinalMetric now
         {| metrics.reporter := r0; metrics.logger := written |}
       = (Val tt, {| metrics.reporter := r0; metrics.logger := written ++ zero |}) in
  nothingCounted (metrics.NewSimpleReporter start)
  /\ nothingCounted (metrics.ResetMetric r)
  /\ metrics.workflowsStartCount (metrics.ResetMetric r) = 0
  /\ metrics.workflowsCompletionCount (metrics.ResetMetric r) = 0
  /\ metrics.activitiesTotalCount (metrics.ResetMetric r) = 0
  /\ metrics.decisionsTotalCount (metrics.ResetMetric r) = 0
  /\ metrics.workflowsEndToEndLatency (metrics.ResetMetric r) = 0
  /\ metrics.decisionsTimeoutCount (metrics.ResetMetric r) = 0
  /\ metrics.activitiesEndToEndLatency (metrics.ResetMetric r)
     = metrics.activitiesEndToEndLatency r
  /\ metrics.decisionsEndToEndLatency (metrics.ResetMetric r)
     = metrics.decisionsEndToEndLatency r
  /\ metrics.startTime (metrics.ResetMetric r) = metrics.startTime r
  /\ metrics.previousCounters (metrics.ResetMetric r) = metrics.previousCounters r
  /\ metrics.previousReportTime (metrics.ResetMetric r) = metrics.previousReportTime r.
Proof.
  intros zero nothingCounted.
  assert (Hzero : forall r0,
    r0 = metrics.NewSimpleReporter start \/ r0 = metrics.ResetMetric r ->
    nothingCounted r0).
  { intros r0 [->| ->]; (split; [reflexivity|]);
      unfold metrics.PrintFinalMetric, bind, gets, metrics.log, modify;
      cbn -[metrics.quot64 metrics.Sub]; rewrite <- !app_assoc; reflexivity. }
  split; [apply Hzero; left; reflexivity|].
  split; [apply Hzero; right; reflexivity|].
  repeat split.
Qed.

(** X23: whether the process is complete depends on the sums of the
    increments made under the names of the started and of the completed
    workflows only, in whatever order they were made: on a new reporter,
    [IsProcessComplete] holds exactly when the two sums, with the
    wrap-around of [int64], are equal and positive. *)
Theorem IsProcessComplete_compares_the_sums
    (start : metrics.Time) (written : list metrics.LogEntry)
    (increments : list (string * Z)) :
  let s := {| metrics.reporter := metrics.NewSimpleReporter start;
              metrics.logger := written |} in
  let started :=
    metrics.wrap64 (metrics.deltasOf metrics.WorkflowsStartTotalCounter increments) in
  let completed :=
    metrics.wrap64
      (metrics.deltasOf metrics.WorkflowsCompletionTotalCounter increments) in
  metrics.IsProcessComplete (metrics.reporter (snd (metrics.incCounters increments s)))
  = true
  <-> 0 < started /\ started = completed.
Proof.
  intros s started completed.
  destruct (incCounters_steps increments s) as (_ & Hcounters & _).
  unfold metrics.counters in Hcounters.
  cbn [zip_with metrics.metricNames] in Hcounters.
  injection Hcounters as H1 _ _ _ H5 _ _ _.
  rewrite accumulated_eq in H1, H5
    by (cbn; unfold metrics.int64, metrics.MinInt64, metrics.MaxInt64; lia).
  cbn [s metrics.reporter metrics.NewSimpleReporter metrics.workflowsStartCount
       metrics.workflowsCompletionCount] in H1, H5.
  rewrite Z.add_0_l in H1, H5.
  unfold metrics.IsProcessComplete. cbv zeta. rewrite H1, H5.
  fold started. fold completed.
  rewrite andb_true_iff, gtb_true, Z.eqb_eq. reflexivity.
Qed.

(** ** The further properties at sample inputs *)

Lemma events_without_operation_witness :
  let history := [Some (Samples.event 3 m.EventType_DecisionTaskScheduled);
                  Some (Samples.event 4 m.EventType_DecisionTaskStarted)] in
  forallb isNoOperation history = true
  /\ replay Script.runtime (Samples.factoryOf Script.runtime Samples.oneActivity)
       history Samples.awaiting
     = ([Val (None, None); Val (None, None)], Samples.awaiting).
Proof.
  intros history. split; [reflexivity|]. unfold replay.
  apply (events_without_operation_change_nothing
           (callResultHandler Script.runtime) (Execute Script.runtime)
           (factory Script.runtime
              (Samples.factoryOf Script.runtime Samples.oneActivity))
           history Samples.awaiting).
  reflexivity.
Defined.

(** An event id that was scheduled for an activity the workflow never
    asked for. *)
Lemma terminal_event_without_a_callback_witness :
  let s := snd (replay Script.runtime
                  (Samples.factoryOf Script.runtime Samples.oneActivity)
                  [Some (Samples.scheduled 5 "0")]
                  (newHandler Script.runtime Samples.info 0)) in
  terminalScheduledEventId (Samples.completed 7 5 Samples.y) = Some 5
  /\ scheduledEventIDToActivityID (context s) !! 5 = Some "0"
  /\ scheduledActivites (context s) !! "0" = None
  /\ exists rest args,
       processEvent Script.runtime
         (Samples.factoryOf Script.runtime Samples.oneActivity)
         (Some (Samples.completed 7 5 Samples.y)) s
       = (Val (None,
               Some (Errorf ("unable to find callback handler for the event: %v"
                             ++ rest) args)),
          s).
Proof.
  intros s.
  assert (H1 : scheduledEventIDToActivityID (context s) !! 5 = Some "0")
    by (vm_compute; reflexivity).
  assert (H2 : scheduledActivites (context s) !! "0" = None)
    by (vm_compute; reflexivity).
  split; [reflexivity|]. split; [exact H1|]. split; [exact H2|].
  unfold processEvent.
  exact (terminal_event_without_a_callback_is_an_error
           (callResultHandler Script.runtime) (Execute Script.runtime)
           (factory Script.runtime
              (Samples.factoryOf Script.runtime Samples.oneActivity))
           (Samples.completed 7 5 Samples.y) 5 "0" s eq_refl H1 H2).
Defined.

(** A failure without a reason, for an activity scheduled with a nil
    callback. *)
Lemma nil_callback_witness :
  let s0 := newHandler Script.runtime Samples.info 0 in
  let s := setContext
             (recordScheduledEvent 5 "0"
                (ExecuteActivity (Samples.request Samples.x) None (context s0)))
             s0 in
  terminalScheduledEventId (Samples.failed 7 5 None []) = Some 5
  /\ scheduledEventIDToActivityID (context s) !! 5 = Some "0"
  /\ scheduledActivites (context s) !! "0" = Some None
  /\ processEvent Script.runtime
       (Samples.factoryOf Script.runtime Samples.oneActivity)
       (Some (Samples.failed 7 5 None [])) s
     = (Val (Some [scheduleDecision "0" (Samples.request Samples.x)], None),
        drained s).
Proof.
  intros s0 s.
  assert (H1 : scheduledEventIDToActivityID (context s) !! 5 = Some "0")
    by (vm_compute; reflexivity).
  assert (H2 : scheduledActivites (context s) !! "0" = Some None)
    by (vm_compute; reflexivity).
  split; [reflexivity|]. split; [exact H1|]. split; [exact H2|].
  unfold processEvent.
  exact (nil_callback_is_skipped
           (callResultHandler Script.runtime) (Execute Script.runtime)
           (factory Script.runtime
              (Samples.factoryOf Script.runtime Samples.oneActivity))
           (Samples.failed 7 5 None []) 5 "0" s eq_refl H1 H2).
Defined.

(** A factory that knows no workflow type. *)
Lemma factory_error_witness :
  let unknown (t : m.WorkflowType)
        : option (workflowDefinition Script.runtime) * option Error :=
    (None, Some (NewError "unknown workflow type" [])) in
  let s := newHandler Script.runtime Samples.info 0 in
  m.HistoryEvent.EventType (Samples.started 1 Samples.x)
  = m.EventType_WorkflowExecutionStarted
  /\ factory Script.runtime unknown (workflowType (workflowInfo (context s))) s
     = (Val (None, Some (NewError "unknown workflow type" [])), s)
  /\ processEvent Script.runtime unknown (Some (Samples.started 1 Samples.x)) s
     = (Val (None, Some (ErrorOf (NewError "unknown workflow type" []))),
        setWorkflowDefinition None s).
Proof.
  intros unknown s. split; [reflexivity|]. split; [reflexivity|].
  unfold processEvent.
  exact (proj1 (WorkflowExecutionStarted_stops_at_a_factory_error
                  (callResultHandler Script.runtime) (Execute Script.runtime)
                  (factory Script.runtime unknown)
                  (Samples.started 1 Samples.x)
                  (None, Some (NewError "unknown workflow type" [])) s s
                  eq_refl eq_refl)
           (NewError "unknown workflow type" []) eq_refl).
Defined.

Lemma generated_activity_ids_witness :
  let requests := [(Samples.request Samples.x, Some 1%nat);
                   (Samples.request Samples.y, Some 2%nat)] in
  Forall (fun request => ActivityID (fst request) = None) requests
  /\ Z.of_nat (length requests) <= 2 ^ 31
  /\ scheduledActivites (scheduleAll requests (newWorkflowContext Samples.info))
       !! "1" = Some (Some 2%nat).
Proof.
  intros requests.
  assert (H1 : Forall (fun request => ActivityID (fst request) = None) requests)
    by (repeat constructor).
  assert (H2 : Z.of_nat (length requests) <= 2 ^ 31) by (cbn; lia).
  split; [exact H1|]. split; [exact H2|].
  pose proof (generated_activity_ids_do_not_collide nat Samples.info requests H1 H2)
    as H.
  cbv zeta in H. destruct H as [H _].
  exact (H 1%nat (Samples.request Samples.y, Some 2%nat) eq_refl).
Defined.

(** The completion of the activity of S1, delivered a second time. *)
Lemma workflow_panics_witness :
  let s := snd (replay Script.runtime
                  (Samples.factoryOf Script.runtime Samples.oneActivity)
                  Samples.S1 (newHandler Script.runtime Samples.info 0)) in
  fst (processEvent Script.runtime
         (Samples.factoryOf Script.runtime Samples.oneActivity)
         (Some (Samples.completed 8 5 Samples.y)) s)
  = Panicked dispatcherClosed
  /\ (dispatcherClosed = nilDereference
      \/ dispatcherClosed = "unexpected"
      \/ dispatcherClosed = dispatcherClosed).
Proof.
  intros s.
  assert (H : fst (processEvent Script.runtime
                     (Samples.factoryOf Script.runtime Samples.oneActivity)
                     (Some (Samples.completed 8 5 Samples.y)) s)
              = Panicked dispatcherClosed)
    by (vm_compute; reflexivity).
  split; [exact H|].
  exact (workflow_panics_do_not_escape_ProcessEvent Script.runtime
           (Samples.factoryOf Script.runtime Samples.oneActivity)
           (Some (Samples.completed 8 5 Samples.y)) s dispatcherClosed H).
Defined.

Lemma WorkflowExecutionStarted_witness :
  let s := newHandler Script.runtime Samples.info 0 in
  let attributes :=
    {| m.WorkflowExecutionStartedEventAttributes.Input := Samples.x |} in
  let d := NewWorkflowDefinition Script.runtime Samples.oneActivity in
  m.HistoryEvent.EventType (Samples.started 1 Samples.x)
  = m.EventType_WorkflowExecutionStarted
  /\ m.HistoryEvent.WorkflowExecutionStartedEventAttributes
       (Samples.started 1 Samples.x) = Some attributes
  /\ Samples.factoryOf Script.runtime Samples.oneActivity
       (workflowType (workflowInfo (context s))) = (Some d, None)
  /\ fst (processEvent Script.runtime
            (Samples.factoryOf Script.runtime Samples.oneActivity)
            (Some (Samples.started 1 Samples.x)) s)
     = Val (Some [scheduleDecision "0" (Samples.request Samples.x)], None).
Proof.
  intros s attributes d.
  split; [reflexivity|]. split; [reflexivity|]. split; [reflexivity|].
  pose proof (WorkflowExecutionStarted_returns_the_decisions_of_the_first_run
                Script.runtime
                (Samples.factoryOf Script.runtime Samples.oneActivity)
                (Samples.started 1 Samples.x) attributes d s
                eq_refl eq_refl eq_refl) as H.
  cbv zeta in H. destruct H as [H _]. exact H.
Defined.

(** A context whose workflow returns its input at once. *)
Lemma executeDispatcher_completes_witness :
  let ctx := {| dispatcher :=
                  NewDispatcher Script.runtime
                    (Script.start Samples.returnsAtOnce Samples.x);
                result := None |} in
  let s := setWorld {| completions := []; contexts := [ctx]; ambient := 0 |}
             (newHandler Script.runtime Samples.info 0) in
  contexts Script.runtime (world s) !! 0%nat = Some ctx
  /\ closed Script.runtime (dispatcher Script.runtime ctx) = false
  /\ completions Script.runtime
       (world (snd (executeDispatcher Script.runtime 0 s)))
     = [(Samples.x, None)].
Proof.
  intros ctx s. split; [reflexivity|]. split; [reflexivity|].
  pose proof (executeDispatcher_completes_with_the_result_of_the_workflow
                Script.runtime 0 ctx s eq_refl eq_refl) as H.
  cbv zeta in H. destruct H as [H _].
  destruct (H {| workflowResult_ := Samples.x; error_ := None |} eq_refl eq_refl)
    as (_ & Hcompletions & _).
  exact Hcompletions.
Defined.

(** A callback whose result channel still holds the value of an earlier
    send. *)
Lemma activity_callback_witness :
  let cs := {| Script.root := Script.Done; Script.channelSequence := 1;
               Script.buffered := {[ 0%nat ]}; Script.frames := ∅ |} in
  let ctx := {| dispatcher := NewDispatcher Script.runtime cs; result := None |} in
  let s := setWorld {| completions := []; contexts := [ctx]; ambient := 0 |}
             (newHandler Script.runtime Samples.info 0) in
  let h := Build_activityCallback Script.runtime 0%nat 0%nat in
  contexts Script.runtime (world s) !! callback_c Script.runtime h = Some ctx
  /\ fst (SendAsync Script.runtime (callback_resultChannel Script.runtime h)
            (assigned Script.runtime (callback_resultChannel Script.runtime h)
               Samples.y None
               (coroutines Script.runtime (dispatcher Script.runtime ctx))))
     = false
  /\ fst (callResultHandler Script.runtime h Samples.y None s)
     = Panicked "unexpected".
Proof.
  intros cs ctx s h.
  assert (H2 : fst (SendAsync Script.runtime (callback_resultChannel Script.runtime h)
                      (assigned Script.runtime
                         (callback_resultChannel Script.runtime h) Samples.y None
                         (coroutines Script.runtime (dispatcher Script.runtime ctx))))
               = false)
    by (vm_compute; reflexivity).
  split; [reflexivity|]. split; [exact H2|].
  pose proof (activity_callback_panics_when_the_channel_refuses
                Script.runtime h Samples.y None ctx s eq_refl H2) as H.
  cbv zeta in H. destruct H as [H _]. exact H.
Defined.

(** The callback of activity "0" and the mapping of event 5 outlive the
    completion of the workflow. *)
Lemma registrations_witness :
  let s' := snd (replay Script.runtime
                   (Samples.factoryOf Script.runtime Samples.oneActivity)
                   [Some (Samples.completed 7 5 Samples.y)] Samples.awaiting) in
  is_Some (scheduledActivites (context Samples.awaiting) !! "0")
  /\ is_Some (scheduledActivites (context s') !! "0").
Proof.
  intros s'.
  assert (H : is_Some (scheduledActivites (context Samples.awaiting) !! "0")).
  { exists (Some (Build_activityCallback Script.runtime 0%nat 0%nat)).
    vm_compute. reflexivity. }
  split; [exact H|].
  exact (proj1 (registrations_are_never_removed Script.runtime
                  (Samples.factoryOf Script.runtime Samples.oneActivity)
                  [Some (Samples.completed 7 5 Samples.y)] Samples.awaiting "0" 5)
           H).
Defined.

Lemma IncCounter_adds_up_witness :
  let s := {| metrics.reporter := metrics.NewSimpleReporter 0;
              metrics.logger := [] |} in
  let increments := [("workflows-start-total", 1); ("no-such-metric", 5);
                     ("workflows-start-total", 2)] in
  Forall metrics.int64 (metrics.counters (metrics.reporter s))
  /\ metrics.workflowsStartCount
       (metrics.reporter (snd (metrics.incCounters increments s)))
     = 3
  /\ metrics.logger (snd (metrics.incCounters increments s))
     = [metrics.WithField_Error "name" "no-such-metric" "Unknown metric"].
Proof.
  intros s increments.
  assert (H : Forall metrics.int64 (metrics.counters (metrics.reporter s))).
  { repeat apply Forall_cons_2; try apply List.Forall_nil;
      unfold metrics.int64, metrics.MinInt64, metrics.MaxInt64; cbn; lia. }
  split; [exact H|].
  pose proof (IncCounter_adds_up_by_name s increments H) as Hsum.
  cbv zeta in Hsum.
  destruct Hsum as (_ & Hstarted & _ & _ & _ & _ & _ & _ & _ & _ & _ & _ & Hlogger).
  split; [exact Hstarted | exact Hlogger].
Defined.

(** A millisecond and a half counts as one millisecond. *)
Lemma RecordTimer_witness :
  let s := {| metrics.reporter := metrics.NewSimpleReporter 0;
              metrics.logger := [] |} in
  metrics.int64 1500000
  /\ metrics.RecordTimer metrics.ActivityEndToEndLatency None 1500000 s
     = metrics.IncCounter metrics.ActivityEndToEndLatency None 1 s.
Proof.
  intros s.
  assert (H : metrics.int64 1500000)
    by (unfold metrics.int64, metrics.MinInt64, metrics.MaxInt64; lia).
  split; [exact H|].
  exact (proj1 (RecordTimer_counts_whole_milliseconds
                  metrics.ActivityEndToEndLatency None 1500000 s H)).
Defined.

(** A watch stopped 999999 nanoseconds after its start. *)
Lemma Stop_witness :
  let s := {| metrics.reporter := metrics.NewSimpleReporter 0;
              metrics.logger := [] |} in
  let w := metrics.StartTimer 5000 metrics.DecisionsEndToEndLatency None in
  0 <= 1004999 - 5000 < metrics.Millisecond
  /\ Forall metrics.int64 (metrics.counters (metrics.reporter s))
  /\ metrics.isMetricName metrics.DecisionsEndToEndLatency = true
  /\ snd (metrics.Stop 1004999 w s) = s.
Proof.
  intros s w.
  assert (H1 : 0 <= 1004999 - 5000 < metrics.Millisecond)
    by (unfold metrics.Millisecond; lia).
  assert (H2 : Forall metrics.int64 (metrics.counters (metrics.reporter s))).
  { repeat apply Forall_cons_2; try apply List.Forall_nil;
      unfold metrics.int64, metrics.MinInt64, metrics.MaxInt64; cbn; lia. }
  assert (H3 : metrics.isMetricName metrics.DecisionsEndToEndLatency = true)
    by (vm_compute; reflexivity).
  split; [exact H1|]. split; [exact H2|]. split; [exact H3|].
  pose proof (Stop_records_the_time_since_StartTimer
                metrics.DecisionsEndToEndLatency None 5000 1004999 s) as H.
  cbv zeta in H. destruct H as (_ & _ & H). exact (H H1 H2 H3).
Defined.

(** The first report of a reporter that counted three started workflows. *)
Lemma PrintStressMetric_first_report_witness :
  let s := snd (metrics.IncCounter metrics.WorkflowsStartTotalCounter None 3
                  {| metrics.reporter := metrics.NewSimpleReporter 1000;
                     metrics.logger := [] |}) in
  (metrics.previousReportTime (metrics.reporter s) = 0
   \/ - metrics.Second < 5000000000 - metrics.previousReportTime (metrics.reporter s)
      < metrics.Second)
  /\ exists rest,
       metrics.logger (snd (metrics.PrintStressMetric 5000000000 s))
       = metrics.Infof "Workflows Started(Count=%v, Throughput=%v)"
           [metrics.Int64Value 3; metrics.Int64Value 0] :: rest.
Proof.
  intros s.
  assert (H : metrics.previousReportTime (metrics.reporter s) = 0
              \/ - metrics.Second
                 < 5000000000 - metrics.previousReportTime (metrics.reporter s)
                 < metrics.Second)
    by (left; reflexivity).
  split; [exact H|].
  destruct (PrintStressMetric_needs_a_second_for_a_throughput 5000000000 s H)
    as (latency & activityLatency & Hlines).
  rewrite Hlines. eexists. reflexivity.
Defined.

(** Two completed workflows, reported in the first second. *)
Lemma PrintFinalMetric_witness :
  let s := snd (metrics.IncCounter metrics.WorkflowsCompletionTotalCounter None 2
                  {| metrics.reporter := metrics.NewSimpleReporter 1000;
                     metrics.logger := [] |}) in
  metrics.quot64 (metrics.Sub 999999999 (metrics.startTime (metrics.reporter s)))
    metrics.Second = 0
  /\ 0 < metrics.workflowsCompletionCount (metrics.reporter s)
  /\ metrics.PrintFinalMetric 999999999 s = (Panicked metrics.divideByZero, s).
Proof.
  intros s.
  assert (H1 : metrics.quot64
                 (metrics.Sub 999999999 (metrics.startTime (metrics.reporter s)))
                 metrics.Second = 0)
    by (vm_compute; reflexivity).
  assert (H2 : 0 < metrics.workflowsCompletionCount (metrics.reporter s))
    by (vm_compute; reflexivity).
  split; [exact H1|]. split; [exact H2|].
  pose proof (PrintFinalMetric_panics_within_the_first_second 999999999 s) as H.
  cbv zeta in H. destruct H as [H _].
  exact (H H1 (or_introl H2)).
Defined.

(** One workflow started and completed. *)
Lemma IsProcessComplete_witness :
  let increments := [(metrics.WorkflowsStartTotalCounter, 1);
                     (metrics.WorkflowsCompletionTotalCounter, 1)] in
  (0 < metrics.wrap64 (metrics.deltasOf metrics.WorkflowsStartTotalCounter increments)
   /\ metrics.wrap64 (metrics.deltasOf metrics.WorkflowsStartTotalCounter increments)
      = metrics.wrap64
          (metrics.deltasOf metrics.WorkflowsCompletionTotalCounter increments))
  /\ metrics.IsProcessComplete
       (metrics.reporter
          (snd (metrics.incCounters increments
                  {| metrics.reporter := metrics.NewSimpleReporter 0;
                     metrics.logger := [] |})))
     = true.
Proof.
  intros increments.
  assert (H : 0 < metrics.wrap64
                    (metrics.deltasOf metrics.WorkflowsStartTotalCounter increments)
              /\ metrics.wrap64
                   (metrics.deltasOf metrics.WorkflowsStartTotalCounter increments)
                 = metrics.wrap64
                     (metrics.deltasOf metrics.WorkflowsCompletionTotalCounter
                        increments))
    by (vm_compute; split; reflexivity).
  split; [exact H|].
  exact (proj2 (IsProcessComplete_compares_the_sums 0 [] increments) H).
Defined.

(** The completion of event 5 in S1: the workflow returns what the activity
    returned, and no decision follows. *)
Lemma terminal_event_resumes_witness :
  let h := Build_activityCallback Script.runtime 0%nat 0%nat in
  let ctx :=
    {| dispatcher :=
         NewDispatcher Script.runtime
           {| Script.root := Script.Receiving 0 (fun r e => Script.Return r e);
              Script.channelSequence := 1;
              Script.buffered := ∅;
              Script.frames := ∅ |};
       result := None |} in
  terminalScheduledEventId (Samples.completed 7 5 Samples.y) = Some 5
  /\ callbackArguments (Samples.completed 7 5 Samples.y) = Some (Val (Samples.y, None))
  /\ scheduledEventIDToActivityID (context Samples.awaiting) !! 5 = Some "0"
  /\ scheduledActivites (context Samples.awaiting) !! "0" = Some (Some h)
  /\ contexts Script.runtime (world Samples.awaiting) !! callback_c Script.runtime h
     = Some ctx
  /\ closed Script.runtime (dispatcher Script.runtime ctx) = false
  /\ fst (SendAsync Script.runtime (callback_resultChannel Script.runtime h)
            (assigned Script.runtime (callback_resultChannel Script.runtime h)
               Samples.y None
               (coroutines Script.runtime (dispatcher Script.runtime ctx))))
     = true
  /\ fst (processEvent Script.runtime
            (Samples.factoryOf Script.runtime Samples.oneActivity)
            (Some (Samples.completed 7 5 Samples.y)) Samples.awaiting)
     = Val (Some [], None).
Proof.
  intros h ctx.
  assert (H3 : scheduledEventIDToActivityID (context Samples.awaiting) !! 5 = Some "0")
    by (vm_compute; reflexivity).
  assert (H4 : scheduledActivites (context Samples.awaiting) !! "0" = Some (Some h))
    by (vm_compute; reflexivity).
  assert (H5 : contexts Script.runtime (world Samples.awaiting)
                 !! callback_c Script.runtime h = Some ctx)
    by (vm_compute; reflexivity).
  assert (H7 : fst (SendAsync Script.runtime (callback_resultChannel Script.runtime h)
                      (assigned Script.runtime
                         (callback_resultChannel Script.runtime h) Samples.y None
                         (coroutines Script.runtime (dispatcher Script.runtime ctx))))
               = true)
    by (vm_compute; reflexivity).
  split; [reflexivity|]. split; [reflexivity|]. split; [exact H3|].
  split; [exact H4|]. split; [exact H5|]. split; [reflexivity|]. split; [exact H7|].
  pose proof (terminal_event_resumes_the_workflow Script.runtime
                (Samples.factoryOf Script.runtime Samples.oneActivity)
                (Samples.completed 7 5 Samples.y) 5 "0" h Samples.y None ctx
                Samples.awaiting eq_refl eq_refl H3 H4 H5 eq_refl H7) as H.
  cbv zeta in H. destruct H as [H _]. exact H.
Defined.

(** S1 with a workflow that panics once its activity is done: the root
    function does not return and the result slot stays empty, and
    [Complete] gets the panic. *)
Lemma panic_after_the_activity_is_reported :
  let panicsLate (input : bytes) : Script.Code :=
    Script.CallActivity (Samples.request input)
      (fun _ _ => Script.Panic "late") in
  let out := replay Script.runtime (Samples.factoryOf Script.runtime panicsLate)
               Samples.S1 (newHandler Script.runtime Samples.info 0) in
  nth_error (fst out) 2 = Some (Val (Some [], None))
  /\ completions Script.runtime (world (snd out))
     = [([], Some (errorImpl "late" (bytes_of_string (Script.stackOf "late"))))].
Proof. vm_compute. split; reflexivity. Qed.


